(** * Verification of the azure-pricing-mcp server

    Shallow embedding of
    [.github/mcp/azure-pricing-mcp/azure_pricing_mcp/server.py]:
    the Content-Length framing of [_mcp_write] and of the read loop of
    [run_mcp_stdio], the retrying [fetch_prices], the tools
    [price_search] and [cost_estimate], and the dispatcher [handle].

    Conventions.  Python [int] is [Z]; [bytes] is [list byte]; [str] is a
    list of Unicode code points ([list Z]); [float] is idealised as a
    rational (no rounding, no overflow), with the two infinities and NaN
    added where JSON values can carry them; a function that can raise
    returns a sum whose left side is the exception; what the process does
    to the outside is a trace of events. *)

From Stdlib Require Import String Ascii.
From Stdlib Require Import Strings.Byte.
From Stdlib Require Import ZArith QArith List Bool Lia.
From Equations Require Import Equations.
Import ListNotations.

Local Open Scope Z_scope.

(* ===================================================================== *)
(** * Python built-ins used by the server *)
(* ===================================================================== *)

Module Py.

(** [str]: code points. *)
Definition str := list Z.

(** An ASCII literal of the source as a [str]. *)
Definition lit (s : string) : str :=
  map (fun a => Z.of_N (N_of_ascii a)) (list_ascii_of_string s).

(** The value of a byte, [0..255]. *)
Definition byteZ (b : byte) : Z := Z.of_N (Byte.to_N b).

(** The byte of a value below 256. *)
Definition byte_of_Z (z : Z) : byte :=
  match Byte.of_N (Z.to_N z) with Some b => b | None => x00 end.

(** [s.encode("utf-8")] for a [str] made of ASCII characters only. *)
Definition encode_ascii (s : str) : list byte := map byte_of_Z s.

(** [len(x)]. *)
Definition len {A} (l : list A) : Z := Z.of_nat (length l).

(** Slices [l[:hi]], [l[lo:]] and [l[lo:hi]] for indices that are not
    negative (the only ones the server computes); indices past the end are
    clamped as Python does. *)
Definition slice_to {A} (hi : Z) (l : list A) : list A := firstn (Z.to_nat hi) l.
Definition slice_from {A} (lo : Z) (l : list A) : list A := skipn (Z.to_nat lo) l.
Definition slice {A} (lo hi : Z) (l : list A) : list A :=
  firstn (Z.to_nat hi - Z.to_nat lo)%nat (skipn (Z.to_nat lo) l).

(** [range(n)]. *)
Definition range (n : Z) : list Z := map Z.of_nat (seq 0 (Z.to_nat n)).

(** ** bytes.find *)

Fixpoint starts_with (sub l : list byte) : bool :=
  match sub, l with
  | [], _ => true
  | _ :: _, [] => false
  | a :: sub', b :: l' => Byte.eqb a b && starts_with sub' l'
  end.

(** [find_from sub l i]: the index, counted from [i], of the first
    occurrence of [sub] in [l], or [-1]. *)
Fixpoint find_from (sub l : list byte) (i : Z) : Z :=
  if starts_with sub l then i
  else match l with
       | [] => -1
       | _ :: l' => find_from sub l' (i + 1)
       end.

(** [l.find(sub)]. *)
Definition find (l sub : list byte) : Z := find_from sub l 0.

(** ** bytes.decode("utf-8", errors="ignore")

    CPython's decoder: a well-formed sequence yields its code point; an
    invalid start byte is dropped; a start byte followed by an invalid
    continuation drops the bytes read so far and resumes at the offending
    byte; a sequence cut by the end of the input drops the rest. *)

Definition is_cont (c : Z) : bool := (0x80 <=? c) && (c <=? 0xBF).

Fixpoint utf8_decode_ignore (bs : list byte) : str :=
  match bs with
  | [] => []
  | b1 :: r1 =>
    let c1 := byteZ b1 in
    if c1 <? 0x80 then c1 :: utf8_decode_ignore r1
    else if c1 <? 0xC2 then utf8_decode_ignore r1
    else if c1 <? 0xE0 then
      match r1 with
      | [] => []
      | b2 :: r2 =>
        let c2 := byteZ b2 in
        if is_cont c2
        then Z.lor (Z.shiftl (Z.land c1 0x1F) 6) (Z.land c2 0x3F)
             :: utf8_decode_ignore r2
        else utf8_decode_ignore r1
      end
    else if c1 <? 0xF0 then
      match r1 with
      | [] => []
      | b2 :: r2 =>
        let c2 := byteZ b2 in
        if negb (is_cont c2) || ((c1 =? 0xE0) && (c2 <? 0xA0))
           || ((c1 =? 0xED) && (0xA0 <=? c2))
        then utf8_decode_ignore r1
        else
          match r2 with
          | [] => []
          | b3 :: r3 =>
            let c3 := byteZ b3 in
            if is_cont c3
            then Z.lor (Z.shiftl (Z.land c1 0x0F) 12)
                   (Z.lor (Z.shiftl (Z.land c2 0x3F) 6) (Z.land c3 0x3F))
                 :: utf8_decode_ignore r3
            else utf8_decode_ignore r2
          end
      end
    else if c1 <? 0xF5 then
      match r1 with
      | [] => []
      | b2 :: r2 =>
        let c2 := byteZ b2 in
        if negb (is_cont c2) || ((c1 =? 0xF0) && (c2 <? 0x90))
           || ((c1 =? 0xF4) && (0x90 <=? c2))
        then utf8_decode_ignore r1
        else
          match r2 with
          | [] => []
          | b3 :: r3 =>
            let c3 := byteZ b3 in
            if negb (is_cont c3) then utf8_decode_ignore r2
            else
              match r3 with
              | [] => []
              | b4 :: r4 =>
                let c4 := byteZ b4 in
                if is_cont c4
                then Z.lor (Z.shiftl (Z.land c1 0x07) 18)
                       (Z.lor (Z.shiftl (Z.land c2 0x3F) 12)
                          (Z.lor (Z.shiftl (Z.land c3 0x3F) 6)
                                 (Z.land c4 0x3F)))
                     :: utf8_decode_ignore r4
                else utf8_decode_ignore r3
              end
          end
      end
    else utf8_decode_ignore r1
  end.

(** ** Character classes of [re] on [str] and of [str.strip] *)

(** [\s] and [str.isspace]: the code points CPython treats as white
    space. *)
Definition is_space (c : Z) : bool :=
  ((0x09 <=? c) && (c <=? 0x0D)) || ((0x1C <=? c) && (c <=? 0x20))
  || (c =? 0x85) || (c =? 0xA0) || (c =? 0x1680)
  || ((0x2000 <=? c) && (c <=? 0x200A))
  || (c =? 0x2028) || (c =? 0x2029) || (c =? 0x202F) || (c =? 0x205F)
  || (c =? 0x3000).

(** The code points of the digit zero of every decimal script (category
    Nd, Unicode 14.0 as in CPython 3.11); the digits 1..9 of a script
    follow its zero. *)
Definition decimal_zeros : list Z :=
  [ 0x30; 0x660; 0x6f0; 0x7c0; 0x966; 0x9e6; 0xa66; 0xae6; 0xb66; 0xbe6;
    0xc66; 0xce6; 0xd66; 0xde6; 0xe50; 0xed0; 0xf20; 0x1040; 0x1090;
    0x17e0; 0x1810; 0x1946; 0x19d0; 0x1a80; 0x1a90; 0x1b50; 0x1bb0;
    0x1c40; 0x1c50; 0xa620; 0xa8d0; 0xa900; 0xa9d0; 0xa9f0; 0xaa50;
    0xabf0; 0xff10; 0x104a0; 0x10d30; 0x11066; 0x110f0; 0x11136; 0x111d0;
    0x112f0; 0x11450; 0x114d0; 0x11650; 0x116c0; 0x11730; 0x118e0;
    0x11950; 0x11c50; 0x11d50; 0x11da0; 0x16a60; 0x16ac0; 0x16b50;
    0x1d7ce; 0x1d7d8; 0x1d7e2; 0x1d7ec; 0x1d7f6; 0x1e140; 0x1e2f0;
    0x1e950; 0x1fbf0 ].

Fixpoint decimal_in (zeros : list Z) (c : Z) : option Z :=
  match zeros with
  | [] => None
  | z :: zeros' =>
    if (z <=? c) && (c <? z + 10) then Some (c - z) else decimal_in zeros' c
  end.

(** The digit value of a code point matched by [\d], as [int] reads it. *)
Definition decimal_value (c : Z) : option Z := decimal_in decimal_zeros c.

(** [int(s)] for a [str] of decimal digits, given by their values. *)
Definition int_of_digits (ds : list Z) : Z :=
  fold_left (fun acc d => 10 * acc + d) ds 0.

(** Lower case of an ASCII letter; every other code point is kept. *)
Definition ascii_lower (c : Z) : Z :=
  if (65 <=? c) && (c <=? 90) then c + 32 else c.

(** ** str(n) for an int *)

(** The decimal digits of [n >= 0], most significant first.  The measure
    is the bit length, so that the definition runs on large numbers. *)
Equations? nat_digits (n : Z) : list Z by wf (Z.to_nat (Z.log2 n)) lt :=
  nat_digits n with Z_lt_dec n 10 => {
    | left _ := [n];
    | right _ := nat_digits (n / 10) ++ [n mod 10] }.
Proof.
  assert (1 <= n / 10) by (apply Z.div_le_lower_bound; lia).
  assert (2 * (n / 10) <= n).
  { pose proof (Z.mul_div_le n 10). lia. }
  assert (Z.log2 (2 * (n / 10)) <= Z.log2 n) by (apply Z.log2_le_mono; lia).
  rewrite Z.log2_double in * by lia.
  pose proof (Z.log2_nonneg (n / 10)). lia.
Qed.

(** [str(n)]: decimal digits, with a sign for a negative [n]. *)
Definition str_of_int (n : Z) : str :=
  if n <? 0 then 45 :: map (fun d => 48 + d) (nat_digits (- n))
  else map (fun d => 48 + d) (nat_digits n).

End Py.

(* ===================================================================== *)
(** * Content-Length framing: [_mcp_write] and the read loop *)
(* ===================================================================== *)

Module Frame.
Import Py.

(** The separator [b"\r\n\r\n"]. *)
Definition CRLFCRLF : list byte := [x0d; x0a; x0d; x0a].

(** [_mcp_write], line 92: the header
    [f"Content-Length: {len(payload)}\r\n\r\n".encode("utf-8")]. *)
Definition header (payload : list byte) : list byte :=
  encode_ascii (lit "Content-Length: " ++ str_of_int (len payload)
                ++ [13; 10; 13; 10]).

(** [_mcp_write], lines 93-94: the bytes written for a payload, the header
    and then the payload. *)
Definition encode (payload : list byte) : list byte :=
  header payload ++ payload.

(** ** re.search(r"Content-Length:\s*(\d+)", text, flags=re.IGNORECASE) *)

(** The literal part of the pattern; with IGNORECASE a character of the
    text matches a letter of the pattern when it is that ASCII letter in
    either case (no other code point lowers to one of these letters), and
    [-] and [:] match themselves. *)
Fixpoint match_literal (pat text : str) : option str :=
  match pat, text with
  | [], _ => Some text
  | _ :: _, [] => None
  | p :: pat', c :: text' =>
    if ascii_lower c =? ascii_lower p then match_literal pat' text' else None
  end.

Fixpoint skip_spaces (text : str) : str :=
  match text with
  | c :: text' => if is_space c then skip_spaces text' else text
  | [] => []
  end.

(** The values of the longest run of decimal digits at the head. *)
Fixpoint take_digits (text : str) : list Z :=
  match text with
  | c :: text' =>
    match decimal_value c with
    | Some d => d :: take_digits text'
    | None => []
    end
  | [] => []
  end.

(** A match that starts at the head of [text]: the literal, then the
    greedy [\s*], then the greedy group [(\d+)], whose digits are
    returned.  No white space is a digit, so giving back white space
    never helps and the greedy choice is the only match. *)
Definition match_here (text : str) : option (list Z) :=
  match match_literal (lit "Content-Length:") text with
  | None => None
  | Some after =>
    match take_digits (skip_spaces after) with
    | [] => None
    | ds => Some ds
    end
  end.

(** [re.search]: the match at the leftmost position that has one. *)
Fixpoint search (text : str) : option (list Z) :=
  match match_here text with
  | Some ds => Some ds
  | None =>
    match text with
    | [] => None
    | _ :: text' => search text'
    end
  end.

(** ** One turn of the inner [while True] loop (lines 216-243)

    [int(match.group(1))] is the value of the digits, of any length. *)

Inductive turn :=
| Wait                                  (* [break]: more bytes are needed *)
| Skip (rest : list byte)               (* malformed header block dropped *)
| Body (body rest : list byte).         (* one frame taken off the buffer *)

Definition decode_turn (buffer : list byte) : turn :=
  let header_end := find buffer CRLFCRLF in
  if header_end =? -1 then Wait
  else
    let header_bytes := slice_to header_end buffer in
    let header_text := utf8_decode_ignore header_bytes in
    match search header_text with
    | None => Skip (slice_from (header_end + 4) buffer)
    | Some digits =>
      let content_length := int_of_digits digits in
      let body_start := header_end + 4 in
      let body_end := body_start + content_length in
      if len buffer <? body_end then Wait
      else Body (slice body_start body_end buffer) (slice_from body_end buffer)
    end.

(** ** The inner loop

    [pump on_body buffer s] runs the inner [while True] loop on [buffer]
    until it breaks; [on_body] stands for what lines 238-243 do with the
    body of a frame (parse it and call [handle]) on the state [s] of the
    rest of the process.  It returns the buffer left and the final state.

    Every turn that does not break takes at least four bytes off the
    buffer, so the loop makes at most one turn per byte: [turns] counts
    them down from more than the length of the buffer, and never reaches
    zero before the loop breaks ([FrameFacts.pump_unfold]). *)

Fixpoint turns {St : Type} (n : nat) (on_body : list byte -> St -> St)
    (buffer : list byte) (s : St) : list byte * St :=
  match n with
  | O => (buffer, s)
  | S n' =>
    match decode_turn buffer with
    | Wait => (buffer, s)
    | Skip rest => turns n' on_body rest s
    | Body body rest => turns n' on_body rest (on_body body s)
    end
  end.

Definition pump {St : Type} (on_body : list byte -> St -> St)
    (buffer : list byte) (s : St) : list byte * St :=
  turns (S (length buffer)) on_body buffer s.

(** The frames the loop takes off a buffer, in order, and the buffer it
    leaves: the loop run with a callback that records each body. *)
Definition frames (buffer : list byte) : list (list byte) * list byte :=
  let '(rest, bodies) := pump (fun body acc => acc ++ [body]) buffer [] in
  (bodies, rest).


End Frame.

(* ===================================================================== *)
(** * Python values and exceptions *)
(* ===================================================================== *)

Module Value.
Import Py.

Set Warnings "-register-all".

(** A [float]: a rational for a finite one (rounding is not modelled),
    an infinity, or NaN. *)
Inductive pyfloat :=
| Finite (q : Q)
| Infinity (negative : bool)
| NaN.

(** The values [json.loads] builds, which are also the values the tools
    compute: [None], [bool], [int], [float], [str], [list], and [dict]
    with [str] keys in insertion order. *)
Inductive value :=
| JNull
| JBool (b : bool)
| JInt (n : Z)
| JFloat (f : pyfloat)
| JStr (s : str)
| JArr (items : list value)
| JObj (fields : list (str * value)).

Fixpoint str_eqb (a b : str) : bool :=
  match a, b with
  | [], [] => true
  | x :: a', y :: b' => (x =? y) && str_eqb a' b'
  | _, _ => false
  end.

(** The exception classes the server meets.  The first five are the
    classes of the [requests] package: [requests.ConnectionError],
    [requests.Timeout], [requests.HTTPError] (what [raise_for_status]
    raises) and [requests.JSONDecodeError] (what [Response.json] raises on
    a body that is not JSON) all derive from [requests.RequestException].
    The others are built-in classes.  All derive from [Exception]. *)
Inductive exn_class :=
| RequestException
| RequestsConnectionError
| RequestsTimeout
| RequestsHTTPError
| RequestsJSONDecodeError
| ValueError
| TypeError
| AttributeError
| IndexError
| KeyError
| OverflowError
| RuntimeError.

(** An exception object: its class and [str(exc)]. *)
Record exn := Raise { exn_class_of : exn_class; exn_str : str }.

(** [isinstance(exc, requests.RequestException)]. *)
Definition is_RequestException (e : exn) : bool :=
  match exn_class_of e with
  | RequestException | RequestsConnectionError | RequestsTimeout
  | RequestsHTTPError | RequestsJSONDecodeError => true
  | _ => false
  end.

(** The result of an expression that can raise. *)
Definition result (A : Type) : Type := exn + A.

(** [type(v).__name__]. *)
Definition type_name (v : value) : str :=
  match v with
  | JNull => lit "NoneType"
  | JBool _ => lit "bool"
  | JInt _ => lit "int"
  | JFloat _ => lit "float"
  | JStr _ => lit "str"
  | JArr _ => lit "list"
  | JObj _ => lit "dict"
  end.

(** [bool(v)], as [if], [not] and [or] use it. *)
Definition truthy (v : value) : bool :=
  match v with
  | JNull => false
  | JBool b => b
  | JInt n => negb (n =? 0)
  | JFloat (Finite q) => negb (Qeq_bool q 0)
  | JFloat _ => true
  | JStr s => match s with [] => false | _ => true end
  | JArr l => match l with [] => false | _ => true end
  | JObj l => match l with [] => false | _ => true end
  end.

(** [a or b]. *)
Definition or_ (a b : value) : value := if truthy a then a else b.

(** [v == s] for a [str] literal [s]. *)
Definition eq_str (v : value) (s : str) : bool :=
  match v with JStr s' => str_eqb s' s | _ => false end.

(** Lookup in a [dict]. *)
Fixpoint lookup (k : str) (fields : list (str * value)) : option value :=
  match fields with
  | [] => None
  | (k', v) :: fields' => if str_eqb k' k then Some v else lookup k fields'
  end.

(** [d.get(k, default)] on a [dict]. *)
Definition dict_get (fields : list (str * value)) (k : str) (default : value)
  : value :=
  match lookup k fields with Some v => v | None => default end.

(** [v.get(k, default)] on any value: only a [dict] has the method. *)
Definition get (v : value) (k : str) (default : value) : result value :=
  match v with
  | JObj fields => inr (dict_get fields k default)
  | _ => inl (Raise AttributeError
                (lit "'" ++ type_name v
                 ++ lit "' object has no attribute 'get'"))
  end.

(** [len(v)]. *)
Definition len_ (v : value) : result Z :=
  match v with
  | JStr s => inr (len s)
  | JArr l => inr (len l)
  | JObj l => inr (len l)
  | _ => inl (Raise TypeError
                (lit "object of type '" ++ type_name v ++ lit "' has no len()"))
  end.

(** [v[:5]]. *)
Definition slice5 (v : value) : result value :=
  match v with
  | JStr s => inr (JStr (slice_to 5 s))
  | JArr l => inr (JArr (slice_to 5 l))
  | JObj _ => inl (Raise TypeError (lit "unhashable type: 'slice'"))
  | _ => inl (Raise TypeError
                (lit "'" ++ type_name v ++ lit "' object is not subscriptable"))
  end.

(** [v[0]] for a [v] that is not empty (line 74 runs after [if not
    items]); the first character of a [str] is a [str]. *)
Definition first_item (v : value) : result value :=
  match v with
  | JArr (x :: _) => inr x
  | JStr (c :: _) => inr (JStr [c])
  | JArr [] => inl (Raise IndexError (lit "list index out of range"))
  | JStr [] => inl (Raise IndexError (lit "string index out of range"))
  | JObj _ => inl (Raise KeyError (lit "0"))
  | _ => inl (Raise TypeError
                (lit "'" ++ type_name v ++ lit "' object is not subscriptable"))
  end.

End Value.

(* ===================================================================== *)
(** * Conversions and string methods *)
(* ===================================================================== *)

Module Builtins.
Import Py Value.

(** What the server takes from the interpreter and its [json] module and
    this development leaves open: the JSON codec, and [repr] for the
    values whose text depends on the float printer or on quoting rules. *)
Class Runtime := {
  (** [json.dumps(obj).encode("utf-8")] *)
  dumps : value -> list byte;
  (** [json.loads(body.decode("utf-8"))]; [None] when either call raises *)
  loads : list byte -> option value;
  (** [repr(v)] for a [float], a [list] or a [dict] *)
  repr : value -> str
}.

(** [str(v)], also what an f-string field prints. *)
Definition str_ `{Runtime} (v : value) : str :=
  match v with
  | JStr s => s
  | JNull => lit "None"
  | JBool true => lit "True"
  | JBool false => lit "False"
  | JInt n => str_of_int n
  | _ => repr v
  end.

(** ** str.strip and str.replace *)

Fixpoint lstrip (s : str) : str :=
  match s with
  | c :: s' => if is_space c then lstrip s' else s
  | [] => []
  end.

(** [s.strip()]. *)
Definition strip (s : str) : str := rev (lstrip (rev (lstrip s))).

(** [_odata_escape]: [value.replace("'", "''")]. *)
Definition _odata_escape (s : str) : str :=
  flat_map (fun c => if c =? 39 then [39; 39] else [c]) s.

(** [sep.join(parts)]. *)
Fixpoint join (sep : str) (parts : list str) : str :=
  match parts with
  | [] => []
  | [p] => p
  | p :: parts' => p ++ sep ++ join sep parts'
  end.

(** ** int(v) *)

(** [int(s)] for a [str]: every white-space character beyond ASCII
    counts as a blank and every decimal digit as its ASCII digit; then
    come blanks, a sign, digits that single underscores may separate,
    and blanks. *)
Definition is_ascii_space (c : Z) : bool :=
  ((0x09 <=? c) && (c <=? 0x0D)) || (c =? 0x20).

Definition to_ascii_digit (c : Z) : option Z :=
  if c <? 128 then Some c
  else if is_space c then Some 0x20
  else match decimal_value c with
       | Some d => Some (48 + d)
       | None => None
       end.

Fixpoint transform_decimal_and_space (s : str) : option str :=
  match s with
  | [] => Some []
  | c :: s' =>
    match to_ascii_digit c, transform_decimal_and_space s' with
    | Some c', Some t => Some (c' :: t)
    | _, _ => None
    end
  end.

Fixpoint skip_ascii_spaces (s : str) : str :=
  match s with
  | c :: s' => if is_ascii_space c then skip_ascii_spaces s' else s
  | [] => []
  end.

(** The digits of a literal: [acc] is the value read so far, [seen] tells
    whether a digit was read, [underscore] whether the last character was
    an underscore (or nothing was read yet).  Returns the value and the
    text left. *)
Fixpoint read_digits (s : str) (acc : Z) (seen underscore : bool)
  : option (Z * str) :=
  match s with
  | c :: s' =>
    if (48 <=? c) && (c <=? 57)
    then read_digits s' (10 * acc + (c - 48)) true false
    else if c =? 95
    then if underscore then None else read_digits s' acc seen true
    else if seen && negb underscore then Some (acc, s) else None
  | [] => if seen && negb underscore then Some (acc, []) else None
  end.

Definition int_of_str (s : str) : option Z :=
  match transform_decimal_and_space s with
  | None => None
  | Some t =>
    let t1 := skip_ascii_spaces t in
    let '(sign, t2) :=
      match t1 with
      | 43 :: r => (1, r)
      | 45 :: r => (-1, r)
      | _ => (1, t1)
      end in
    match read_digits t2 0 false true with
    | None => None
    | Some (n, t3) =>
      match skip_ascii_spaces t3 with
      | [] => Some (sign * n)
      | _ => None
      end
    end
  end.

(** [int(v)]; [None] when it raises (line 196 catches every exception and
    does not look at it).  A finite float is truncated towards zero. *)
Definition int_ (v : value) : option Z :=
  match v with
  | JInt n => Some n
  | JBool b => Some (if b then 1 else 0)
  | JFloat (Finite q) => Some (Z.quot (Qnum q) (Zpos (Qden q)))
  | JFloat _ => None
  | JStr s => int_of_str s
  | _ => None
  end.

(** ** v * n for an int n *)

Fixpoint repeat_list {A} (l : list A) (n : nat) : list A :=
  match n with
  | O => []
  | S n' => l ++ repeat_list l n'
  end.

Definition float_mul_int (f : pyfloat) (n : Z) : pyfloat :=
  match f with
  | Finite q => Finite (q * inject_Z n)
  | Infinity neg =>
    if n =? 0 then NaN else Infinity (if n <? 0 then negb neg else neg)
  | NaN => NaN
  end.

Definition mul_int (v : value) (n : Z) : result value :=
  match v with
  | JInt a => inr (JInt (a * n))
  | JBool b => inr (JInt ((if b then 1 else 0) * n))
  | JFloat f => inr (JFloat (float_mul_int f n))
  | JStr s => inr (JStr (repeat_list s (Z.to_nat n)))
  | JArr l => inr (JArr (repeat_list l (Z.to_nat n)))
  | _ => inl (Raise TypeError
                (lit "unsupported operand type(s) for *: '" ++ type_name v
                 ++ lit "' and 'int'"))
  end.

End Builtins.

(* ===================================================================== *)
(** * The process: configuration, the upstream and effects *)
(* ===================================================================== *)

Module World.
Import Py Value.

(** The module-level constants of lines 11-16, read once from the
    environment. *)
Record config := {
  PRICING_API : str;
  TIMEOUT : Z;
  RETRIES : Z;
  BACKOFF : Q;
  DEFAULT_REGION : option str;
  DEFAULT_CURRENCY : option str
}.

(** The defaults of lines 11-16, used when the environment sets nothing. *)
Definition default_config : config := {|
  PRICING_API := lit "https://prices.azure.com/api/retail/prices";
  TIMEOUT := 10;
  RETRIES := 3;
  BACKOFF := 0.5;
  DEFAULT_REGION := None;
  DEFAULT_CURRENCY := None
|}.

(** [os.getenv] gives [None] or a [str]. *)
Definition of_env (o : option str) : value :=
  match o with Some s => JStr s | None => JNull end.

(** One call [requests.get(url, params={"$filter": filter}, timeout=t)]. *)
Record request := {
  req_url : str;
  req_filter : str;
  req_timeout : Z
}.

(** The response object as [fetch_prices] uses it: what
    [resp.raise_for_status()] raises, if anything, and what [resp.json()]
    returns or raises. *)
Record response := {
  raise_for_status : option exn;
  json : result value
}.

(** What [requests.get] does: raise, or return a response. *)
Inductive get_outcome :=
| GetRaises (e : exn)
| GetReturns (resp : response).

(** The response [requests] builds for an HTTP status and a body, given as
    the JSON value it holds or [None] when it is not JSON:
    [raise_for_status] raises [HTTPError] for a status in 400..599, and
    [json] raises [requests.JSONDecodeError] for a body that is not JSON.
    [text] is the message of the exception, if one is raised. *)
Definition http_response (status : Z) (body : option value) (text : str)
  : response := {|
  raise_for_status :=
    if (400 <=? status) && (status <? 600)
    then Some (Raise RequestsHTTPError text)
    else None;
  json :=
    match body with
    | Some v => inr v
    | None => inl (Raise RequestsJSONDecodeError text)
    end
|}.

(** The upstream: the outcome of the [n]-th call of [requests.get] of the
    process (counted from 0), given the request. *)
Definition upstream := nat -> request -> get_outcome.

(** What the process does to the outside, in order: a call of
    [requests.get], a [time.sleep], a write to standard output. *)
Inductive event :=
| Get (rq : request)
| Sleep (d : Q)
| Write (bs : list byte).

(** The events of the process so far, oldest first. *)
Definition world := list event.

Definition start : world := [].

(** The calls of [requests.get] so far. *)
Fixpoint gets (w : world) : list request :=
  match w with
  | [] => []
  | Get rq :: w' => rq :: gets w'
  | _ :: w' => gets w'
  end.

(** The arguments of [time.sleep] so far. *)
Fixpoint sleeps (w : world) : list Q :=
  match w with
  | [] => []
  | Sleep d :: w' => d :: sleeps w'
  | _ :: w' => sleeps w'
  end.

(** The bytes written to standard output so far. *)
Fixpoint stdout (w : world) : list byte :=
  match w with
  | [] => []
  | Write bs :: w' => bs ++ stdout w'
  | _ :: w' => stdout w'
  end.

(** A computation that acts on the world and returns or raises. *)
Definition M (A : Type) : Type := world -> result A * world.

Definition ret {A} (a : A) : M A := fun w => (inr a, w).

Definition raise {A} (e : exn) : M A := fun w => (inl e, w).

Definition bind {A B} (m : M A) (k : A -> M B) : M B :=
  fun w =>
    match m w with
    | (inr a, w') => k a w'
    | (inl e, w') => (inl e, w')
    end.

(** A pure expression that can raise, as a computation. *)
Definition lift {A} (r : result A) : M A := fun w => (r, w).

Declare Scope py_scope.
Delimit Scope py_scope with py.
Notation "x <- m ;; k" := (bind m (fun x => k))
  (at level 61, m at next level, right associativity) : py_scope.
Notation "m ;;; k" := (bind m (fun _ => k))
  (at level 61, right associativity) : py_scope.

(** [time.sleep(d)]: the call is recorded and returns; the backoff is a
    duration, taken not to be negative. *)
Definition sleep (d : Q) : M unit := fun w => (inr tt, w ++ [Sleep d]).

(** [sys.stdout.buffer.write(bs)]: the bytes are recorded; writing and
    flushing are taken to succeed. *)
Definition write (bs : list byte) : M unit := fun w => (inr tt, w ++ [Write bs]).

(** [requests.get]: the call is recorded and the upstream answers, given
    how many calls came before. *)
Definition requests_get (up : upstream) (rq : request) : M response :=
  fun w =>
    match up (length (gets w)) rq with
    | GetRaises e => (inl e, w ++ [Get rq])
    | GetReturns resp => (inr resp, w ++ [Get rq])
    end.

End World.

(* ===================================================================== *)
(** * [fetch_prices] (lines 24-39) *)
(* ===================================================================== *)

Module Fetch.
Import Py Value World.
Local Open Scope py_scope.

Section Fetch.
Context (cfg : config) (up : upstream).

(** The call of line 29. *)
Definition request_of (filter_expr : str) : request :=
  {| req_url := PRICING_API cfg;
     req_filter := filter_expr;
     req_timeout := TIMEOUT cfg |}.

(** The body of the [try] (lines 29-31). *)
Definition attempt_body (filter_expr : str) : M value :=
  resp <- requests_get up (request_of filter_expr) ;;
  match raise_for_status resp with
  | Some e => raise e
  | None => lift (json resp)
  end.

(** What lines 29-31 yield when the call of line 29 is the [n]-th call of
    [requests.get] of the process. *)
Definition outcome (filter_expr : str) (n : nat) : result value :=
  match up n (request_of filter_expr) with
  | GetRaises e => inl e
  | GetReturns resp =>
    match raise_for_status resp with
    | Some e => inl e
    | None => json resp
    end
  end.

(** The [for] loop over the attempts left, with [last_error], and the
    lines 37-39 that follow it. *)
Fixpoint attempts (todo : list Z) (last_error : option exn)
    (filter_expr : str) : M value :=
  match todo with
  | [] =>
    match last_error with
    | Some e => raise e
    | None => raise (Raise RuntimeError (lit "Failed to fetch pricing data"))
    end
  | attempt :: todo' =>
    fun w =>
      match attempt_body filter_expr w with
      | (inr data, w1) => (inr data, w1)
      | (inl exc, w1) =>
        if is_RequestException exc then
          if attempt =? RETRIES cfg - 1 then (inl exc, w1)
          else
            (sleep (BACKOFF cfg * inject_Z (2 ^ attempt)) ;;;
             attempts todo' (Some exc) filter_expr) w1
        else (inl exc, w1)
      end
  end.

Definition fetch_prices (filter_expr : str) : M value :=
  attempts (range (RETRIES cfg)) None filter_expr.

End Fetch.
End Fetch.

(* ===================================================================== *)
(** * The tools: [price_search], [cost_estimate], [ping] *)
(* ===================================================================== *)

Module Tools.
Import Py Value Builtins World.
Local Open Scope py_scope.

Section Tools.
Context `{rt : Runtime} (cfg : config) (up : upstream).

Definition is_empty (s : str) : bool :=
  match s with [] => true | _ => false end.

(** A filter for an optional argument (lines 50-53 and 54-57): added when
    the argument is truthy and its stripped text is not empty. *)
Definition add_filter (filters : list str) (field : str) (arg : value)
  : list str :=
  if truthy arg then
    let escaped := _odata_escape (strip (str_ arg)) in
    if is_empty escaped then filters
    else filters ++ [field ++ lit " eq '" ++ escaped ++ lit "'"]
  else filters.

(** The filter expression of lines 48-58. *)
Definition filter_expr_of (sku : str) (region currency : value) : str :=
  let sku_escaped := _odata_escape (strip sku) in
  let filters := [lit "contains(skuName,'" ++ sku_escaped ++ lit "')"] in
  let filters := add_filter filters (lit "armRegionName") region in
  let filters := add_filter filters (lit "currencyCode") currency in
  join (lit " and ") filters.

(** [price_search] (lines 42-66).  [sku] is a [str] at both call sites,
    so [isinstance(sku, str)] holds. *)
Definition price_search (sku : str) (region currency : value) : M value :=
  if is_empty (strip sku)
  then raise (Raise ValueError (lit "sku must be a non-empty string"))
  else if 200 <? len sku
  then raise (Raise ValueError (lit "sku is too long"))
  else
    let filter_expr := filter_expr_of sku region currency in
    data <- Fetch.fetch_prices cfg up filter_expr ;;
    counted <- lift (get data (lit "Items") (JArr [])) ;;
    count <- lift (len_ counted) ;;
    listed <- lift (get data (lit "Items") (JArr [])) ;;
    items <- lift (slice5 listed) ;;
    ret (JObj [ (lit "status", JStr (lit "ok"));
                (lit "tool", JStr (lit "price_search"));
                (lit "sku", JStr sku);
                (lit "count", JInt count);
                (lit "items", items) ]).

(** [cost_estimate] (lines 69-83). *)
Definition cost_estimate (sku : str) (quantity : Z) (region currency : value)
  : M value :=
  search <- price_search sku region currency ;;
  items <- lift (get search (lit "items") (JArr [])) ;;
  if negb (truthy items)
  then ret (JObj [ (lit "status", JStr (lit "not-found"));
                   (lit "tool", JStr (lit "cost_estimate"));
                   (lit "sku", JStr sku) ])
  else
    first <- lift (first_item items) ;;
    listed <- lift (get first (lit "retailPrice") (JFloat (Finite 0))) ;;
    let price := or_ listed (JFloat (Finite 0)) in
    by_quantity <- lift (mul_int price quantity) ;;
    monthly <- lift (mul_int by_quantity 730) ;;
    ret (JObj [ (lit "status", JStr (lit "ok"));
                (lit "tool", JStr (lit "cost_estimate"));
                (lit "sku", JStr sku);
                (lit "quantity", JInt quantity);
                (lit "unit_price", price);
                (lit "monthly_usd", monthly) ]).

(** [ping] (lines 86-87). *)
Definition ping : value :=
  JObj [ (lit "status", JStr (lit "ok"));
         (lit "service", JStr (lit "azure-pricing-mcp")) ].

End Tools.
End Tools.

(* ===================================================================== *)
(** * The dispatcher [handle] and the loop of [run_mcp_stdio] *)
(* ===================================================================== *)

Module Server.
Import Py Value Builtins World Tools.
Local Open Scope py_scope.

Section Server.
Context `{rt : Runtime} (cfg : config) (up : upstream).

(** [_mcp_write] (lines 90-95). *)
Definition _mcp_write (obj : value) : M unit :=
  let payload := dumps obj in
  write (Frame.header payload) ;;; write payload.

(** [_mcp_error] (lines 98-99). *)
Definition _mcp_error (req_id : value) (code : Z) (message : str) : value :=
  JObj [ (lit "jsonrpc", JStr (lit "2.0"));
         (lit "id", req_id);
         (lit "error", JObj [ (lit "code", JInt code);
                              (lit "message", JStr message) ]) ].

(** [_mcp_result] (lines 102-103). *)
Definition _mcp_result (req_id : value) (result : value) : value :=
  JObj [ (lit "jsonrpc", JStr (lit "2.0"));
         (lit "id", req_id);
         (lit "result", result) ].

Definition string_or_null : value := JArr [JStr (lit "string"); JStr (lit "null")].

(** [_mcp_tools_list] (lines 106-137). *)
Definition _mcp_tools_list : value :=
  JObj [ (lit "tools", JArr [
    JObj [ (lit "name", JStr (lit "price_search"));
           (lit "description", JStr (lit
              "Search Azure Retail Prices for a SKU name (optionally filtered by region/currency)"));
           (lit "inputSchema", JObj [
              (lit "type", JStr (lit "object"));
              (lit "properties", JObj [
                 (lit "sku", JObj [(lit "type", JStr (lit "string"))]);
                 (lit "region", JObj [(lit "type", string_or_null)]);
                 (lit "currency", JObj [(lit "type", string_or_null)]) ]);
              (lit "required", JArr [JStr (lit "sku")]) ]) ];
    JObj [ (lit "name", JStr (lit "cost_estimate"));
           (lit "description", JStr (lit
              "Estimate monthly cost (rough) for a SKU and quantity (optionally filtered by region/currency)"));
           (lit "inputSchema", JObj [
              (lit "type", JStr (lit "object"));
              (lit "properties", JObj [
                 (lit "sku", JObj [(lit "type", JStr (lit "string"))]);
                 (lit "quantity", JObj [(lit "type", JStr (lit "integer"));
                                        (lit "minimum", JInt 1)]);
                 (lit "region", JObj [(lit "type", string_or_null)]);
                 (lit "currency", JObj [(lit "type", string_or_null)]) ]);
              (lit "required", JArr [JStr (lit "sku")]) ]) ] ]) ].

(** The [tools/call] branch of [handle] (lines 174-203). *)
Definition tools_call (req_id params : value) : M unit :=
  name <- lift (get params (lit "name") JNull) ;;
  given <- lift (get params (lit "arguments") JNull) ;;
  let arguments := or_ given (JObj []) in
  given_region <- lift (get arguments (lit "region") JNull) ;;
  let region := or_ given_region (of_env (DEFAULT_REGION cfg)) in
  given_currency <- lift (get arguments (lit "currency") JNull) ;;
  let currency := or_ given_currency (of_env (DEFAULT_CURRENCY cfg)) in
  if eq_str name (lit "price_search") then
    sku <- lift (get arguments (lit "sku") JNull) ;;
    if negb (truthy sku)
    then _mcp_write (_mcp_error req_id (-32602)
                       (lit "Missing required argument: sku"))
    else
      found <- price_search cfg up (str_ sku) region currency ;;
      _mcp_write (_mcp_result req_id found)
  else if eq_str name (lit "cost_estimate") then
    sku <- lift (get arguments (lit "sku") JNull) ;;
    if negb (truthy sku)
    then _mcp_write (_mcp_error req_id (-32602)
                       (lit "Missing required argument: sku"))
    else
      qty <- lift (get arguments (lit "quantity") (JInt 1)) ;;
      match int_ qty with
      | None => _mcp_write (_mcp_error req_id (-32602)
                              (lit "quantity must be an integer"))
      | Some qty_int =>
        estimate <- cost_estimate cfg up (str_ sku) qty_int region currency ;;
        _mcp_write (_mcp_result req_id estimate)
      end
  else _mcp_write (_mcp_error req_id (-32601)
                     (lit "Unknown tool: " ++ str_ name)).

(** The body of the [try] of [handle] (lines 157-205). *)
Definition dispatch (req_id method params : value) : M unit :=
  if eq_str method (lit "initialize") then
    _mcp_write (_mcp_result req_id
      (JObj [ (lit "serverInfo",
               JObj [ (lit "name", JStr (lit "azure-pricing-mcp"));
                      (lit "version", JStr (lit "0.1.0")) ]);
              (lit "capabilities", JObj [ (lit "tools", JObj []) ]) ]))
  else if eq_str method (lit "ping") then
    _mcp_write (_mcp_result req_id ping)
  else if eq_str method (lit "tools/list") then
    _mcp_write (_mcp_result req_id _mcp_tools_list)
  else if eq_str method (lit "tools/call") then
    tools_call req_id params
  else
    _mcp_write (_mcp_error req_id (-32601)
                  (lit "Unknown method: " ++ str_ method)).

(** [handle] (lines 144-207).  It returns nothing and lets no exception
    out: every one raised in the [try] is caught on line 206. *)
Definition handle (msg : value) (w : world) : world :=
  match msg with
  | JObj fields =>
    let req_id := dict_get fields (lit "id") JNull in
    let method := dict_get fields (lit "method") JNull in
    let params := or_ (dict_get fields (lit "params") JNull) (JObj []) in
    match req_id with
    | JNull => w
    | _ =>
      match dispatch req_id method params w with
      | (inr _, w') => w'
      | (inl exc, w') =>
        snd (_mcp_write (_mcp_error req_id (-32000)
                           (lit "Server error: " ++ exn_str exc)) w')
      end
    end
  | _ => w
  end.

(** Lines 238-243: the body of a frame is parsed and handled, or dropped
    when it does not parse. *)
Definition on_body (body : list byte) (w : world) : world :=
  match loads body with
  | Some msg => handle msg w
  | None => w
  end.

(** The outer loop (lines 210-243) over the chunks the reads return; an
    empty chunk is the end of the input. *)
Fixpoint run_mcp_stdio (chunks : list (list byte)) (buffer : list byte)
    (w : world) : world :=
  match chunks with
  | [] => w
  | [] :: _ => w
  | chunk :: chunks' =>
    let '(buffer', w') := Frame.pump on_body (buffer ++ chunk) w in
    run_mcp_stdio chunks' buffer' w'
  end.

End Server.
End Server.

(* ===================================================================== *)
(** * The command line of the server: [main] (lines 246-283) *)
(* ===================================================================== *)

Module Cli.
Import Py Value Builtins World Tools Server.
Local Open Scope py_scope.

(** The namespaces [parser.parse_args] returns for the parser of lines
    247-264.  [cmd] is the subcommand, or [None] when none is given; the
    other attributes are those of the arguments of the subcommand and are
    not there for another subcommand: [sku] is a [str], [quantity] an
    [int] (1 when left out), [--region] and [--currency] a [str] or
    [None]. *)
Inductive namespace :=
| NoCommand
| Ping
| PriceSearch (sku : str) (region currency : option str)
| CostEstimate (sku : str) (quantity : Z) (region currency : option str)
| Mcp.

(** [getattr(args, "region", None)] and [getattr(args, "currency",
    None)]. *)
Definition region_or_none (args : namespace) : value :=
  match args with
  | PriceSearch _ region _ | CostEstimate _ _ region _ => of_env region
  | _ => JNull
  end.

Definition currency_or_none (args : namespace) : value :=
  match args with
  | PriceSearch _ _ currency | CostEstimate _ _ _ currency => of_env currency
  | _ => JNull
  end.

Section Cli.
Context `{rt : Runtime} (cfg : config) (up : upstream).

(** Lines 282-283: [json.dump(data, sys.stdout)] and the newline.  The
    pieces [json.dump] writes make up the text of [json.dumps], which is
    ASCII; they are recorded as one write. *)
Definition print_line (data : value) : M unit :=
  write (dumps data) ;;; write [x0a].

(** [main], after [parse_args]; [stdin] is what the reads return in the
    mode [mcp]. *)
Definition main (stdin : list (list byte)) (args : namespace) : M unit :=
  match args with
  | Mcp => fun w => (inr tt, run_mcp_stdio cfg up stdin [] w)
  | _ =>
    let region := or_ (region_or_none args) (of_env (DEFAULT_REGION cfg)) in
    let currency :=
      or_ (currency_or_none args) (of_env (DEFAULT_CURRENCY cfg)) in
    data <- match args with
            | PriceSearch sku _ _ => price_search cfg up sku region currency
            | CostEstimate sku quantity _ _ =>
              cost_estimate cfg up sku quantity region currency
            | _ => ret ping
            end ;;
    print_line data
  end.

End Cli.
End Cli.

(* ===================================================================== *)
(** * The earlier server (Files/github/mcp/azure-pricing-mcp) *)
(* ===================================================================== *)

Module Legacy.
Import Py Value Builtins World.
Local Open Scope py_scope.

(** The namespaces of the parser of lines 78-92, which has no [mcp]. *)
Inductive namespace :=
| NoCommand
| Ping
| PriceSearch (sku : str) (region currency : option str)
| CostEstimate (sku : str) (quantity : Z) (region currency : option str).

Definition no_attribute (name : str) : exn :=
  Raise AttributeError
    (lit "'Namespace' object has no attribute '" ++ name ++ lit "'").

(** [args.region] and [args.currency]. *)
Definition region_of_args (args : namespace) : result value :=
  match args with
  | PriceSearch _ region _ | CostEstimate _ _ region _ => inr (of_env region)
  | _ => inl (no_attribute (lit "region"))
  end.

Definition currency_of_args (args : namespace) : result value :=
  match args with
  | PriceSearch _ _ currency | CostEstimate _ _ _ currency =>
    inr (of_env currency)
  | _ => inl (no_attribute (lit "currency"))
  end.

Section Legacy.
Context `{rt : Runtime} (cfg : config) (up : upstream).

(** Lines 39-42: a filter for an argument that is truthy, its text put
    between the quotes as it is. *)
Definition add_filter (filters : list str) (field : str) (arg : value)
  : list str :=
  if truthy arg
  then filters ++ [field ++ lit " eq '" ++ str_ arg ++ lit "'"]
  else filters.

(** The filter expression of lines 38-43. *)
Definition filter_expr_of (sku : str) (region currency : value) : str :=
  let filters := [lit "contains(skuName,'" ++ sku ++ lit "')"] in
  let filters := add_filter filters (lit "armRegionName") region in
  let filters := add_filter filters (lit "currencyCode") currency in
  join (lit " and ") filters.

(** [price_search] (lines 37-51); [fetch_prices] (lines 18-34) is the
    code of the later server. *)
Definition price_search (sku : str) (region currency : value) : M value :=
  let filter_expr := filter_expr_of sku region currency in
  data <- Fetch.fetch_prices cfg up filter_expr ;;
  counted <- lift (get data (lit "Items") (JArr [])) ;;
  count <- lift (len_ counted) ;;
  listed <- lift (get data (lit "Items") (JArr [])) ;;
  items <- lift (slice5 listed) ;;
  ret (JObj [ (lit "status", JStr (lit "ok"));
              (lit "tool", JStr (lit "price_search"));
              (lit "sku", JStr sku);
              (lit "count", JInt count);
              (lit "items", items) ]).

(** [cost_estimate] (lines 54-70). *)
Definition cost_estimate (sku : str) (quantity : Z) (region currency : value)
  : M value :=
  search <- price_search sku region currency ;;
  items <- lift (get search (lit "items") (JArr [])) ;;
  if negb (truthy items)
  then ret (JObj [ (lit "status", JStr (lit "not-found"));
                   (lit "tool", JStr (lit "cost_estimate"));
                   (lit "sku", JStr sku) ])
  else
    first <- lift (first_item items) ;;
    listed <- lift (get first (lit "retailPrice") (JFloat (Finite 0))) ;;
    let price := or_ listed (JFloat (Finite 0)) in
    by_quantity <- lift (mul_int price quantity) ;;
    monthly <- lift (mul_int by_quantity 730) ;;
    ret (JObj [ (lit "status", JStr (lit "ok"));
                (lit "tool", JStr (lit "cost_estimate"));
                (lit "sku", JStr sku);
                (lit "quantity", JInt quantity);
                (lit "unit_price", price);
                (lit "monthly_usd", monthly) ]).

(** [ping] (lines 73-74). *)
Definition ping : value :=
  JObj [ (lit "status", JStr (lit "ok"));
         (lit "service", JStr (lit "azure-pricing-mcp")) ].

(** [main] (lines 77-107), after [parse_args]. *)
Definition main (args : namespace) : M unit :=
  given_region <- lift (region_of_args args) ;;
  let region := or_ given_region (of_env (DEFAULT_REGION cfg)) in
  given_currency <- lift (currency_of_args args) ;;
  let currency := or_ given_currency (of_env (DEFAULT_CURRENCY cfg)) in
  data <- match args with
          | PriceSearch sku _ _ => price_search sku region currency
          | CostEstimate sku quantity _ _ =>
            cost_estimate sku quantity region currency
          | _ => ret ping
          end ;;
  write (dumps data) ;;; write [x0a].

End Legacy.
End Legacy.

(* ===================================================================== *)
(** * [health_check.py] *)
(* ===================================================================== *)

Module HealthCheck.
Import Py Value Builtins World Tools.
Local Open Scope py_scope.

(** The variables [main] reads from the environment (lines 9-11). *)
Record env := {
  AZURE_PRICING_HEALTH_SKU : option str;
  AZURE_PRICING_HEALTH_REGION : option str;
  AZURE_PRICING_HEALTH_CURRENCY : option str
}.

(** The entry lines 18 and 23 put in [result] for an exception. *)
Definition failed (exc : exn) : value :=
  JObj [ (lit "status", JStr (lit "error"));
         (lit "message", JStr (exn_str exc)) ].

(** One step of the [any] of line 28. *)
Definition is_error (v : value) : bool :=
  match v with
  | JObj fields => eq_str (dict_get fields (lit "status") JNull) (lit "error")
  | _ => false
  end.

Section HealthCheck.
Context `{rt : Runtime} (cfg : config) (up : upstream).

(** [main] (lines 8-30): the exit code and what is done to the world.
    [ping()] raises nothing, so line 16 gives its value; the keys [ping]
    and [price_search] are new in [result] and go to its end. *)
Definition main (e : env) (w : world) : Z * world :=
  let sku := match AZURE_PRICING_HEALTH_SKU e with
             | Some s => s
             | None => lit "Standard_B2s"
             end in
  let region := of_env (AZURE_PRICING_HEALTH_REGION e) in
  let currency := of_env (AZURE_PRICING_HEALTH_CURRENCY e) in
  let result := [ (lit "sku", JStr sku); (lit "region", region);
                  (lit "currency", currency) ] in
  let result := result ++ [(lit "ping", ping)] in
  let '(searched, w1) := price_search cfg up sku region currency w in
  let result :=
    result ++ [(lit "price_search",
                match searched with
                | inr found => found
                | inl exc => failed exc
                end)] in
  let w2 := snd ((write (dumps (JObj result)) ;;; write [x0a]) w1) in
  (if existsb (fun entry => is_error (snd entry)) result then 1 else 0, w2).

End HealthCheck.
End HealthCheck.

(* ===================================================================== *)
(** * The stub servers: microsoft-docs-mcp and azure-resource-graph-mcp *)
(* ===================================================================== *)

(** Both files hold the functions [_mcp_write], [_mcp_error] and
    [_mcp_result] and the read loop of [run_mcp_stdio] in the words of
    the pricing server; their [handle] differs in the tool. *)

Module Docs.
Import Py Value Builtins World.
Local Open Scope py_scope.

(** [ping] (lines 8-9). *)
Definition ping : value :=
  JObj [ (lit "status", JStr (lit "ok"));
         (lit "service", JStr (lit "microsoft-docs-mcp")) ].

(** [search] (lines 12-16). *)
Definition search (query : str) : value :=
  let hits := JArr [ JObj [ (lit "title", JStr (lit "stub result"));
                            (lit "url", JStr (lit "https://learn.microsoft.com/"));
                            (lit "snippet", JStr query) ] ] in
  JObj [ (lit "status", JStr (lit "ok"));
         (lit "tool", JStr (lit "search"));
         (lit "query", JStr query);
         (lit "results", hits);
         (lit "note", JStr (lit "stub response")) ].

(** [_mcp_tools_list] (lines 35-50). *)
Definition _mcp_tools_list : value :=
  JObj [ (lit "tools", JArr [
    JObj [ (lit "name", JStr (lit "search"));
           (lit "description", JStr (lit
              "Search Microsoft Learn/Docs (stub in this repo)"));
           (lit "inputSchema", JObj [
              (lit "type", JStr (lit "object"));
              (lit "properties", JObj [
                 (lit "query", JObj [(lit "type", JStr (lit "string"))]) ]);
              (lit "required", JArr [JStr (lit "query")]) ]) ] ]) ].

Section Docs.
Context `{rt : Runtime}.

Definition _mcp_write : value -> M unit := Server._mcp_write.
Definition _mcp_error : value -> Z -> str -> value := Server._mcp_error.
Definition _mcp_result : value -> value -> value := Server._mcp_result.

(** The [tools/call] branch of [handle] (lines 86-100). *)
Definition tools_call (req_id params : value) : M unit :=
  name <- lift (get params (lit "name") JNull) ;;
  given <- lift (get params (lit "arguments") JNull) ;;
  let arguments := or_ given (JObj []) in
  if negb (eq_str name (lit "search"))
  then _mcp_write (_mcp_error req_id (-32601)
                     (lit "Unknown tool: " ++ str_ name))
  else
    query_text <- lift (get arguments (lit "query") JNull) ;;
    if negb (truthy query_text)
    then _mcp_write (_mcp_error req_id (-32602)
                       (lit "Missing required argument: query"))
    else _mcp_write (_mcp_result req_id (search (str_ query_text))).

(** The body of the [try] of [handle] (lines 70-102). *)
Definition dispatch (req_id method params : value) : M unit :=
  if eq_str method (lit "initialize") then
    _mcp_write (_mcp_result req_id
      (JObj [ (lit "serverInfo",
               JObj [ (lit "name", JStr (lit "microsoft-docs-mcp"));
                      (lit "version", JStr (lit "0.1.0")) ]);
              (lit "capabilities", JObj [ (lit "tools", JObj []) ]) ]))
  else if eq_str method (lit "ping") then
    _mcp_write (_mcp_result req_id ping)
  else if eq_str method (lit "tools/list") then
    _mcp_write (_mcp_result req_id _mcp_tools_list)
  else if eq_str method (lit "tools/call") then
    tools_call req_id params
  else
    _mcp_write (_mcp_error req_id (-32601)
                  (lit "Unknown method: " ++ str_ method)).

(** [handle] (lines 57-104). *)
Definition handle (msg : value) (w : world) : world :=
  match msg with
  | JObj fields =>
    let req_id := dict_get fields (lit "id") JNull in
    let method := dict_get fields (lit "method") JNull in
    let params := or_ (dict_get fields (lit "params") JNull) (JObj []) in
    match req_id with
    | JNull => w
    | _ =>
      match dispatch req_id method params w with
      | (inr _, w') => w'
      | (inl exc, w') =>
        snd (_mcp_write (_mcp_error req_id (-32000)
                           (lit "Server error: " ++ exn_str exc)) w')
      end
    end
  | _ => w
  end.

(** Lines 134-139. *)
Definition on_body (body : list byte) (w : world) : world :=
  match loads body with
  | Some msg => handle msg w
  | None => w
  end.

(** The read loop (lines 107-139). *)
Fixpoint run_mcp_stdio (chunks : list (list byte)) (buffer : list byte)
    (w : world) : world :=
  match chunks with
  | [] => w
  | [] :: _ => w
  | chunk :: chunks' =>
    let '(buffer', w') := Frame.pump on_body (buffer ++ chunk) w in
    run_mcp_stdio chunks' buffer' w'
  end.

End Docs.
End Docs.

Module Graph.
Import Py Value Builtins World.
Local Open Scope py_scope.

(** [ping] (lines 8-9). *)
Definition ping : value :=
  JObj [ (lit "status", JStr (lit "ok"));
         (lit "service", JStr (lit "azure-resource-graph-mcp")) ].

(** [query] (lines 12-13). *)
Definition query (kusto : str) : value :=
  JObj [ (lit "status", JStr (lit "ok"));
         (lit "tool", JStr (lit "query"));
         (lit "query", JStr kusto);
         (lit "results", JArr []);
         (lit "note", JStr (lit "stub response")) ].

(** [_mcp_tools_list] (lines 32-47). *)
Definition _mcp_tools_list : value :=
  JObj [ (lit "tools", JArr [
    JObj [ (lit "name", JStr (lit "query"));
           (lit "description", JStr (lit
              "Run an Azure Resource Graph KQL query (stub in this repo)"));
           (lit "inputSchema", JObj [
              (lit "type", JStr (lit "object"));
              (lit "properties", JObj [
                 (lit "kusto", JObj [(lit "type", JStr (lit "string"))]);
                 (lit "query", JObj [(lit "type", JStr (lit "string"))]) ])
              ]) ] ]) ].

Section Graph.
Context `{rt : Runtime}.

Definition _mcp_write : value -> M unit := Server._mcp_write.
Definition _mcp_error : value -> Z -> str -> value := Server._mcp_error.
Definition _mcp_result : value -> value -> value := Server._mcp_result.

(** The [tools/call] branch of [handle] (lines 83-97). *)
Definition tools_call (req_id params : value) : M unit :=
  name <- lift (get params (lit "name") JNull) ;;
  given <- lift (get params (lit "arguments") JNull) ;;
  let arguments := or_ given (JObj []) in
  if negb (eq_str name (lit "query"))
  then _mcp_write (_mcp_error req_id (-32601)
                     (lit "Unknown tool: " ++ str_ name))
  else
    by_kusto <- lift (get arguments (lit "kusto") JNull) ;;
    kusto <- (if truthy by_kusto then ret by_kusto
              else lift (get arguments (lit "query") JNull)) ;;
    if negb (truthy kusto)
    then _mcp_write (_mcp_error req_id (-32602)
                       (lit "Missing required argument: kusto"))
    else _mcp_write (_mcp_result req_id (query (str_ kusto))).

(** The body of the [try] of [handle] (lines 67-99). *)
Definition dispatch (req_id method params : value) : M unit :=
  if eq_str method (lit "initialize") then
    _mcp_write (_mcp_result req_id
      (JObj [ (lit "serverInfo",
               JObj [ (lit "name", JStr (lit "azure-resource-graph-mcp"));
                      (lit "version", JStr (lit "0.1.0")) ]);
              (lit "capabilities", JObj [ (lit "tools", JObj []) ]) ]))
  else if eq_str method (lit "ping") then
    _mcp_write (_mcp_result req_id ping)
  else if eq_str method (lit "tools/list") then
    _mcp_write (_mcp_result req_id _mcp_tools_list)
  else if eq_str method (lit "tools/call") then
    tools_call req_id params
  else
    _mcp_write (_mcp_error req_id (-32601)
                  (lit "Unknown method: " ++ str_ method)).

(** [handle] (lines 54-101). *)
Definition handle (msg : value) (w : world) : world :=
  match msg with
  | JObj fields =>
    let req_id := dict_get fields (lit "id") JNull in
    let method := dict_get fields (lit "method") JNull in
    let params := or_ (dict_get fields (lit "params") JNull) (JObj []) in
    match req_id with
    | JNull => w
    | _ =>
      match dispatch req_id method params w with
      | (inr _, w') => w'
      | (inl exc, w') =>
        snd (_mcp_write (_mcp_error req_id (-32000)
                           (lit "Server error: " ++ exn_str exc)) w')
      end
    end
  | _ => w
  end.

(** Lines 131-136. *)
Definition on_body (body : list byte) (w : world) : world :=
  match loads body with
  | Some msg => handle msg w
  | None => w
  end.

(** The read loop (lines 104-136). *)
Fixpoint run_mcp_stdio (chunks : list (list byte)) (buffer : list byte)
    (w : world) : world :=
  match chunks with
  | [] => w
  | [] :: _ => w
  | chunk :: chunks' =>
    let '(buffer', w') := Frame.pump on_body (buffer ++ chunk) w in
    run_mcp_stdio chunks' buffer' w'
  end.

End Graph.
End Graph.

(* ===================================================================== *)
(** * A runtime and messages to run the model on *)
(* ===================================================================== *)

Module Demo.
Import Py Value Builtins World.

(** The digits after the point of [num / den], for [0 <= num < den], at
    most [n] of them. *)
Fixpoint fraction_digits (n : nat) (num den : Z) : list Z :=
  match n with
  | O => []
  | S n' =>
    if num =? 0 then []
    else (10 * num / den) :: fraction_digits n' (10 * num mod den) den
  end.

Definition print_float (f : pyfloat) : str :=
  match f with
  | NaN => lit "NaN"
  | Infinity false => lit "Infinity"
  | Infinity true => lit "-Infinity"
  | Finite q =>
    let n := Z.abs (Qnum q) in
    let d := Zpos (Qden q) in
    (if Qnum q <? 0 then lit "-" else [])
    ++ str_of_int (n / d) ++ lit "."
    ++ match fraction_digits 17 (n mod d) d with
       | [] => lit "0"
       | ds => map (fun x => 48 + x) ds
       end
  end.

(** JSON text with the separators of [json.dumps]; right for strings that
    need no escape. *)
Fixpoint print_json (v : value) : str :=
  match v with
  | JNull => lit "null"
  | JBool true => lit "true"
  | JBool false => lit "false"
  | JInt n => str_of_int n
  | JFloat f => print_float f
  | JStr s => [34] ++ s ++ [34]
  | JArr l => lit "[" ++ join (lit ", ") (map print_json l) ++ lit "]"
  | JObj l =>
    lit "{"
    ++ join (lit ", ")
         (map (fun kv => [34] ++ fst kv ++ [34] ++ lit ": "
                         ++ print_json (snd kv)) l)
    ++ lit "}"
  end.

Fixpoint bytes_eqb (a b : list byte) : bool :=
  match a, b with
  | [], [] => true
  | x :: a', y :: b' => Byte.eqb x y && bytes_eqb a' b'
  | _, _ => false
  end.

(** A request with the fields of the wire protocol. *)
Definition request_msg (id : value) (method : string) (params : value)
  : value :=
  JObj [ (lit "jsonrpc", JStr (lit "2.0")); (lit "id", id);
         (lit "method", JStr (lit method)); (lit "params", params) ].

Definition call_params (tool : string) (arguments : value) : value :=
  JObj [ (lit "name", JStr (lit tool)); (lit "arguments", arguments) ].

(** The request of the dispatch scenario: [price_search] for [B2s]. *)
Definition search_B2s : value :=
  request_msg (JInt 1) "tools/call"
    (call_params "price_search" (JObj [(lit "sku", JStr (lit "B2s"))])).

(** [cost_estimate] for [B2s] with no [quantity]. *)
Definition estimate_B2s : value :=
  request_msg (JInt 2) "tools/call"
    (call_params "cost_estimate" (JObj [(lit "sku", JStr (lit "B2s"))])).

Definition ping_msg : value := request_msg (JInt 3) "ping" (JObj []).

(** A request with an [id] and no [method]. *)
Definition no_method_msg : value :=
  JObj [ (lit "jsonrpc", JStr (lit "2.0")); (lit "id", JInt 7) ].

(** A notification: no [id]. *)
Definition notification_msg : value :=
  JObj [ (lit "jsonrpc", JStr (lit "2.0"));
         (lit "method", JStr (lit "notifications/initialized")) ].

Definition samples : list value :=
  [ search_B2s; estimate_B2s; ping_msg; no_method_msg; notification_msg ].

(** The sample runtime: [dumps] prints JSON text, [loads] reads back the
    text of a sample, and [repr] stands in with the JSON text. *)
#[export] Instance runtime : Runtime := {|
  dumps v := encode_ascii (print_json v);
  loads body :=
    List.find (fun v => bytes_eqb (encode_ascii (print_json v)) body) samples;
  repr v := print_json v
|}.

(** An upstream that always answers 200 with the given items. *)
Definition serving (items : list value) : upstream :=
  fun _ _ => GetReturns (http_response 200
                           (Some (JObj [(lit "Items", JArr items)])) []).

(** An upstream that always fails to connect. *)
Definition unreachable : upstream :=
  fun _ _ => GetRaises (Raise RequestsConnectionError (lit "connection refused")).


(** Ten items, as in [test_price_search_filters_and_limits]. *)
Definition ten_items : list value :=
  map (fun i => JObj [(lit "retailPrice", JInt i)]) (range 10).

(** The fields of [search_B2s] and of [estimate_B2s]. *)
Definition B2s_arguments : list (str * value) := [(lit "sku", JStr (lit "B2s"))].

Definition call_fields (id : Z) (tool : string) : list (str * value) :=
  [ (lit "jsonrpc", JStr (lit "2.0")); (lit "id", JInt id);
    (lit "method", JStr (lit "tools/call"));
    (lit "params", call_params tool (JObj B2s_arguments)) ].

Definition call_params_fields (tool : string) : list (str * value) :=
  [ (lit "name", JStr (lit tool)); (lit "arguments", JObj B2s_arguments) ].

Definition B2s_request : request :=
  Fetch.request_of default_config (lit "contains(skuName,'B2s')").


End Demo.

(* ===================================================================== *)
(** * Notions the properties are stated with *)
(* ===================================================================== *)

Module Spec.
Import Py Value Builtins World Tools Server.

(** ** Framing *)

Definition ascii_text (s : str) : Prop := Forall (fun c => 0 <= c < 128) s.

Definition digit (d : Z) : Prop := 0 <= d <= 9.

Definition no_cr (bs : list byte) : Prop := Forall (fun b => byteZ b <> 13) bs.

(** The text of the header line for a body of [n] bytes. *)
Definition head_text (n : Z) : str := lit "Content-Length: " ++ str_of_int n.

Definition plain (c : Z) : Prop := 0 <= c < 128 /\ c <> 13.

(** ** Fetching *)


(** An outcome that line 32 catches. *)
Definition caught (r : result value) : bool :=
  match r with
  | inl e => is_RequestException e
  | inr _ => false
  end.

(** The number of attempts a loop makes that has [m] attempts to go and
    whose first call is the [j]-th of the process, given the outcome [o]
    of each call: it goes on while the outcome is caught and an attempt is
    left. *)
Fixpoint made (o : nat -> result value) (j m : nat) : nat :=
  match m with
  | O => O
  | S m' => if caught (o j) then S (made o (S j) m') else 1%nat
  end.

(** The trace of [n] attempts, the first with index [a]: the calls, with
    the sleep of [backoff * 2 ^ index] between one and the next. *)
Fixpoint schedule (rq : request) (backoff : Q) (a : Z) (n : nat) : world :=
  match n with
  | O => []
  | S n' =>
    match n' with
    | O => [Get rq]
    | S _ =>
      Get rq :: Sleep (backoff * inject_Z (2 ^ a))
      :: schedule rq backoff (a + 1) n'
    end
  end.

(** ** Dispatching *)

(** A computation that writes nothing to standard output. *)
Definition quiet {A} (m : M A) : Prop :=
  forall w, stdout (snd (m w)) = stdout w.

(** The methods [dispatch] knows. *)
Definition known_method (method : value) : bool :=
  eq_str method (lit "initialize") || eq_str method (lit "ping")
  || eq_str method (lit "tools/list") || eq_str method (lit "tools/call").

(** The result of [price_search] for the items the upstream lists. *)
Definition search_result (sku : str) (items : list value) : value :=
  JObj [ (lit "status", JStr (lit "ok"));
         (lit "tool", JStr (lit "price_search"));
         (lit "sku", JStr sku);
         (lit "count", JInt (Z.of_nat (length items)));
         (lit "items", JArr (firstn 5 items)) ].

Definition not_found (sku : str) : value :=
  JObj [ (lit "status", JStr (lit "not-found"));
         (lit "tool", JStr (lit "cost_estimate"));
         (lit "sku", JStr sku) ].

(** The estimate [cost_estimate] returns for a price. *)
Definition estimate_of (sku : str) (quantity : Z) (price monthly : value)
  : value :=
  JObj [ (lit "status", JStr (lit "ok"));
         (lit "tool", JStr (lit "cost_estimate"));
         (lit "sku", JStr sku);
         (lit "quantity", JInt quantity);
         (lit "unit_price", price);
         (lit "monthly_usd", monthly) ].



(** A response to the request [id]: a result or an error with that id. *)
Definition is_response (id resp : value) : Prop :=
  (exists r, resp = _mcp_result id r)
  \/ (exists code message, resp = _mcp_error id code message).

Section WithRuntime.
Context `{rt : Runtime}.


End WithRuntime.

Section WithConfig.
Context (cfg : config).

(** The arguments of a call, as lines 175-178 compute them. *)
Definition region_of (arguments : list (str * value)) : value :=
  or_ (dict_get arguments (lit "region") JNull) (of_env (DEFAULT_REGION cfg)).

Definition currency_of (arguments : list (str * value)) : value :=
  or_ (dict_get arguments (lit "currency") JNull)
      (of_env (DEFAULT_CURRENCY cfg)).

End WithConfig.

End Spec.

(* ===================================================================== *)
(** * Further notions *)
(* ===================================================================== *)

Module Notions.
Import Py Value Builtins World Tools Server.

Section WithRuntime.
Context `{rt : Runtime}.

(** The messages among the bodies of frames: the bodies that parse. *)
Definition parsed (bodies : list (list byte)) : list value :=
  flat_map (fun body => match loads body with
                        | Some msg => [msg]
                        | None => []
                        end) bodies.

(** A message that [handle] answers: an object whose [id] is not null. *)
Definition id_of (msg : value) : value :=
  match msg with
  | JObj fields => dict_get fields (lit "id") JNull
  | _ => JNull
  end.

Definition is_null (v : value) : bool :=
  match v with JNull => true | _ => false end.

Definition requestb (msg : value) : bool := negb (is_null (id_of msg)).

(** An optional argument of a tool that adds no filter: one that is falsy
    or whose text is blank. *)
Definition blankb (arg : value) : bool :=
  negb (truthy arg) || Tools.is_empty (strip (str_ arg)).

(** The part of the filter expression for an optional argument. *)
Definition clause (field : str) (arg : value) : str :=
  if blankb arg then []
  else lit " and " ++ field ++ lit " eq '"
       ++ _odata_escape (strip (str_ arg)) ++ lit "'".

(** The world after a reply is written: the two writes of [_mcp_write]. *)
Definition replied (reply : value) (w : world) : world :=
  w ++ [Write (Frame.header (dumps reply)); Write (dumps reply)].

(** The reply of line 207 to an exception. *)
Definition server_error (id : value) (exc : exn) : value :=
  _mcp_error id (-32000) (lit "Server error: " ++ exn_str exc).

End WithRuntime.

(** ** The parts of a request *)

(** The parts of a message as lines 149-150 and 174-175 read them. *)
Definition method_of (fields : list (str * value)) : value :=
  dict_get fields (lit "method") JNull.

Definition params_of (fields : list (str * value)) : value :=
  or_ (dict_get fields (lit "params") JNull) (JObj []).

Definition name_of (params : list (str * value)) : value :=
  dict_get params (lit "name") JNull.

Definition arguments_of (params : list (str * value)) : value :=
  or_ (dict_get params (lit "arguments") JNull) (JObj []).

Definition sku_of (arguments : list (str * value)) : value :=
  dict_get arguments (lit "sku") JNull.

Definition quantity_of (arguments : list (str * value)) : value :=
  dict_get arguments (lit "quantity") (JInt 1).

(** A request [tools/call] with the given [id], whose [params] and
    [arguments] are objects (or are left out, which line 150 and line 175
    turn into the empty object). *)
Definition tool_call (msg id : value) (params arguments : list (str * value))
  : Prop :=
  exists fields,
    msg = JObj fields
    /\ id_of msg = id /\ id <> JNull
    /\ eq_str (method_of fields) (lit "tools/call") = true
    /\ params_of fields = JObj params
    /\ arguments_of params = JObj arguments.

(** ** OData string literals *)

(** Reading a string literal after its opening quote, as the OData
    grammar has it: two quotes stand for one, and one quote closes the
    literal.  Returns the text of the literal and what follows the closing
    quote; [None] when the literal is not closed. *)
Fixpoint read_literal (s : str) : option (str * str) :=
  match s with
  | [] => None
  | c :: s' =>
    if c =? 39 then
      match s' with
      | c' :: s'' =>
        if c' =? 39 then
          match read_literal s'' with
          | Some (text, rest) => Some (39 :: text, rest)
          | None => None
          end
        else Some ([], s')
      | [] => Some ([], [])
      end
    else
      match read_literal s' with
      | Some (text, rest) => Some (c :: text, rest)
      | None => None
      end
  end.

(** ** Tools *)

(** A [sku] that passes the checks of lines 43-46. *)
Definition valid_sku (sku : str) : bool :=
  negb (Tools.is_empty (strip sku)) && (len sku <=? 200).

(** A computation that leaves the world as it is. *)
Definition pure {A} (m : M A) : Prop := forall w, snd (m w) = w.



(** The exception of lines 43-46 for a [sku] that fails the checks. *)
Definition sku_error (sku : str) : exn :=
  if Tools.is_empty (strip sku)
  then Raise ValueError (lit "sku must be a non-empty string")
  else Raise ValueError (lit "sku is too long").

(** The exception of [v.get] for a [v] that is not a [dict]. *)
Definition no_get (v : value) : exn :=
  Raise AttributeError
    (lit "'" ++ type_name v ++ lit "' object has no attribute 'get'").


(** A text that stripping and escaping leave as it is. *)
Definition clean (s : str) : Prop :=
  strip s = s /\ Forall (fun c => c <> 39) s.

(** An optional argument that is left out or is a clean text. *)
Definition clean_arg (v : value) : Prop :=
  v = JNull \/ exists s, v = JStr s /\ clean s.

(** The names of the tools [_mcp_tools_list] lists. *)
Definition advertised : list value :=
  match lookup (lit "tools") (match Server._mcp_tools_list with
                              | JObj fields => fields
                              | _ => []
                              end) with
  | Some (JArr tools) =>
    map (fun tool => match tool with
                     | JObj fields => dict_get fields (lit "name") JNull
                     | _ => JNull
                     end) tools
  | _ => []
  end.

(** The result of [initialize] (lines 158-161). *)
Definition server_info : value :=
  JObj [ (lit "serverInfo",
          JObj [ (lit "name", JStr (lit "azure-pricing-mcp"));
                 (lit "version", JStr (lit "0.1.0")) ]);
         (lit "capabilities", JObj [ (lit "tools", JObj []) ]) ].

Section Replies.
Context `{rt : Runtime}.

(** A computation that either writes one response to [id] and does
    nothing else, or raises and does nothing at all. *)
Definition replies (id : value) (m : M unit) : Prop :=
  forall w,
    (exists resp, Spec.is_response id resp /\ m w = (inr tt, replied resp w))
    \/ (exists exc, m w = (inl exc, w)).

(** The world after a line of JSON is printed (lines 282-283). *)
Definition printed (data : value) (w : world) : world :=
  w ++ [Write (dumps data); Write [x0a]].

End Replies.

Section Reach.
Context `{rt : Runtime}.


End Reach.

End Notions.

(* ===================================================================== *)
(** * Projections of the trace *)
(* ===================================================================== *)

Module WorldFacts.
Import Py Value World.

Lemma gets_app w1 w2 : gets (w1 ++ w2) = gets w1 ++ gets w2.
Proof.
  induction w1 as [|[rq|d|bs] w1 IH]; cbn [app gets]; rewrite ?IH; reflexivity.
Qed.

Lemma sleeps_app w1 w2 : sleeps (w1 ++ w2) = sleeps w1 ++ sleeps w2.
Proof.
  induction w1 as [|[rq|d|bs] w1 IH]; cbn [app sleeps]; rewrite ?IH;
    reflexivity.
Qed.

Lemma stdout_app w1 w2 : stdout (w1 ++ w2) = stdout w1 ++ stdout w2.
Proof.
  induction w1 as [|[rq|d|bs] w1 IH]; cbn [app stdout]; rewrite ?IH;
    rewrite <- ?app_assoc; reflexivity.
Qed.

End WorldFacts.

(* ===================================================================== *)
(** * Properties of the framing *)
(* ===================================================================== *)

Module FrameFacts.
Import Py Frame Spec.

(** ** Every turn that goes on shortens the buffer *)

Lemma find_from_lower sub l : forall i,
  find_from sub l i = -1 \/ i <= find_from sub l i.
Proof.
  induction l as [|b l IH]; intros i; simpl.
  - destruct (starts_with sub []); [right; lia | left; reflexivity].
  - destruct (starts_with sub (b :: l)); [right; lia |].
    destruct (IH (i + 1)) as [H | H]; [left; exact H | right; lia].
Qed.

Lemma int_of_digits_acc ds : forall acc,
  0 <= acc -> Forall (fun d => 0 <= d) ds ->
  0 <= fold_left (fun a d => 10 * a + d) ds acc.
Proof.
  induction ds as [|d ds IH]; intros acc Hacc Hds; cbn [fold_left];
    [exact Hacc|].
  inversion Hds; subst. apply IH; [lia | assumption].
Qed.

Lemma decimal_in_nonneg zeros c d : decimal_in zeros c = Some d -> 0 <= d.
Proof.
  induction zeros as [|z zeros IH]; simpl; [discriminate|].
  destruct ((z <=? c) && (c <? z + 10)) eqn:E; [|exact IH].
  intros [= <-]. apply andb_prop in E. lia.
Qed.

Lemma take_digits_nonneg text : Forall (fun d => 0 <= d) (take_digits text).
Proof.
  induction text as [|c text IH]; simpl; [constructor|].
  destruct (decimal_value c) eqn:E; constructor; [|exact IH].
  eapply decimal_in_nonneg, E.
Qed.

Lemma search_nonneg text ds :
  search text = Some ds -> Forall (fun d => 0 <= d) ds.
Proof.
  induction text as [|c text IH]; simpl; unfold match_here.
  - simpl. discriminate.
  - destruct (match_literal (lit "Content-Length:") (c :: text)) as [after|].
    + pose proof (take_digits_nonneg (skip_spaces after)) as Hd.
      destruct (take_digits (skip_spaces after)); [exact IH|].
      intros [= <-]. exact Hd.
    + exact IH.
Qed.

Lemma skipn_shorter {A} (l : list A) n :
  (0 < n)%nat -> l <> [] -> (length (skipn n l) < length l)%nat.
Proof.
  intros Hn Hl. rewrite length_skipn. destruct l; [congruence | cbn [length]; lia].
Qed.

Lemma find_found_nonempty l i : find_from CRLFCRLF l i <> -1 -> l <> [].
Proof. intros H ->. apply H. reflexivity. Qed.

Lemma decode_turn_skip buffer rest :
  decode_turn buffer = Skip rest -> (length rest < length buffer)%nat.
Proof.
  unfold decode_turn, find.
  destruct (find_from_lower CRLFCRLF buffer 0) as [H | H].
  - rewrite H. simpl. discriminate.
  - destruct (Z.eqb_spec (find_from CRLFCRLF buffer 0) (-1)) as [E | E];
      [discriminate|].
    destruct (search _); [destruct (_ <? _); discriminate|].
    intros [= <-]. apply skipn_shorter; [lia|].
    eapply find_found_nonempty, E.
Qed.

Lemma decode_turn_body buffer body rest :
  decode_turn buffer = Body body rest -> (length rest < length buffer)%nat.
Proof.
  unfold decode_turn, find.
  destruct (find_from_lower CRLFCRLF buffer 0) as [H | H].
  - rewrite H. simpl. discriminate.
  - destruct (Z.eqb_spec (find_from CRLFCRLF buffer 0) (-1)) as [E | E];
      [discriminate|].
    destruct (search _) as [ds|] eqn:Hs; [|discriminate].
    destruct (_ <? _); [discriminate|].
    intros [= _ <-]. apply skipn_shorter; [|eapply find_found_nonempty, E].
    pose proof (int_of_digits_acc ds 0 (Z.le_refl 0) (search_nonneg _ _ Hs)).
    unfold int_of_digits. lia.
Qed.

(** ** The loop, one turn at a time *)

(** The count of turns does not matter once it exceeds the length of the
    buffer. *)
Lemma turns_enough {St} (f : list byte -> St -> St) : forall n m buffer s,
  (length buffer < n)%nat -> (length buffer < m)%nat ->
  turns n f buffer s = turns m f buffer s.
Proof.
  induction n as [|n IH]; intros m buffer s Hn Hm; [lia|].
  destruct m as [|m]; [lia|]. cbn [turns].
  destruct (decode_turn buffer) as [|rest|body rest] eqn:E; [reflexivity| |].
  - apply decode_turn_skip in E. apply IH; lia.
  - apply decode_turn_body in E. apply IH; lia.
Qed.

(** The loop satisfies the equation of the [while]: fuel never runs out. *)
Lemma pump_unfold {St} (f : list byte -> St -> St) buffer s :
  pump f buffer s =
  match decode_turn buffer with
  | Wait => (buffer, s)
  | Skip rest => pump f rest s
  | Body body rest => pump f rest (f body s)
  end.
Proof.
  unfold pump.
  change (turns (S (length buffer)) f buffer s)
    with (match decode_turn buffer with
          | Wait => (buffer, s)
          | Skip rest => turns (length buffer) f rest s
          | Body body rest => turns (length buffer) f rest (f body s)
          end).
  destruct (decode_turn buffer) as [|rest|body rest] eqn:E; [reflexivity| |].
  - apply decode_turn_skip in E. apply turns_enough; lia.
  - apply decode_turn_body in E. apply turns_enough; lia.
Qed.

Lemma pump_wait {St} (f : list byte -> St -> St) buffer s :
  decode_turn buffer = Wait -> pump f buffer s = (buffer, s).
Proof. intros H. rewrite pump_unfold, H. reflexivity. Qed.

Lemma pump_skip {St} (f : list byte -> St -> St) buffer rest s :
  decode_turn buffer = Skip rest -> pump f buffer s = pump f rest s.
Proof. intros H. rewrite pump_unfold, H. reflexivity. Qed.

Lemma pump_body {St} (f : list byte -> St -> St) buffer body rest s :
  decode_turn buffer = Body body rest ->
  pump f buffer s = pump f rest (f body s).
Proof. intros H. rewrite pump_unfold, H. reflexivity. Qed.

Lemma decode_turn_nil : decode_turn [] = Wait.
Proof. reflexivity. Qed.

(** ** Bytes and ASCII text *)

Lemma byteZ_range b : 0 <= byteZ b < 256.
Proof.
  unfold byteZ. pose proof (Byte.to_N_bounded b). lia.
Qed.

Lemma byteZ_byte_of_Z z : 0 <= z < 256 -> byteZ (byte_of_Z z) = z.
Proof.
  intros Hz. unfold byteZ, byte_of_Z.
  destruct (Byte.of_N (Z.to_N z)) as [b|] eqn:E.
  - apply Byte.to_of_N in E. rewrite E. lia.
  - apply Byte.of_N_None_iff in E. lia.
Qed.

Lemma byte_eqb_refl b : Byte.eqb b b = true.
Proof. apply Byte.byte_dec_lb. reflexivity. Qed.

Lemma byte_eqb_byteZ a b : byteZ a <> byteZ b -> Byte.eqb a b = false.
Proof.
  intros H. destruct (Byte.eqb a b) eqn:E; [|reflexivity].
  apply Byte.byte_dec_bl in E. subst. congruence.
Qed.

Lemma utf8_decode_ascii s :
  ascii_text s -> utf8_decode_ignore (encode_ascii s) = s.
Proof.
  induction 1 as [|c s Hc Hs IH]; [reflexivity|].
  cbn [encode_ascii map utf8_decode_ignore].
  rewrite byteZ_byte_of_Z by lia.
  destruct (Z.ltb_spec c 0x80); [|lia].
  fold (encode_ascii s). rewrite IH. reflexivity.
Qed.

Lemma ascii_text_app s t : ascii_text s -> ascii_text t -> ascii_text (s ++ t).
Proof. intros Hs Ht. apply Forall_app. split; assumption. Qed.

(** ** Decimal digits *)

Lemma nat_digits_spec n :
  0 <= n ->
  Forall digit (nat_digits n) /\ nat_digits n <> []
  /\ int_of_digits (nat_digits n) = n.
Proof.
  funelim (nat_digits n); intros Hn.
  - split; [|split].
    + constructor; [unfold digit; lia | constructor].
    + discriminate.
    + unfold int_of_digits. cbn [fold_left]. lia.
  - destruct H as (Hd & Hne & Hint); [apply Z.div_pos; lia|].
    split; [|split].
    + apply Forall_app. split; [exact Hd|].
      constructor; [|constructor].
      pose proof (Z.mod_pos_bound n 10). unfold digit. lia.
    + intros E. apply app_eq_nil in E. destruct E as [_ E]. discriminate.
    + unfold int_of_digits in *. rewrite fold_left_app. cbn [fold_left].
      rewrite Hint. pose proof (Z.div_mod n 10). lia.
Qed.

Lemma str_of_int_nonneg n :
  0 <= n -> str_of_int n = map (fun d => 48 + d) (nat_digits n).
Proof.
  intros Hn. unfold str_of_int. destruct (Z.ltb_spec n 0); [lia | reflexivity].
Qed.

Lemma decimal_value_ascii d : digit d -> decimal_value (48 + d) = Some d.
Proof.
  unfold digit. intros Hd.
  assert (d = 0 \/ d = 1 \/ d = 2 \/ d = 3 \/ d = 4 \/ d = 5 \/ d = 6
          \/ d = 7 \/ d = 8 \/ d = 9) as Hc by lia.
  repeat (destruct Hc as [-> | Hc]; [reflexivity|]). subst. reflexivity.
Qed.

Lemma is_space_ascii_digit d : digit d -> is_space (48 + d) = false.
Proof.
  unfold digit. intros Hd.
  assert (d = 0 \/ d = 1 \/ d = 2 \/ d = 3 \/ d = 4 \/ d = 5 \/ d = 6
          \/ d = 7 \/ d = 8 \/ d = 9) as Hc by lia.
  repeat (destruct Hc as [-> | Hc]; [reflexivity|]). subst. reflexivity.
Qed.

Lemma take_digits_ascii ds :
  Forall digit ds -> take_digits (map (fun d => 48 + d) ds) = ds.
Proof.
  induction 1 as [|d ds Hd Hds IH]; [reflexivity|].
  cbn [map take_digits]. rewrite decimal_value_ascii by exact Hd.
  rewrite IH. reflexivity.
Qed.

Lemma digits_ascii_text ds :
  Forall digit ds -> ascii_text (map (fun d => 48 + d) ds).
Proof.
  intros H. apply Forall_map. eapply Forall_impl; [|exact H].
  unfold digit. intros d Hd. lia.
Qed.

(** ** Slices *)

Lemma slice_to_app {A} (a b : list A) : slice_to (len a) (a ++ b) = a.
Proof.
  unfold slice_to, len. rewrite Nat2Z.id.
  rewrite firstn_app, Nat.sub_diag, firstn_all. cbn [firstn].
  apply app_nil_r.
Qed.

Lemma slice_from_app {A} (a b : list A) n :
  0 <= n -> slice_from (len a + n) (a ++ b) = slice_from n b.
Proof.
  intros Hn. unfold slice_from, len.
  rewrite Z2Nat.inj_add, Nat2Z.id by lia.
  rewrite skipn_app, skipn_all2 by lia.
  replace (length a + Z.to_nat n - length a)%nat with (Z.to_nat n) by lia.
  reflexivity.
Qed.

Lemma slice_app {A} (a b : list A) n :
  0 <= n -> slice (len a) (len a + n) (a ++ b) = slice_to n b.
Proof.
  intros Hn. unfold slice, slice_to, len.
  rewrite Z2Nat.inj_add, Nat2Z.id by lia.
  rewrite skipn_app, skipn_all, Nat.sub_diag. cbn [skipn app].
  f_equal. lia.
Qed.

Lemma len_app {A} (a b : list A) : len (a ++ b) = len a + len b.
Proof. unfold len. rewrite length_app. lia. Qed.

Lemma len_nonneg {A} (a : list A) : 0 <= len a.
Proof. unfold len. lia. Qed.

(** ** bytes.find of the separator *)

Lemma starts_with_app sub l rest :
  starts_with sub l = true -> starts_with sub (l ++ rest) = true.
Proof.
  revert l. induction sub as [|a sub IH]; intros l; [reflexivity|].
  destruct l as [|b l]; cbn [starts_with app]; [discriminate|].
  intros H. apply andb_prop in H. destruct H as [-> H].
  rewrite (IH _ H). reflexivity.
Qed.

Lemma starts_with_app_long sub l rest :
  (length sub <= length l)%nat ->
  starts_with sub (l ++ rest) = starts_with sub l.
Proof.
  revert l. induction sub as [|a sub IH]; intros l Hl; [reflexivity|].
  destruct l as [|b l]; cbn [length] in Hl; [lia|].
  cbn [starts_with app]. rewrite IH by lia. reflexivity.
Qed.

Lemma starts_with_length sub l :
  starts_with sub l = true -> (length sub <= length l)%nat.
Proof.
  revert l. induction sub as [|a sub IH]; intros l; cbn [length]; [lia|].
  destruct l as [|b l]; cbn [starts_with length]; [discriminate|].
  intros H. apply andb_prop in H. destruct H as [_ H].
  apply IH in H. lia.
Qed.

Lemma find_from_found_length sub l : forall i,
  find_from sub l i <> -1 -> (length sub <= length l)%nat.
Proof.
  induction l as [|b l IH]; intros i; cbn [find_from].
  - destruct (starts_with sub []) eqn:E; [|congruence].
    intros _. apply starts_with_length, E.
  - destruct (starts_with sub (b :: l)) eqn:E.
    + intros _. apply starts_with_length, E.
    + intros H. apply IH in H. cbn [length]. lia.
Qed.

(** The first occurrence stays the first when bytes are appended. *)
Lemma find_from_app sub l rest : forall i,
  find_from sub l i <> -1 ->
  find_from sub (l ++ rest) i = find_from sub l i.
Proof.
  induction l as [|b l IH]; intros i; cbn [find_from].
  - destruct (starts_with sub []) eqn:E; [|congruence].
    intros _. simpl app.
    destruct sub; [|discriminate].
    destruct rest; reflexivity.
  - destruct (starts_with sub (b :: l)) eqn:E; intros H.
    + change ((b :: l) ++ rest) with (b :: (l ++ rest)).
      cbn [find_from].
      change (b :: (l ++ rest)) with ((b :: l) ++ rest).
      rewrite (starts_with_app _ _ _ E). reflexivity.
    + pose proof (find_from_found_length _ _ _ H) as Hlen.
      change ((b :: l) ++ rest) with (b :: (l ++ rest)).
      cbn [find_from].
      change (b :: (l ++ rest)) with ((b :: l) ++ rest).
      rewrite starts_with_app_long by (cbn [length]; lia).
      rewrite E. apply IH, H.
Qed.

Lemma starts_with_no_cr b l :
  byteZ b <> 13 -> starts_with CRLFCRLF (b :: l) = false.
Proof.
  intros H. unfold CRLFCRLF. cbn [starts_with].
  rewrite byte_eqb_byteZ; [reflexivity|].
  intros E. apply H. rewrite <- E. reflexivity.
Qed.

Lemma find_from_sep hb rest : forall i,
  no_cr hb -> find_from CRLFCRLF (hb ++ CRLFCRLF ++ rest) i = i + len hb.
Proof.
  induction hb as [|b hb IH]; intros i Hcr.
  - change (find_from CRLFCRLF ([] ++ CRLFCRLF ++ rest) i) with i.
    unfold len. cbn [length]. lia.
  - inversion Hcr as [|? ? Hb Hcr']; subst.
    change ((b :: hb) ++ CRLFCRLF ++ rest)
      with (b :: (hb ++ CRLFCRLF ++ rest)).
    cbn [find_from]. rewrite starts_with_no_cr by exact Hb.
    rewrite IH by exact Hcr'. unfold len. cbn [length]. lia.
Qed.

(** A header line followed by a separator that is not complete yet holds
    no separator. *)
Lemma find_from_cut hb j : forall i,
  no_cr hb -> (j < 4)%nat ->
  find_from CRLFCRLF (hb ++ firstn j CRLFCRLF) i = -1.
Proof.
  induction hb as [|b hb IH]; intros i Hcr Hj.
  - cbn [app].
    destruct j as [|[|[|[|j]]]]; [reflexivity .. | lia].
  - inversion Hcr as [|? ? Hb Hcr']; subst.
    change ((b :: hb) ++ firstn j CRLFCRLF)
      with (b :: (hb ++ firstn j CRLFCRLF)).
    cbn [find_from]. rewrite starts_with_no_cr by exact Hb.
    apply IH; assumption.
Qed.

(** ** One turn on a buffer whose first separator is known *)

Lemma decode_turn_at hb tail :
  find (hb ++ CRLFCRLF ++ tail) CRLFCRLF = len hb ->
  decode_turn (hb ++ CRLFCRLF ++ tail) =
  match search (utf8_decode_ignore hb) with
  | None => Skip tail
  | Some ds =>
    if len tail <? int_of_digits ds then Wait
    else Body (slice_to (int_of_digits ds) tail)
              (slice_from (int_of_digits ds) tail)
  end.
Proof.
  intros Hfind. unfold decode_turn. rewrite Hfind.
  pose proof (len_nonneg hb) as Hhb.
  destruct (Z.eqb_spec (len hb) (-1)) as [E | _]; [lia|].
  rewrite slice_to_app.
  assert (Hsep : len CRLFCRLF = 4) by reflexivity.
  destruct (search (utf8_decode_ignore hb)) as [ds|] eqn:Hs.
  - pose proof (int_of_digits_acc ds 0 (Z.le_refl 0) (search_nonneg _ _ Hs))
      as Hcl.
    fold (int_of_digits ds) in Hcl.
    set (cl := int_of_digits ds) in *.
    assert (Hhead : len hb + 4 = len (hb ++ CRLFCRLF))
      by (rewrite len_app, Hsep; reflexivity).
    assert (Hlen : len (hb ++ CRLFCRLF ++ tail) = len hb + 4 + len tail)
      by (rewrite !len_app, Hsep; lia).
    rewrite Hlen.
    destruct (Z.ltb_spec (len hb + 4 + len tail) (len hb + 4 + cl));
      destruct (Z.ltb_spec (len tail) cl); try lia; [reflexivity|].
    rewrite Hhead, app_assoc.
    rewrite slice_app by exact Hcl.
    rewrite slice_from_app by exact Hcl. reflexivity.
  - replace (len hb + 4) with (len (hb ++ CRLFCRLF) + 0)
      by (rewrite len_app, Hsep; lia).
    rewrite app_assoc, slice_from_app by lia. reflexivity.
Qed.
(** ** The header [_mcp_write] builds *)

Lemma header_eq payload :
  header payload = encode_ascii (head_text (len payload)) ++ CRLFCRLF.
Proof.
  unfold header, head_text, encode_ascii.
  rewrite app_assoc, map_app. reflexivity.
Qed.

Lemma head_text_plain n : 0 <= n -> Forall plain (head_text n).
Proof.
  intros Hn. unfold head_text. apply Forall_app. split.
  - unfold lit. cbn. repeat (constructor; [unfold plain; lia|]). constructor.
  - rewrite str_of_int_nonneg by exact Hn.
    apply Forall_map.
    destruct (nat_digits_spec n Hn) as (Hd & _ & _).
    eapply Forall_impl; [|exact Hd].
    unfold digit, plain. intros d Hdd. lia.
Qed.

Lemma head_text_ascii n : 0 <= n -> ascii_text (head_text n).
Proof.
  intros Hn. eapply Forall_impl; [|apply head_text_plain, Hn].
  unfold plain. intros c Hc. lia.
Qed.

Lemma head_no_cr n : 0 <= n -> no_cr (encode_ascii (head_text n)).
Proof.
  intros Hn. unfold no_cr, encode_ascii. apply Forall_map.
  eapply Forall_impl; [|apply head_text_plain, Hn].
  unfold plain. intros c Hc. rewrite byteZ_byte_of_Z by lia. lia.
Qed.

Lemma search_here text ds : match_here text = Some ds -> search text = Some ds.
Proof. intros H. destruct text; cbn [search]; rewrite H; reflexivity. Qed.

Lemma skip_spaces_digits ds :
  Forall digit ds ->
  skip_spaces (map (fun d => 48 + d) ds) = map (fun d => 48 + d) ds.
Proof.
  intros H. destruct H as [|d ds Hd Hds]; [reflexivity|].
  cbn [map skip_spaces]. rewrite is_space_ascii_digit by exact Hd.
  reflexivity.
Qed.

Lemma search_head n : 0 <= n -> search (head_text n) = Some (nat_digits n).
Proof.
  intros Hn. destruct (nat_digits_spec n Hn) as (Hd & Hne & _).
  apply search_here. unfold head_text, match_here.
  rewrite str_of_int_nonneg by exact Hn.
  change (match_literal (lit "Content-Length:")
            (lit "Content-Length: " ++ map (fun d => 48 + d) (nat_digits n)))
    with (Some (32 :: map (fun d => 48 + d) (nat_digits n))).
  cbv beta iota.
  change (skip_spaces (32 :: ?t)) with (skip_spaces t).
  rewrite skip_spaces_digits, take_digits_ascii by exact Hd.
  destruct (nat_digits n); [congruence | reflexivity].
Qed.

(** ** Turns on encoded frames *)

(** A whole frame at the head of the buffer is taken off it. *)
Lemma decode_turn_encode payload rest :
  decode_turn (encode payload ++ rest) = Body payload rest.
Proof.
  pose proof (len_nonneg payload) as Hn.
  unfold encode. rewrite header_eq, <- !app_assoc.
  rewrite decode_turn_at
    by (apply find_from_sep, head_no_cr, Hn).
  rewrite utf8_decode_ascii by (apply head_text_ascii, Hn).
  rewrite search_head by exact Hn.
  destruct (nat_digits_spec _ Hn) as (_ & _ & ->).
  rewrite len_app.
  destruct (Z.ltb_spec (len payload + len rest) (len payload));
    [pose proof (len_nonneg rest); lia|].
  rewrite slice_to_app.
  rewrite <- (Z.add_0_r (len payload)), slice_from_app by lia.
  reflexivity.
Qed.

Lemma decode_turn_no_sep buffer :
  find buffer CRLFCRLF = -1 -> decode_turn buffer = Wait.
Proof. intros H. unfold decode_turn. rewrite H. reflexivity. Qed.

Lemma Forall_take {A} (P : A -> Prop) n l :
  Forall P l -> Forall P (firstn n l).
Proof.
  intros H. rewrite <- (firstn_skipn n l) in H.
  apply Forall_app in H. apply H.
Qed.

(** A frame that is not complete makes the loop wait. *)
Lemma decode_turn_cut payload k :
  (k < length (encode payload))%nat ->
  decode_turn (firstn k (encode payload)) = Wait.
Proof.
  pose proof (len_nonneg payload) as Hn.
  unfold encode. rewrite header_eq, <- !app_assoc.
  set (hb := encode_ascii (head_text (len payload))).
  assert (Hcr : no_cr hb) by (apply head_no_cr, Hn).
  assert (Hs : search (utf8_decode_ignore hb) = Some (nat_digits (len payload))).
  { unfold hb. rewrite utf8_decode_ascii by (apply head_text_ascii, Hn).
    apply search_head, Hn. }
  rewrite !length_app. change (length CRLFCRLF) with 4%nat. intros Hk.
  rewrite firstn_app.
  destruct (Nat.le_gt_cases k (length hb)) as [Hle | Hgt].
  - replace (k - length hb)%nat with 0%nat by lia.
    change (firstn 0 (CRLFCRLF ++ payload)) with (firstn 0 CRLFCRLF).
    apply decode_turn_no_sep, find_from_cut; [|lia].
    apply Forall_take, Hcr.
  - rewrite firstn_all2 by lia. rewrite firstn_app.
    change (length CRLFCRLF) with 4%nat.
    destruct (Nat.lt_ge_cases (k - length hb) 4) as [Hlt | Hge].
    + replace (k - length hb - 4)%nat with 0%nat by lia.
      cbn [firstn]. rewrite app_nil_r.
      apply decode_turn_no_sep, find_from_cut; [exact Hcr | exact Hlt].
    + rewrite (firstn_all2 CRLFCRLF)
        by (change (length CRLFCRLF) with 4%nat; lia).
      rewrite decode_turn_at by (apply find_from_sep, Hcr).
      rewrite Hs.
      destruct (nat_digits_spec _ Hn) as (_ & _ & ->).
      match goal with
      | |- context [?a <? ?b] => destruct (Z.ltb_spec a b) as [_ | Hbad]
      end; [reflexivity|].
      unfold len in Hbad. rewrite length_firstn in Hbad. lia.
Qed.
(** ** Whole buffers *)


Lemma frames_encode payload : frames (encode payload) = ([payload], []).
Proof.
  unfold frames. rewrite <- (app_nil_r (encode payload)).
  rewrite (pump_body _ _ payload []) by apply decode_turn_encode.
  rewrite pump_wait by apply decode_turn_nil. reflexivity.
Qed.

Section RoundTrip.
Import Value Builtins World.
Context `{rt : Runtime}.

(** C1.  Framing round trip.  [_mcp_write] writes, for an object [X], the
    bytes [encode (dumps X)], which are the header line
    ["Content-Length: "] followed by the decimal length of the serialized
    object, the separator CR LF CR LF, and the serialized object, with
    nothing before, between or after.  Running the read loop on these bytes
    takes exactly one frame off the buffer and leaves the buffer empty;
    the body of the frame is the serialized object, so that it
    deserializes to [X] whenever the JSON codec reads back what it printed
    for [X]. *)
Theorem framing_round_trip (X : value) :
  loads (dumps X) = Some X ->
  (forall w,
     exists w',
       Server._mcp_write X w = (inr tt, w')
       /\ gets w' = gets w /\ sleeps w' = sleeps w
       /\ stdout w' = stdout w ++ encode (dumps X))
  /\ encode (dumps X)
     = encode_ascii (lit "Content-Length: " ++ str_of_int (len (dumps X)))
       ++ CRLFCRLF ++ dumps X
  /\ frames (encode (dumps X)) = ([dumps X], [])
  /\ map loads (fst (frames (encode (dumps X)))) = [Some X]
  /\ (forall cfg up w,
       pump (Server.on_body cfg up) (encode (dumps X)) w
       = ([], Server.handle cfg up X w)).
Proof.
  intros Hrt. split; [|split; [|split; [|split]]].
  - intros w. unfold Server._mcp_write, bind, write, encode.
    eexists. split; [reflexivity|].
    rewrite <- app_assoc.
    rewrite WorldFacts.gets_app, WorldFacts.sleeps_app, WorldFacts.stdout_app.
    cbn [gets sleeps stdout app]. rewrite !app_nil_r. auto.
  - unfold encode. rewrite header_eq, <- app_assoc. reflexivity.
  - apply frames_encode.
  - rewrite frames_encode. cbn. rewrite Hrt. reflexivity.
  - intros cfg up w. rewrite <- (app_nil_r (encode (dumps X))).
    rewrite (pump_body _ _ (dumps X) []) by apply decode_turn_encode.
    rewrite pump_wait by apply decode_turn_nil.
    unfold Server.on_body. rewrite Hrt. reflexivity.
Qed.

End RoundTrip.

Lemma framing_round_trip_witness :
  @Builtins.loads Demo.runtime (@Builtins.dumps Demo.runtime Demo.search_B2s)
  = Some Demo.search_B2s
  /\ frames (encode (@Builtins.dumps Demo.runtime Demo.search_B2s))
     = ([@Builtins.dumps Demo.runtime Demo.search_B2s], []).
Proof.
  assert (H : @Builtins.loads Demo.runtime
                (@Builtins.dumps Demo.runtime Demo.search_B2s)
              = Some Demo.search_B2s) by (vm_compute; reflexivity).
  split; [exact H|].
  exact (proj1 (proj2 (proj2
           (@framing_round_trip Demo.runtime Demo.search_B2s H)))).
Defined.



(** C3.  Header resynchronisation.  Let [block] be a header block, that
    is, bytes whose first blank line is the one that ends them, in which
    the search finds no Content-Length with digits, and let it be followed
    at once by a well-formed frame.  The first turn of the loop drops the
    block and its separator and nothing else, and the loop as a whole
    takes exactly one frame off the buffer, the well-formed one, and
    leaves the buffer empty. *)
Theorem header_resync (block payload : list byte) :
  find (block ++ CRLFCRLF) CRLFCRLF = len block ->
  search (utf8_decode_ignore block) = None ->
  decode_turn (block ++ CRLFCRLF ++ encode payload) = Skip (encode payload)
  /\ frames (block ++ CRLFCRLF ++ encode payload) = ([payload], []).
Proof.
  intros Hfirst Hnone.
  assert (Hturn : decode_turn (block ++ CRLFCRLF ++ encode payload)
                  = Skip (encode payload)).
  { rewrite decode_turn_at, Hnone; [reflexivity|].
    unfold find in *. rewrite app_assoc.
    rewrite find_from_app; [exact Hfirst|].
    rewrite Hfirst. pose proof (len_nonneg block). lia. }
  split; [exact Hturn|].
  unfold frames. rewrite (pump_skip _ _ _ _ Hturn).
  apply frames_encode.
Qed.

Lemma header_resync_witness :
  find (list_byte_of_string "X-Trace: 1" ++ CRLFCRLF) CRLFCRLF
  = len (list_byte_of_string "X-Trace: 1")
  /\ search (utf8_decode_ignore (list_byte_of_string "X-Trace: 1")) = None
  /\ frames (list_byte_of_string "X-Trace: 1" ++ CRLFCRLF
             ++ encode (list_byte_of_string "{}"))
     = ([list_byte_of_string "{}"], []).
Proof.
  assert (H1 : find (list_byte_of_string "X-Trace: 1" ++ CRLFCRLF) CRLFCRLF
               = len (list_byte_of_string "X-Trace: 1"))
    by (vm_compute; reflexivity).
  assert (H2 : search (utf8_decode_ignore (list_byte_of_string "X-Trace: 1"))
               = None)
    by (vm_compute; reflexivity).
  split; [exact H1|]. split; [exact H2|].
  exact (proj2 (header_resync (list_byte_of_string "X-Trace: 1")
                  (list_byte_of_string "{}") H1 H2)).
Defined.

End FrameFacts.

(* ===================================================================== *)
(** * Properties of [fetch_prices] *)
(* ===================================================================== *)

Module FetchFacts.
Import Py Value World Fetch Spec WorldFacts.


Lemma made_bounds o m : forall j, (1 <= m)%nat -> (1 <= made o j m <= m)%nat.
Proof.
  induction m as [|m IH]; intros j Hm; [lia|]. cbn [made].
  destruct (caught (o j)); [|lia].
  destruct m as [|m]; [cbn [made]; lia|].
  specialize (IH (S j)). lia.
Qed.

Lemma made_le o m : forall j, (made o j m <= m)%nat.
Proof.
  intros j. destruct m; [reflexivity|]. apply made_bounds. lia.
Qed.




Lemma gets_schedule rq b n : forall a, gets (schedule rq b a n) = repeat rq n.
Proof.
  induction n as [|n IH]; intros a; [reflexivity|].
  cbn [schedule]. destruct n as [|n]; [reflexivity|].
  cbn [gets]. rewrite IH. reflexivity.
Qed.


Section Run.
Context (cfg : config) (up : upstream).

Lemma attempt_body_outcome f w :
  attempt_body cfg up f w
  = (outcome cfg up f (length (gets w)), w ++ [Get (request_of cfg f)]).
Proof.
  unfold attempt_body, bind, requests_get, outcome.
  destruct (up (length (gets w)) (request_of cfg f)) as [e | resp];
    [reflexivity|].
  destruct (raise_for_status resp); reflexivity.
Qed.

(** The loop from attempt [a] on, when [m >= 1] attempts are left and the
    last of them is attempt [RETRIES - 1]. *)
Lemma attempts_run f : forall m a last w,
  (1 <= m)%nat -> Z.of_nat (a + m) = RETRIES cfg ->
  let g := length (gets w) in
  let n := made (outcome cfg up f) g m in
  attempts cfg up (map Z.of_nat (seq a m)) last f w
  = (outcome cfg up f (g + n - 1)%nat,
     w ++ schedule (request_of cfg f) (BACKOFF cfg) (Z.of_nat a) n).
Proof.
  induction m as [|m IH]; intros a last w Hm Hlast g n; [lia|].
  subst n. cbn [seq map attempts made]. rewrite attempt_body_outcome.
  fold g.
  destruct (outcome cfg up f g) as [e | v] eqn:Ho; cbn [caught].
  - destruct (is_RequestException e) eqn:He.
    + destruct (Z.eqb_spec (Z.of_nat a) (RETRIES cfg - 1)) as [Hl | Hl].
      * assert (m = 0%nat) by lia. subst m. cbn [made schedule].
        replace (g + 1 - 1)%nat with g by lia. rewrite Ho. reflexivity.
      * assert (1 <= m)%nat as Hm' by lia.
        unfold bind, sleep.
        rewrite (IH (S a) (Some e)) by lia.
        rewrite !gets_app. cbn [gets]. rewrite !app_nil_r, length_app.
        cbn [length]. fold g.
        replace (g + 1)%nat with (S g) by lia.
        pose proof (made_bounds (outcome cfg up f) m (S g) Hm') as Hb.
        f_equal.
        -- f_equal. lia.
        -- rewrite <- !app_assoc. f_equal.
           destruct (made (outcome cfg up f) (S g) m) as [|k] eqn:Hk; [lia|].
           cbn [schedule app]. do 2 f_equal.
           replace (Z.of_nat (S a)) with (Z.of_nat a + 1) by lia.
           reflexivity.
    + cbn [schedule]. replace (g + 1 - 1)%nat with g by lia.
      rewrite Ho. reflexivity.
  - cbn [schedule]. replace (g + 1 - 1)%nat with g by lia.
    rewrite Ho. reflexivity.
Qed.

(** [fetch_prices] with at least one attempt configured. *)
Lemma fetch_prices_run f w :
  1 <= RETRIES cfg ->
  let g := length (gets w) in
  let n := made (outcome cfg up f) g (Z.to_nat (RETRIES cfg)) in
  fetch_prices cfg up f w
  = (outcome cfg up f (g + n - 1)%nat,
     w ++ schedule (request_of cfg f) (BACKOFF cfg) 0 n).
Proof.
  intros HR g n. unfold fetch_prices, range.
  apply (attempts_run f (Z.to_nat (RETRIES cfg)) 0 None w); lia.
Qed.

(** [fetch_prices] with no attempt configured calls nothing. *)
Lemma fetch_prices_none f w :
  RETRIES cfg <= 0 ->
  fetch_prices cfg up f w
  = (inl (Raise RuntimeError (lit "Failed to fetch pricing data")), w).
Proof.
  intros HR. unfold fetch_prices, range.
  replace (Z.to_nat (RETRIES cfg)) with 0%nat by lia. reflexivity.
Qed.

(** Both cases at once. *)
Lemma fetch_prices_trace f w :
  let g := length (gets w) in
  let n := made (outcome cfg up f) g (Z.to_nat (RETRIES cfg)) in
  snd (fetch_prices cfg up f w)
  = w ++ schedule (request_of cfg f) (BACKOFF cfg) 0 n
  /\ (1 <= RETRIES cfg ->
      fst (fetch_prices cfg up f w) = outcome cfg up f (g + n - 1)%nat).
Proof.
  intros g n. destruct (Z.le_gt_cases 1 (RETRIES cfg)) as [HR | HR].
  - rewrite (fetch_prices_run f w HR). split; [reflexivity|].
    intros _. reflexivity.
  - rewrite fetch_prices_none by lia. subst n.
    replace (Z.to_nat (RETRIES cfg)) with 0%nat by lia.
    cbn [made schedule snd]. rewrite app_nil_r. split; [reflexivity | lia].
Qed.








End Run.

Section Examples.
Import Demo.





End Examples.

End FetchFacts.

(* ===================================================================== *)
(** * Properties of the tools and of the dispatcher *)
(* ===================================================================== *)

Module ServerFacts.
Import Py Value Builtins World Tools Server Spec WorldFacts.
Local Open Scope py_scope.

Lemma quiet_ret {A} (a : A) : quiet (ret a).
Proof. intros w. reflexivity. Qed.

Lemma quiet_raise {A} e : quiet (@raise A e).
Proof. intros w. reflexivity. Qed.

Lemma quiet_lift {A} (r : result A) : quiet (lift r).
Proof. intros w. reflexivity. Qed.

Lemma quiet_bind {A B} (m : M A) (k : A -> M B) :
  quiet m -> (forall a, quiet (k a)) -> quiet (bind m k).
Proof.
  intros Hm Hk w. unfold bind. specialize (Hm w).
  destruct (m w) as [[e | a] w1]; cbn [snd] in *; [exact Hm|].
  rewrite Hk. exact Hm.
Qed.

Lemma stdout_schedule rq b n : forall a, stdout (schedule rq b a n) = [].
Proof.
  induction n as [|n IH]; intros a; [reflexivity|].
  cbn [schedule]. destruct n as [|n]; [reflexivity|].
  cbn [stdout]. apply IH.
Qed.

Create HintDb quiet.
#[local] Hint Resolve quiet_ret quiet_raise quiet_lift : quiet.

(** Peels the binds of a computation whose steps are known to be quiet. *)
Ltac quiet_steps :=
  repeat (apply quiet_bind; [solve [auto with quiet] | intros ?]);
  auto with quiet.

Section Dispatcher.
Context `{rt : Runtime} (cfg : config) (up : upstream).

Lemma quiet_fetch_prices f : quiet (Fetch.fetch_prices cfg up f).
Proof.
  intros w. destruct (FetchFacts.fetch_prices_trace cfg up f w) as [-> _].
  rewrite stdout_app, stdout_schedule. apply app_nil_r.
Qed.

#[local] Hint Resolve quiet_fetch_prices : quiet.

Lemma quiet_price_search sku region currency :
  quiet (price_search cfg up sku region currency).
Proof.
  unfold price_search.
  destruct (is_empty (strip sku)); [auto with quiet|].
  destruct (200 <? len sku); [auto with quiet|].
  quiet_steps.
Qed.

#[local] Hint Resolve quiet_price_search : quiet.

Lemma quiet_cost_estimate sku quantity region currency :
  quiet (cost_estimate cfg up sku quantity region currency).
Proof.
  unfold cost_estimate.
  apply quiet_bind; [auto with quiet | intros search].
  apply quiet_bind; [auto with quiet | intros items].
  destruct (negb (truthy items)); quiet_steps.
Qed.

#[local] Hint Resolve quiet_cost_estimate : quiet.









(** What [handle] does with a request whose id is not [None]. *)
Lemma handle_request fields w :
  dict_get fields (lit "id") JNull <> JNull ->
  handle cfg up (JObj fields) w
  = let req_id := dict_get fields (lit "id") JNull in
    let method := dict_get fields (lit "method") JNull in
    let params := or_ (dict_get fields (lit "params") JNull) (JObj []) in
    match dispatch cfg up req_id method params w with
    | (inr _, w') => w'
    | (inl exc, w') =>
      snd (_mcp_write (_mcp_error req_id (-32000)
                         (lit "Server error: " ++ exn_str exc)) w')
    end.
Proof.
  intros Hid. unfold handle.
  destruct (dict_get fields (lit "id") JNull); (congruence || reflexivity).
Qed.

Lemma handle_notification fields w :
  dict_get fields (lit "id") JNull = JNull ->
  handle cfg up (JObj fields) w = w.
Proof. intros Hid. unfold handle. rewrite Hid. reflexivity. Qed.


Lemma dispatch_unknown id method params :
  known_method method = false ->
  dispatch cfg up id method params
  = _mcp_write (_mcp_error id (-32601) (lit "Unknown method: " ++ str_ method)).
Proof.
  unfold known_method, dispatch. intros H.
  apply orb_false_elim in H. destruct H as [H H4].
  apply orb_false_elim in H. destruct H as [H H3].
  apply orb_false_elim in H. destruct H as [H1 H2].
  rewrite H1, H2, H3, H4. reflexivity.
Qed.

(** The two writes of [_mcp_write]. *)
Lemma mcp_write_trace obj w :
  _mcp_write obj w
  = (inr tt, w ++ [Write (Frame.header (dumps obj)); Write (dumps obj)]).
Proof.
  unfold _mcp_write, bind, write. rewrite <- app_assoc. reflexivity.
Qed.

(** C8, as the code has it.  A message that is not an object is ignored,
    and so is an object whose [id] is absent or null: [handle] does nothing
    and raises nothing.  An object with an [id] that is not null and with
    a [method] that is absent, or is not a string, or is not the name of a
    defined method, is answered: [handle] writes one error response with
    that id, code -32601 and the message "Unknown method: " followed by
    the text of the method, which is "None" for an absent one. *)
Theorem unusable_message (w : world) :
  (forall msg, (forall fields, msg <> JObj fields) -> handle cfg up msg w = w)
  /\ (forall fields,
        lookup (lit "id") fields = None \/ lookup (lit "id") fields = Some JNull ->
        handle cfg up (JObj fields) w = w)
  /\ (forall fields id,
        lookup (lit "id") fields = Some id -> id <> JNull ->
        let method := dict_get fields (lit "method") JNull in
        known_method method = false ->
        let reply := _mcp_error id (-32601)
                       (lit "Unknown method: " ++ str_ method) in
        handle cfg up (JObj fields) w
        = w ++ [Write (Frame.header (dumps reply)); Write (dumps reply)])
  /\ (forall fields,
        lookup (lit "method") fields = None ->
        known_method (dict_get fields (lit "method") JNull) = false
        /\ str_ (dict_get fields (lit "method") JNull) = lit "None").
Proof.
  split; [|split; [|split]].
  - intros msg Hmsg. destruct msg; try reflexivity.
    exfalso. eapply Hmsg. reflexivity.
  - intros fields Hid. apply handle_notification.
    unfold dict_get. destruct Hid as [-> | ->]; reflexivity.
  - intros fields id Hid Hnn method Hunknown reply.
    assert (Hget : dict_get fields (lit "id") JNull = id)
      by (unfold dict_get; rewrite Hid; reflexivity).
    rewrite handle_request by (rewrite Hget; exact Hnn).
    cbv zeta. rewrite Hget. fold method.
    rewrite dispatch_unknown by exact Hunknown.
    rewrite mcp_write_trace. reflexivity.
  - intros fields Hm. unfold dict_get. rewrite Hm. split; reflexivity.
Qed.

(** ** The tools *)

Lemma price_search_ok sku region currency w data items w' :
  is_empty (strip sku) = false -> len sku <= 200 ->
  Fetch.fetch_prices cfg up (filter_expr_of sku region currency) w
  = (inr (JObj data), w') ->
  lookup (lit "Items") data = Some (JArr items) ->
  price_search cfg up sku region currency w
  = (inr (search_result sku items), w').
Proof.
  intros Hsku Hlen Hfetch Hitems. unfold price_search.
  rewrite Hsku. destruct (Z.ltb_spec 200 (len sku)) as [Hbad | _]; [lia|].
  cbv zeta. unfold bind at 1. rewrite Hfetch.
  unfold bind, lift, ret. cbn [get]. unfold dict_get. rewrite Hitems.
  cbn [len_ slice5]. reflexivity.
Qed.

Lemma cost_estimate_not_found sku quantity region currency w search w' :
  price_search cfg up sku region currency w = (inr search, w') ->
  get search (lit "items") (JArr []) = inr (JArr []) ->
  cost_estimate cfg up sku quantity region currency w
  = (inr (not_found sku), w').
Proof.
  intros Hsearch Hitems. unfold cost_estimate.
  unfold bind at 1. rewrite Hsearch.
  unfold bind at 1. unfold lift at 1. rewrite Hitems. reflexivity.
Qed.

(** ** [handle] on a [tools/call] *)

Lemma or_dict fields : or_ (JObj fields) (JObj []) = JObj fields.
Proof. destruct fields; reflexivity. Qed.

Lemma handle_tools_call fields id params w :
  lookup (lit "id") fields = Some id -> id <> JNull ->
  lookup (lit "method") fields = Some (JStr (lit "tools/call")) ->
  lookup (lit "params") fields = Some (JObj params) ->
  handle cfg up (JObj fields) w
  = match tools_call cfg up id (JObj params) w with
    | (inr _, w') => w'
    | (inl exc, w') =>
      snd (_mcp_write (_mcp_error id (-32000)
                         (lit "Server error: " ++ exn_str exc)) w')
    end.
Proof.
  intros Hid Hnn Hmethod Hparams.
  assert (Hget : dict_get fields (lit "id") JNull = id)
    by (unfold dict_get; rewrite Hid; reflexivity).
  rewrite handle_request by (rewrite Hget; exact Hnn).
  cbv zeta. rewrite Hget. unfold dict_get at 1 2.
  rewrite Hmethod, Hparams, or_dict. reflexivity.
Qed.

Lemma tools_call_price_search id params arguments sku w :
  lookup (lit "name") params = Some (JStr (lit "price_search")) ->
  dict_get params (lit "arguments") JNull = JObj arguments ->
  dict_get arguments (lit "sku") JNull = sku -> truthy sku = true ->
  tools_call cfg up id (JObj params) w
  = (found <- price_search cfg up (str_ sku) (region_of cfg arguments)
                (currency_of cfg arguments) ;;
     _mcp_write (_mcp_result id found)) w.
Proof.
  intros Hname Hargs Hsku Htruthy.
  assert (Hn : dict_get params (lit "name") JNull = JStr (lit "price_search"))
    by (unfold dict_get; rewrite Hname; reflexivity).
  unfold tools_call, bind, lift. cbn [get].
  rewrite Hargs, or_dict. cbn [get]. rewrite Hn.
  change (eq_str (JStr (lit "price_search")) (lit "price_search")) with true.
  cbv iota. rewrite Hsku, Htruthy. reflexivity.
Qed.





(** C9.  Dispatch of [price_search], and [cost_estimate] on nothing
    found.  When the upstream returns an object whose [Items] is a list
    of [n] items, [price_search] returns a result whose [count] is [n] and
    whose [items] are the first five of them, [min n 5] in number; for a
    [tools/call] of [price_search] with an id, [handle] writes the frame of
    the response that carries this result and nothing else.  When its
    [price_search] returns a result whose [items] is the empty list,
    [cost_estimate] returns a result whose [status] is "not-found". *)
Theorem dispatch_price_search :
  (forall sku region currency w data items w',
     is_empty (strip sku) = false -> len sku <= 200 ->
     Fetch.fetch_prices cfg up (filter_expr_of sku region currency) w
     = (inr (JObj data), w') ->
     lookup (lit "Items") data = Some (JArr items) ->
     price_search cfg up sku region currency w
     = (inr (search_result sku items), w')
     /\ get (search_result sku items) (lit "count") JNull
        = inr (JInt (Z.of_nat (length items)))
     /\ get (search_result sku items) (lit "items") JNull
        = inr (JArr (firstn 5 items))
     /\ length (firstn 5 items) = Nat.min 5 (length items)
     /\ (length (firstn 5 items) <= 5)%nat)
  /\ (forall fields id params arguments w data items w',
       lookup (lit "id") fields = Some id -> id <> JNull ->
       lookup (lit "method") fields = Some (JStr (lit "tools/call")) ->
       lookup (lit "params") fields = Some (JObj params) ->
       lookup (lit "name") params = Some (JStr (lit "price_search")) ->
       dict_get params (lit "arguments") JNull = JObj arguments ->
       let sku := dict_get arguments (lit "sku") JNull in
       truthy sku = true ->
       is_empty (strip (str_ sku)) = false -> len (str_ sku) <= 200 ->
       Fetch.fetch_prices cfg up
         (filter_expr_of (str_ sku) (region_of cfg arguments)
            (currency_of cfg arguments)) w
       = (inr (JObj data), w') ->
       lookup (lit "Items") data = Some (JArr items) ->
       let reply := _mcp_result id (search_result (str_ sku) items) in
       handle cfg up (JObj fields) w
       = w' ++ [Write (Frame.header (dumps reply)); Write (dumps reply)])
  /\ (forall sku quantity region currency w search w',
       price_search cfg up sku region currency w = (inr search, w') ->
       get search (lit "items") (JArr []) = inr (JArr []) ->
       cost_estimate cfg up sku quantity region currency w
       = (inr (not_found sku), w')
       /\ get (not_found sku) (lit "status") JNull
          = inr (JStr (lit "not-found"))).
Proof.
  split; [|split].
  - intros sku region currency w data items w' Hsku Hlen Hfetch Hitems.
    split; [apply (price_search_ok _ _ _ _ _ _ _ Hsku Hlen Hfetch Hitems)|].
    split; [reflexivity|]. split; [reflexivity|].
    rewrite length_firstn. split; [reflexivity | lia].
  - intros fields id params arguments w data items w'
      Hid Hnn Hmethod Hparams Hname Hargs sku Htruthy Hsku Hlen Hfetch
      Hitems reply.
    rewrite (handle_tools_call _ _ _ _ Hid Hnn Hmethod Hparams).
    rewrite (tools_call_price_search _ _ _ sku _ Hname Hargs eq_refl Htruthy).
    unfold bind.
    rewrite (price_search_ok _ _ _ _ _ _ _ Hsku Hlen Hfetch Hitems).
    rewrite mcp_write_trace. reflexivity.
  - intros sku quantity region currency w search w' Hsearch Hitems.
    split; [|reflexivity].
    apply (cost_estimate_not_found _ _ _ _ _ _ _ Hsearch Hitems).
Qed.


End Dispatcher.

Section DispatcherExamples.
Import Demo.

(** C8, as stated, fails.  The object [{"jsonrpc": "2.0", "id": 7}] has
    no [method], and [handle] does not ignore it: it writes the frame of
    an error response with id 7 and code -32601. *)
Lemma request_without_method_is_answered :
  lookup (lit "method") [ (lit "jsonrpc", JStr (lit "2.0")); (lit "id", JInt 7) ]
  = None
  /\ no_method_msg = JObj [ (lit "jsonrpc", JStr (lit "2.0")); (lit "id", JInt 7) ]
  /\ stdout (handle default_config (serving []) no_method_msg start)
     = Frame.encode
         (dumps (_mcp_error (JInt 7) (-32601) (lit "Unknown method: None")))
  /\ stdout (handle default_config (serving []) no_method_msg start) <> [].
Proof.
  split; [reflexivity|]. split; [reflexivity|].
  split; [vm_compute; reflexivity | vm_compute; discriminate].
Qed.

Lemma unusable_message_witness :
  let fields := [ (lit "jsonrpc", JStr (lit "2.0")); (lit "id", JInt 7) ] in
  let method := dict_get fields (lit "method") JNull in
  let reply := _mcp_error (JInt 7) (-32601)
                 (lit "Unknown method: " ++ str_ method) in
  known_method method = false
  /\ handle default_config (serving []) (JObj fields) start
     = start ++ [Write (Frame.header (dumps reply)); Write (dumps reply)].
Proof.
  intros fields method reply.
  assert (H : known_method method = false) by (vm_compute; reflexivity).
  split; [exact H|].
  exact (proj1 (proj2 (proj2 (unusable_message default_config (serving [])
                                start)))
           fields (JInt 7) eq_refl ltac:(discriminate) H).
Defined.


Lemma dispatch_price_search_witness :
  let reply := _mcp_result (JInt 1) (search_result (lit "B2s") ten_items) in
  search_B2s = JObj (call_fields 1 "price_search")
  /\ Fetch.fetch_prices default_config (serving ten_items)
       (lit "contains(skuName,'B2s')") start
     = (inr (JObj [(lit "Items", JArr ten_items)]), [Get B2s_request])
  /\ handle default_config (serving ten_items)
       (JObj (call_fields 1 "price_search")) start
     = [Get B2s_request]
       ++ [Write (Frame.header (dumps reply)); Write (dumps reply)]
  /\ get (search_result (lit "B2s") ten_items) (lit "count") JNull
     = inr (JInt 10)
  /\ length (firstn 5 ten_items) = 5%nat.
Proof.
  intros reply.
  assert (Hfetch :
    Fetch.fetch_prices default_config (serving ten_items)
      (lit "contains(skuName,'B2s')") start
    = (inr (JObj [(lit "Items", JArr ten_items)]), [Get B2s_request]))
    by (vm_compute; reflexivity).
  split; [reflexivity|]. split; [exact Hfetch|]. split.
  - exact (proj1 (proj2 (dispatch_price_search default_config
                           (serving ten_items)))
             (call_fields 1 "price_search") (JInt 1)
             (call_params_fields "price_search") B2s_arguments start
             [(lit "Items", JArr ten_items)] ten_items [Get B2s_request]
             eq_refl ltac:(discriminate) eq_refl eq_refl eq_refl eq_refl
             eq_refl eq_refl ltac:(vm_compute; discriminate) Hfetch eq_refl).
  - split; reflexivity.
Defined.


End DispatcherExamples.

End ServerFacts.

(* ===================================================================== *)
(** * More on the read loop: streams, chunks, what is left *)
(* ===================================================================== *)

Module StreamFacts.
Import Py Frame Spec FrameFacts.

(** ** A turn on a longer buffer *)

Lemma find_found buffer :
  find buffer CRLFCRLF <> -1 ->
  0 <= find buffer CRLFCRLF /\ find buffer CRLFCRLF + 4 <= len buffer.
Proof.
  unfold find. intros H.
  assert (G : forall l i, find_from CRLFCRLF l i <> -1 ->
              i <= find_from CRLFCRLF l i
              /\ find_from CRLFCRLF l i + 4 <= i + len l).
  { clear. induction l as [|b l IH]; intros i; cbn [find_from].
    - change (starts_with CRLFCRLF []) with false. cbv iota. congruence.
    - destruct (starts_with CRLFCRLF (b :: l)) eqn:E.
      + intros _. apply starts_with_length in E.
        change (length CRLFCRLF) with 4%nat in E. unfold len. lia.
      + intros H. apply IH in H. unfold len in *. cbn [length]. lia. }
  apply G in H. lia.
Qed.

Lemma firstn_app_short {A} (a b : list A) n :
  (n <= length a)%nat -> firstn n (a ++ b) = firstn n a.
Proof.
  intros H. rewrite firstn_app.
  replace (n - length a)%nat with 0%nat by lia. cbn [firstn].
  apply app_nil_r.
Qed.

Lemma skipn_app_short {A} (a b : list A) n :
  (n <= length a)%nat -> skipn n (a ++ b) = skipn n a ++ b.
Proof.
  intros H. rewrite skipn_app.
  replace (n - length a)%nat with 0%nat by lia. reflexivity.
Qed.

(** A turn that does not wait does the same when bytes follow. *)
Lemma decode_turn_more buffer more :
  match decode_turn buffer with
  | Wait => True
  | Skip rest => decode_turn (buffer ++ more) = Skip (rest ++ more)
  | Body body rest => decode_turn (buffer ++ more) = Body body (rest ++ more)
  end.
Proof.
  unfold decode_turn.
  destruct (Z.eqb_spec (find buffer CRLFCRLF) (-1)) as [E | E]; [exact I|].
  destruct (find_found buffer E) as [H0 H4].
  assert (Hfind : find (buffer ++ more) CRLFCRLF = find buffer CRLFCRLF)
    by (apply find_from_app, E).
  rewrite Hfind.
  destruct (Z.eqb_spec (find buffer CRLFCRLF) (-1)) as [E' | _]; [congruence|].
  set (h := find buffer CRLFCRLF) in *.
  assert (Hhead : slice_to h (buffer ++ more) = slice_to h buffer).
  { unfold slice_to. apply firstn_app_short. unfold len in H4. lia. }
  rewrite Hhead.
  destruct (search (utf8_decode_ignore (slice_to h buffer))) as [ds|] eqn:Hs.
  - pose proof (int_of_digits_acc ds 0 (Z.le_refl 0) (search_nonneg _ _ Hs))
      as Hcl.
    fold (int_of_digits ds) in Hcl. set (cl := int_of_digits ds) in *.
    destruct (Z.ltb_spec (len buffer) (h + 4 + cl)) as [_ | Hfull]; [exact I|].
    rewrite len_app.
    destruct (Z.ltb_spec (len buffer + len more) (h + 4 + cl)) as [Hbad | _];
      [pose proof (len_nonneg more); lia|].
    f_equal.
    + unfold slice. rewrite skipn_app_short by (unfold len in *; lia).
      apply firstn_app_short. rewrite length_skipn. unfold len in *. lia.
    + unfold slice_from. apply skipn_app_short. unfold len in *. lia.
  - f_equal. unfold slice_from. apply skipn_app_short. unfold len in *. lia.
Qed.

(** ** The loop on a buffer fed in two parts *)

Lemma pump_app {St} (f : list byte -> St -> St) : forall n buffer more s,
  (length buffer < n)%nat ->
  pump f (buffer ++ more) s
  = let '(kept, s') := pump f buffer s in pump f (kept ++ more) s'.
Proof.
  induction n as [|n IH]; intros buffer more s Hn; [lia|].
  rewrite (pump_unfold f buffer).
  pose proof (decode_turn_more buffer more) as Hmore.
  destruct (decode_turn buffer) as [|rest|body rest] eqn:E.
  - reflexivity.
  - rewrite (pump_unfold f (buffer ++ more)), Hmore.
    apply decode_turn_skip in E. apply IH. lia.
  - rewrite (pump_unfold f (buffer ++ more)), Hmore.
    apply decode_turn_body in E. apply IH. lia.
Qed.

(** ** What the loop leaves *)

Lemma pump_leftover {St} (f : list byte -> St -> St) : forall n buffer s,
  (length buffer < n)%nat ->
  decode_turn (fst (pump f buffer s)) = Wait
  /\ exists used, buffer = used ++ fst (pump f buffer s).
Proof.
  induction n as [|n IH]; intros buffer s Hn; [lia|].
  rewrite (pump_unfold f buffer).
  destruct (decode_turn buffer) as [|rest|body rest] eqn:E.
  - cbn [fst]. split; [exact E | exists []; reflexivity].
  - assert (Hsuffix : exists used, buffer = used ++ rest).
    { unfold decode_turn in E.
      destruct (find buffer CRLFCRLF =? -1); [discriminate|].
      destruct (search _); [destruct (_ <? _); discriminate|].
      injection E as <-. unfold slice_from.
      eexists. symmetry. apply firstn_skipn. }
    apply decode_turn_skip in E.
    destruct (IH rest s) as [Hw [used Hu]]; [lia|].
    split; [exact Hw|]. destruct Hsuffix as [used0 ->].
    exists (used0 ++ used). rewrite <- app_assoc. f_equal. exact Hu.
  - assert (Hsuffix : exists used, buffer = used ++ rest).
    { unfold decode_turn in E.
      destruct (find buffer CRLFCRLF =? -1); [discriminate|].
      destruct (search _); [|discriminate].
      destruct (_ <? _); [discriminate|].
      injection E as _ <-. unfold slice_from.
      eexists. symmetry. apply firstn_skipn. }
    apply decode_turn_body in E.
    destruct (IH rest (f body s)) as [Hw [used Hu]]; [lia|].
    split; [exact Hw|]. destruct Hsuffix as [used0 ->].
    exists (used0 ++ used). rewrite <- app_assoc. f_equal. exact Hu.
Qed.

(** ** Streams of frames *)

Lemma pump_encoded {St} (f : list byte -> St -> St) bodies : forall rest s,
  pump f (concat (map encode bodies) ++ rest) s
  = pump f rest (fold_left (fun s' body => f body s') bodies s).
Proof.
  induction bodies as [|body bodies IH]; intros rest s; [reflexivity|].
  cbn [map concat fold_left]. rewrite <- app_assoc.
  rewrite (pump_body f _ body (concat (map encode bodies) ++ rest))
    by apply decode_turn_encode.
  apply IH.
Qed.

Lemma fold_left_record {A} (l : list A) : forall acc,
  fold_left (fun acc' x => acc' ++ [x]) l acc = acc ++ l.
Proof.
  induction l as [|x l IH]; intros acc; cbn [fold_left].
  - symmetry. apply app_nil_r.
  - rewrite IH, <- app_assoc. reflexivity.
Qed.

(** X1.  A stream of frames.  A buffer that holds any number of encoded
    frames, one after the other, followed by a frame that is cut short,
    makes the loop pass every whole body to the callback once, in the
    order of the stream, and leaves exactly the cut frame in the buffer.
    In particular the loop takes the bodies off in order. *)
Theorem frame_stream {St} (f : list byte -> St -> St)
    (bodies : list (list byte)) (last : list byte) (k : nat) (s : St) :
  (k < length (encode last))%nat ->
  pump f (concat (map encode bodies) ++ firstn k (encode last)) s
  = (firstn k (encode last), fold_left (fun s' body => f body s') bodies s)
  /\ frames (concat (map encode bodies) ++ firstn k (encode last))
     = (bodies, firstn k (encode last))
  /\ frames (concat (map encode bodies)) = (bodies, []).
Proof.
  intros Hk.
  assert (Hcut : forall St' (g : list byte -> St' -> St') s',
            pump g (concat (map encode bodies) ++ firstn k (encode last)) s'
            = (firstn k (encode last),
               fold_left (fun s'' body => g body s'') bodies s')).
  { intros St' g s'. rewrite pump_encoded.
    apply pump_wait, decode_turn_cut, Hk. }
  split; [apply Hcut|]. split.
  - unfold frames. rewrite Hcut, fold_left_record. reflexivity.
  - unfold frames. rewrite <- (app_nil_r (concat (map encode bodies))).
    rewrite pump_encoded, fold_left_record.
    rewrite pump_wait by apply decode_turn_nil. reflexivity.
Qed.

Lemma frame_stream_witness :
  frames (concat (map encode [list_byte_of_string "{}"; list_byte_of_string "[1]"])
          ++ firstn 7 (encode (list_byte_of_string "null")))
  = ([list_byte_of_string "{}"; list_byte_of_string "[1]"],
     firstn 7 (encode (list_byte_of_string "null"))).
Proof.
  exact (proj1 (proj2 (frame_stream (fun body acc => acc ++ [body])
                         [list_byte_of_string "{}"; list_byte_of_string "[1]"]
                         (list_byte_of_string "null") 7 []
                         ltac:(vm_compute; lia)))).
Defined.

(** X2.  Chunks do not matter.  For every buffer, whatever it holds,
    running the loop on the buffer and then, with what it left, on more
    bytes does to the state what running it once on all the bytes does,
    and leaves the same buffer. *)
Theorem chunks_do_not_matter {St} (f : list byte -> St -> St)
    (buffer more : list byte) (s : St) :
  pump f (buffer ++ more) s
  = let '(kept, s') := pump f buffer s in pump f (kept ++ more) s'.
Proof. apply (pump_app f (S (length buffer))). lia. Qed.


Section ServerLoop.
Import Value Builtins World Server Notions.
Context `{rt : Runtime} (cfg : config) (up : upstream).

Lemma fold_on_body bodies : forall w,
  fold_left (fun w' body => on_body cfg up body w') bodies w
  = fold_left (fun w' msg => handle cfg up msg w') (parsed bodies) w.
Proof.
  induction bodies as [|body bodies IH]; intros w; [reflexivity|].
  cbn [fold_left parsed flat_map]. fold (parsed bodies).
  unfold on_body at 2. destruct (loads body) as [msg|]; cbn [app fold_left];
    apply IH.
Qed.

(** X4.  The server on a stream of frames.  When the input holds encoded
    frames one after the other, the server handles the messages of the
    frames whose body parses, each once and in the order of the stream; a
    frame whose body does not parse is dropped and costs nothing but its
    own bytes; the buffer is empty at the end. *)
Theorem server_handles_frames_in_order (bodies : list (list byte)) (w : world) :
  pump (on_body cfg up) (concat (map encode bodies)) w
  = ([], fold_left (fun w' msg => handle cfg up msg w') (parsed bodies) w).
Proof.
  rewrite <- (app_nil_r (concat (map encode bodies))).
  rewrite pump_encoded, fold_on_body.
  apply pump_wait, decode_turn_nil.
Qed.

(** X5.  Reads and the end of the input.  The reads of [run_mcp_stdio] may
    cut the input anywhere: starting from a buffer that waits (the empty
    one at the start, or what a run of the loop left), with reads that are
    not empty, the server does what one run of the loop on all their bytes
    does.  An empty read ends the server at once: the reads after it are
    not looked at. *)
Theorem run_mcp_stdio_reads (chunks later : list (list byte))
    (buffer : list byte) (w : world) :
  decode_turn buffer = Wait ->
  Forall (fun chunk => chunk <> []) chunks ->
  run_mcp_stdio cfg up chunks buffer w
  = snd (pump (on_body cfg up) (buffer ++ concat chunks) w)
  /\ run_mcp_stdio cfg up (chunks ++ [] :: later) buffer w
     = run_mcp_stdio cfg up chunks buffer w.
Proof.
  intros Hwait Hchunks. revert buffer w Hwait.
  induction Hchunks as [|chunk chunks Hne _ IH]; intros buffer w Hwait.
  - cbn [concat app run_mcp_stdio]. rewrite app_nil_r.
    rewrite pump_wait by exact Hwait. split; reflexivity.
  - assert (Hstep : forall rest,
              run_mcp_stdio cfg up (chunk :: rest) buffer w
              = let '(kept, w') := pump (on_body cfg up) (buffer ++ chunk) w in
                run_mcp_stdio cfg up rest kept w').
    { intros rest. destruct chunk; [congruence | reflexivity]. }
    rewrite <- app_comm_cons, !Hstep.
    change (concat (chunk :: chunks)) with (chunk ++ concat chunks).
    rewrite app_assoc,
      (pump_app (on_body cfg up) (S (length (buffer ++ chunk)))
         (buffer ++ chunk) (concat chunks) w) by lia.
    destruct (pump_leftover (on_body cfg up)
                (S (length (buffer ++ chunk))) (buffer ++ chunk) w)
      as [Hw _]; [lia|].
    destruct (pump (on_body cfg up) (buffer ++ chunk) w) as [kept w'].
    cbn [fst] in Hw. apply IH, Hw.
Qed.

End ServerLoop.

Lemma run_mcp_stdio_reads_witness :
  @Server.run_mcp_stdio Demo.runtime World.default_config (Demo.serving [])
    [firstn 20 (encode (@Builtins.dumps Demo.runtime Demo.ping_msg));
     skipn 20 (encode (@Builtins.dumps Demo.runtime Demo.ping_msg))] [] World.start
  = snd (pump (@Server.on_body Demo.runtime World.default_config (Demo.serving []))
           ([] ++ concat [firstn 20 (encode (@Builtins.dumps Demo.runtime Demo.ping_msg));
                          skipn 20 (encode (@Builtins.dumps Demo.runtime Demo.ping_msg))])
           World.start).
Proof.
  exact (proj1 (@run_mcp_stdio_reads Demo.runtime World.default_config
                  (Demo.serving [])
                  [firstn 20 (encode (@Builtins.dumps Demo.runtime Demo.ping_msg));
                   skipn 20 (encode (@Builtins.dumps Demo.runtime Demo.ping_msg))]
                  [] [] World.start eq_refl
                  ltac:(repeat constructor; vm_compute; discriminate))).
Defined.

(** ** Header blocks other than the one [_mcp_write] builds *)

Lemma match_literal_any_case pat name text :
  map ascii_lower name = map ascii_lower pat ->
  match_literal pat (name ++ text) = Some text.
Proof.
  revert name. induction pat as [|p pat IH]; intros name H.
  - destruct name; [reflexivity | discriminate].
  - destruct name as [|c name]; [discriminate|].
    cbn [map] in H. injection H as Hc Hrest.
    cbn [app match_literal]. rewrite Hc, Z.eqb_refl. apply IH, Hrest.
Qed.

Lemma any_case_ascii name :
  map ascii_lower name = lit "content-length:" -> ascii_text name.
Proof.
  intros H.
  assert (Hlow : ascii_text (map ascii_lower name)).
  { rewrite H. unfold lit. cbn. repeat (constructor; [lia|]). constructor. }
  clear H. induction name as [|c name IH]; [constructor|].
  cbn [map] in Hlow. inversion Hlow as [|? ? Hc Hrest]; subst.
  constructor; [|apply IH, Hrest].
  unfold ascii_lower in Hc.
  destruct ((65 <=? c) && (c <=? 90)) eqn:E; [|exact Hc].
  apply andb_prop in E. lia.
Qed.

Lemma skip_spaces_blanks blanks text :
  Forall (fun c => c = 32 \/ c = 9) blanks ->
  skip_spaces (blanks ++ text) = skip_spaces text.
Proof.
  induction 1 as [|c blanks Hc _ IH]; [reflexivity|].
  cbn [app skip_spaces]. destruct Hc as [-> | ->]; exact IH.
Qed.

Lemma take_digits_then ds post :
  Forall digit ds ->
  match post with [] => True | c :: _ => decimal_value c = None end ->
  take_digits (map (fun d => 48 + d) ds ++ post) = ds.
Proof.
  intros Hds Hpost. induction Hds as [|d ds Hd _ IH].
  - destruct post as [|c post]; [reflexivity|].
    cbn [map app take_digits]. rewrite Hpost. reflexivity.
  - cbn [map app take_digits]. rewrite decimal_value_ascii by exact Hd.
    rewrite IH. reflexivity.
Qed.

(** X6.  The header is read leniently.  A header block that starts with
    the field name in any mix of upper and lower case, followed by any
    number of blanks and tabs and by the decimal length of the body, is
    read like the header [_mcp_write] builds, whatever header lines come
    after the length: the body is taken off the buffer and the bytes after
    it are kept. *)
Theorem header_is_read_leniently (name blanks post : str)
    (payload tail : list byte) :
  map ascii_lower name = lit "content-length:" ->
  Forall (fun c => c = 32 \/ c = 9) blanks ->
  ascii_text post ->
  match post with [] => True | c :: _ => decimal_value c = None end ->
  let block :=
    encode_ascii (name ++ blanks ++ str_of_int (len payload) ++ post) in
  find (block ++ CRLFCRLF) CRLFCRLF = len block ->
  decode_turn (block ++ CRLFCRLF ++ payload ++ tail) = Body payload tail
  /\ frames (block ++ CRLFCRLF ++ payload) = ([payload], []).
Proof.
  intros Hname Hblanks Hpost Hfirst block Hfind.
  pose proof (len_nonneg payload) as Hn.
  destruct (nat_digits_spec _ Hn) as (Hd & Hne & Hint).
  assert (Htext : ascii_text
                    (name ++ blanks ++ str_of_int (len payload) ++ post)).
  { repeat apply ascii_text_app.
    - apply any_case_ascii, Hname.
    - eapply Forall_impl; [|exact Hblanks]. intros c [-> | ->]; lia.
    - rewrite str_of_int_nonneg by exact Hn. apply digits_ascii_text, Hd.
    - exact Hpost. }
  assert (Hsearch : search (utf8_decode_ignore block)
                    = Some (nat_digits (len payload))).
  { unfold block. rewrite utf8_decode_ascii by exact Htext.
    apply search_here. unfold match_here.
    rewrite match_literal_any_case by (rewrite Hname; reflexivity).
    rewrite skip_spaces_blanks by exact Hblanks.
    rewrite str_of_int_nonneg by exact Hn.
    assert (Hskip : skip_spaces
                      (map (fun d => 48 + d) (nat_digits (len payload)) ++ post)
                    = map (fun d => 48 + d) (nat_digits (len payload)) ++ post).
    { destruct Hd as [|d ds Hdd _]; [congruence|].
      cbn [map app skip_spaces]. rewrite is_space_ascii_digit by exact Hdd.
      reflexivity. }
    rewrite Hskip, take_digits_then by assumption.
    destruct (nat_digits (len payload)); [congruence | reflexivity]. }
  assert (Hturn : forall rest,
            decode_turn (block ++ CRLFCRLF ++ payload ++ rest)
            = Body payload rest).
  { intros rest. rewrite decode_turn_at.
    - rewrite Hsearch, Hint, len_app.
      destruct (Z.ltb_spec (len payload + len rest) (len payload));
        [pose proof (len_nonneg rest); lia|].
      rewrite slice_to_app.
      rewrite <- (Z.add_0_r (len payload)), slice_from_app by lia.
      reflexivity.
    - unfold find in *. rewrite app_assoc.
      rewrite find_from_app; [exact Hfind|].
      rewrite Hfind. pose proof (len_nonneg block). lia. }
  split; [apply Hturn|].
  unfold frames. rewrite <- (app_nil_r payload) at 1.
  rewrite (pump_body _ _ payload []) by apply Hturn.
  rewrite pump_wait by apply decode_turn_nil. reflexivity.
Qed.

Lemma header_is_read_leniently_witness :
  frames (encode_ascii (lit "CONTENT-length:" ++ [9; 32]
                        ++ str_of_int (len (list_byte_of_string "{}"))
                        ++ [13; 10] ++ lit "Content-Type: application/json")
          ++ CRLFCRLF ++ list_byte_of_string "{}")
  = ([list_byte_of_string "{}"], []).
Proof.
  exact (proj2 (header_is_read_leniently (lit "CONTENT-length:") [9; 32]
                  ([13; 10] ++ lit "Content-Type: application/json")
                  (list_byte_of_string "{}") []
                  eq_refl
                  ltac:(constructor; [right; reflexivity|];
                        constructor; [left; reflexivity|]; constructor)
                  ltac:(unfold ascii_text; cbn; repeat (constructor; [lia|]);
                        constructor)
                  eq_refl eq_refl)).
Defined.

End StreamFacts.

(* ===================================================================== *)
(** * More on the tools: the filter, the estimate, the upstream body *)
(* ===================================================================== *)

Module ToolFacts.
Import Py Value Builtins World Fetch Tools Spec Notions WorldFacts.
Local Open Scope py_scope.

(** ** [_odata_escape] *)

Lemma read_literal_escape s : forall rest,
  (forall r, rest <> 39 :: r) ->
  read_literal (_odata_escape s ++ 39 :: rest) = Some (s, rest).
Proof.
  induction s as [|c s IH]; intros rest Hrest.
  - cbn [_odata_escape flat_map app read_literal]. rewrite Z.eqb_refl.
    destruct rest as [|c' rest']; [reflexivity|].
    destruct (Z.eqb_spec c' 39) as [-> | _]; [|reflexivity].
    exfalso. eapply Hrest. reflexivity.
  - unfold _odata_escape in *. cbn [flat_map].
    destruct (Z.eqb_spec c 39) as [-> | Hc].
    + cbn [app read_literal]. rewrite !Z.eqb_refl, IH by exact Hrest.
      reflexivity.
    + cbn [app read_literal].
      destruct (Z.eqb_spec c 39) as [E | _]; [congruence|].
      rewrite IH by exact Hrest. reflexivity.
Qed.

(** X7.  Escaping keeps a literal closed.  The text [_odata_escape]
    returns, put between quotes and followed by anything that does not
    start with a quote, reads back under the OData rule (two quotes are
    one, one quote ends the literal) as the text that was escaped, and the
    literal ends where the closing quote was put; so no text given as
    [sku], [region] or [currency] can end its literal early.  Escaping
    loses nothing: different texts have different escapes. *)
Theorem odata_escape_round_trip (s rest : str) :
  (forall r, rest <> 39 :: r) ->
  read_literal (_odata_escape s ++ 39 :: rest) = Some (s, rest)
  /\ (forall t, _odata_escape t = _odata_escape s -> t = s).
Proof.
  intros Hrest. split; [apply read_literal_escape, Hrest|].
  intros t Heq.
  assert (Hnil : forall r : str, @nil Z <> 39 :: r) by discriminate.
  pose proof (read_literal_escape t [] Hnil) as Ht.
  pose proof (read_literal_escape s [] Hnil) as Hs.
  rewrite Heq in Ht. congruence.
Qed.

Lemma odata_escape_round_trip_witness :
  read_literal (_odata_escape (lit "D2's' v3") ++ 39 :: lit ")")
  = Some (lit "D2's' v3", lit ")").
Proof.
  exact (proj1 (odata_escape_round_trip (lit "D2's' v3") (lit ")")
                  ltac:(discriminate))).
Defined.

Section Tools.
Context `{rt : Runtime} (cfg : config) (up : upstream).

(** ** The filter expression *)

Lemma is_empty_escape s : is_empty (_odata_escape s) = is_empty s.
Proof.
  destruct s as [|c s]; [reflexivity|].
  unfold _odata_escape. cbn [flat_map]. destruct (c =? 39); reflexivity.
Qed.

(** X8.  The filter expression.  The expression [price_search] sends is
    the clause for the stripped and escaped [sku], followed, for each of
    [region] and [currency] in this order, by [ and ], the field name and
    the stripped and escaped text between quotes, and by nothing for an
    argument that is [None], empty, or blank once stripped.  The quoted
    [sku] reads back as the stripped [sku], whatever quotes it holds: what
    follows it in the expression is what the server put there. *)
Theorem filter_expression (sku : str) (region currency : value) :
  filter_expr_of sku region currency
  = lit "contains(skuName,'" ++ _odata_escape (strip sku) ++ lit "')"
    ++ clause (lit "armRegionName") region
    ++ clause (lit "currencyCode") currency
  /\ read_literal (skipn 18 (filter_expr_of sku region currency))
     = Some (strip sku,
             lit ")" ++ clause (lit "armRegionName") region
             ++ clause (lit "currencyCode") currency)
  /\ (blankb region = true -> blankb currency = true ->
      filter_expr_of sku region currency = filter_expr_of sku JNull JNull).
Proof.
  assert (Hform : forall r c,
            filter_expr_of sku r c
            = lit "contains(skuName,'" ++ _odata_escape (strip sku) ++ lit "')"
              ++ clause (lit "armRegionName") r
              ++ clause (lit "currencyCode") c).
  { intros r c. unfold filter_expr_of, add_filter, clause, blankb.
    rewrite !is_empty_escape.
    destruct (truthy r), (is_empty (strip (str_ r))),
             (truthy c), (is_empty (strip (str_ c)));
      cbn [negb orb app join]; rewrite <- ?app_assoc, ?app_nil_r;
      reflexivity. }
  split; [apply Hform|]. split.
  - rewrite Hform.
    change (lit "contains(skuName,'" ++ _odata_escape (strip sku) ++ lit "')"
            ++ clause (lit "armRegionName") region
            ++ clause (lit "currencyCode") currency)
      with (lit "contains(skuName,'"
            ++ (_odata_escape (strip sku)
                ++ 39 :: (lit ")" ++ clause (lit "armRegionName") region
                          ++ clause (lit "currencyCode") currency))).
    change (skipn 18 (lit "contains(skuName,'" ++ ?x)) with x.
    apply read_literal_escape. discriminate.
  - intros Hr Hc. rewrite !Hform. unfold clause. rewrite Hr, Hc. reflexivity.
Qed.

(** ** The tools and the outside *)

Lemma pure_ret {A} (a : A) : pure (ret a).
Proof. intros w. reflexivity. Qed.

Lemma pure_raise {A} e : pure (@raise A e).
Proof. intros w. reflexivity. Qed.

Lemma pure_lift {A} (r : result A) : pure (lift r).
Proof. intros w. reflexivity. Qed.

Lemma pure_bind {A B} (m : M A) (k : A -> M B) :
  pure m -> (forall a, pure (k a)) -> pure (bind m k).
Proof.
  intros Hm Hk w. unfold bind. specialize (Hm w).
  destruct (m w) as [[e | a] w1]; cbn [snd] in *; [exact Hm|].
  rewrite Hk. exact Hm.
Qed.

(** What follows a step that acts on the outside, when the rest is pure. *)
Lemma bind_then_pure {A B} (m : M A) (k : A -> M B) w :
  (forall a, pure (k a)) ->
  snd (bind m k w) = snd (m w)
  /\ (forall e, fst (m w) = inl e -> fst (bind m k w) = inl e).
Proof.
  intros Hk. unfold bind. destruct (m w) as [[e | a] w1]; cbn [fst snd].
  - split; [reflexivity | intros e0 He; congruence].
  - split; [apply Hk | discriminate].
Qed.

Lemma valid_sku_checks sku :
  valid_sku sku = true <-> is_empty (strip sku) = false /\ len sku <= 200.
Proof.
  unfold valid_sku. rewrite andb_true_iff, negb_true_iff, Z.leb_le. tauto.
Qed.

(** A [sku] that fails the checks stops both tools before anything is
    done. *)
Lemma price_search_invalid sku quantity region currency w :
  valid_sku sku = false ->
  price_search cfg up sku region currency w = (inl (sku_error sku), w)
  /\ cost_estimate cfg up sku quantity region currency w
     = (inl (sku_error sku), w).
Proof.
  intros Hinvalid.
  assert (Hsearch : price_search cfg up sku region currency w
                    = (inl (sku_error sku), w)).
  { unfold valid_sku in Hinvalid. unfold price_search, sku_error.
    destruct (is_empty (strip sku)); [reflexivity|].
    cbn [negb andb] in Hinvalid. apply Z.leb_gt in Hinvalid.
    destruct (Z.ltb_spec 200 (len sku)); [reflexivity | lia]. }
  split; [exact Hsearch|].
  unfold cost_estimate. unfold bind at 1. rewrite Hsearch. reflexivity.
Qed.

Lemma price_search_world sku region currency w :
  valid_sku sku = true ->
  let fetched :=
    fetch_prices cfg up (filter_expr_of sku region currency) w in
  let searched := price_search cfg up sku region currency w in
  snd searched = snd fetched
  /\ (forall e, fst fetched = inl e -> fst searched = inl e).
Proof.
  intros Hvalid fetched searched. subst fetched searched.
  apply valid_sku_checks in Hvalid. destruct Hvalid as [Hsku Hlen].
  unfold price_search. rewrite Hsku.
  destruct (Z.ltb_spec 200 (len sku)) as [Hbad | _]; [lia|]. cbv zeta.
  apply bind_then_pure. intros data.
  repeat (apply pure_bind; [apply pure_lift | intros ?]).
  apply pure_ret.
Qed.

Lemma cost_estimate_world sku quantity region currency w :
  let searched := price_search cfg up sku region currency w in
  let estimated := cost_estimate cfg up sku quantity region currency w in
  snd estimated = snd searched
  /\ (forall e, fst searched = inl e -> fst estimated = inl e).
Proof.
  cbv zeta. unfold cost_estimate.
  apply bind_then_pure. intros search.
  apply pure_bind; [apply pure_lift | intros items].
  destruct (negb (truthy items)); [apply pure_ret|].
  repeat (apply pure_bind; [apply pure_lift | intros ?]).
  apply pure_ret.
Qed.

(** X9.  The tools reach the outside through [fetch_prices] only.  For a
    [sku] that passes the checks, what [price_search] does to the world is
    what its one call of [fetch_prices] does, and an exception of that
    call is the exception of [price_search]; for a [sku] that fails them
    nothing is done at all.  [cost_estimate] does to the world what its
    [price_search] does, and raises what it raises: estimating costs no
    call beyond the search. *)
Theorem tools_act_through_fetch_prices (sku : str) (quantity : Z)
    (region currency : value) (w : world) :
  let fetched :=
    fetch_prices cfg up (filter_expr_of sku region currency) w in
  let searched := price_search cfg up sku region currency w in
  let estimated := cost_estimate cfg up sku quantity region currency w in
  snd searched = (if valid_sku sku then snd fetched else w)
  /\ (valid_sku sku = true ->
      forall e, fst fetched = inl e -> fst searched = inl e)
  /\ snd estimated = snd searched
  /\ (forall e, fst searched = inl e -> fst estimated = inl e).
Proof.
  intros fetched searched estimated.
  split; [|split; [|apply cost_estimate_world]].
  - destruct (valid_sku sku) eqn:Hvalid.
    + apply price_search_world, Hvalid.
    + subst searched.
      destruct (price_search_invalid sku quantity region currency w Hvalid)
        as [-> _].
      reflexivity.
  - intros Hvalid. apply price_search_world, Hvalid.
Qed.

(** ** What [price_search] makes of the body the upstream sent *)

(** [price_search] once its call of [fetch_prices] has returned. *)
Lemma price_search_fetched sku region currency w data w' :
  valid_sku sku = true ->
  fetch_prices cfg up (filter_expr_of sku region currency) w = (inr data, w') ->
  price_search cfg up sku region currency w
  = (counted <- lift (get data (lit "Items") (JArr [])) ;;
     count <- lift (len_ counted) ;;
     listed <- lift (get data (lit "Items") (JArr [])) ;;
     items <- lift (slice5 listed) ;;
     ret (JObj [ (lit "status", JStr (lit "ok"));
                 (lit "tool", JStr (lit "price_search"));
                 (lit "sku", JStr sku);
                 (lit "count", JInt count);
                 (lit "items", items) ])) w'.
Proof.
  intros Hvalid Hfetch. apply valid_sku_checks in Hvalid.
  destruct Hvalid as [Hsku Hlen]. unfold price_search. rewrite Hsku.
  destruct (Z.ltb_spec 200 (len sku)) as [Hbad | _]; [lia|].
  cbv zeta. unfold bind at 1. rewrite Hfetch. reflexivity.
Qed.

(** [cost_estimate] once its [price_search] has returned or raised. *)
Lemma cost_estimate_searched sku quantity region currency w :
  cost_estimate cfg up sku quantity region currency w
  = match price_search cfg up sku region currency w with
    | (inl e, w') => (inl e, w')
    | (inr search, w') =>
      (items <- lift (get search (lit "items") (JArr [])) ;;
       if negb (truthy items)
       then ret (not_found sku)
       else
         first <- lift (first_item items) ;;
         listed <- lift (get first (lit "retailPrice") (JFloat (Finite 0))) ;;
         let price := or_ listed (JFloat (Finite 0)) in
         by_quantity <- lift (mul_int price quantity) ;;
         monthly <- lift (mul_int by_quantity 730) ;;
         ret (estimate_of sku quantity price monthly)) w'
    end.
Proof.
  unfold cost_estimate. unfold bind at 1.
  destruct (price_search cfg up sku region currency w) as [[e | search] w'];
    reflexivity.
Qed.

(** X10.  The body the upstream sent, when it is not the expected one.
    After a call of [fetch_prices] that returned: for an object without
    [Items], [price_search] reports a count of 0 and no items, and
    [cost_estimate] answers not-found; for a body that is not an object
    (a list, a string, a number, null), both raise the [AttributeError] of
    the missing method [get]; for an object whose [Items] is null, both
    raise the [TypeError] of [len].  In each case the world is what the
    fetch left. *)
Theorem unexpected_upstream_body (sku : str) (quantity : Z)
    (region currency : value) (w w' : world) (data : value) :
  valid_sku sku = true ->
  fetch_prices cfg up (filter_expr_of sku region currency) w = (inr data, w') ->
  let searched := price_search cfg up sku region currency w in
  let estimated := cost_estimate cfg up sku quantity region currency w in
  (forall fields, data = JObj fields -> lookup (lit "Items") fields = None ->
     searched = (inr (search_result sku []), w')
     /\ estimated = (inr (not_found sku), w'))
  /\ ((forall fields, data <> JObj fields) ->
      let e := Raise AttributeError
                 (lit "'" ++ type_name data
                  ++ lit "' object has no attribute 'get'") in
      searched = (inl e, w') /\ estimated = (inl e, w'))
  /\ (forall fields, data = JObj fields ->
      lookup (lit "Items") fields = Some JNull ->
      let e := Raise TypeError (lit "object of type 'NoneType' has no len()") in
      searched = (inl e, w') /\ estimated = (inl e, w')).
Proof.
  intros Hvalid Hfetch searched estimated.
  subst estimated. rewrite cost_estimate_searched. fold searched.
  subst searched. rewrite (price_search_fetched _ _ _ _ _ _ Hvalid Hfetch).
  split; [|split].
  - intros fields -> Hitems. unfold bind, lift, ret. cbn [get].
    unfold dict_get. rewrite Hitems. cbn [len_ slice5].
    split; reflexivity.
  - intros Hdata. cbv zeta.
    destruct data; try (split; reflexivity).
    exfalso. eapply Hdata. reflexivity.
  - intros fields -> Hitems. unfold bind, lift, ret. cbn [get].
    unfold dict_get. rewrite Hitems. split; reflexivity.
Qed.



End Tools.

Section ToolExamples.
Import Demo.

Lemma unexpected_upstream_body_witness :
  price_search default_config
    (fun _ _ => GetReturns (http_response 200 (Some (JObj [])) []))
    (lit "B2s") JNull JNull start
  = (inr (search_result (lit "B2s") []), [Get B2s_request]).
Proof.
  exact (proj1 (proj1 (unexpected_upstream_body default_config
                         (fun _ _ => GetReturns
                                       (http_response 200 (Some (JObj [])) []))
                         (lit "B2s") 1 JNull JNull start [Get B2s_request]
                         (JObj []) eq_refl eq_refl)
                  [] eq_refl eq_refl)).
Defined.


End ToolExamples.

End ToolFacts.

(* ===================================================================== *)
(** * More on the dispatcher: what a call of a tool is answered with *)
(* ===================================================================== *)

Module DispatchFacts.
Import Py Value Builtins World Fetch Tools Server Spec Notions WorldFacts.
Import FetchFacts ToolFacts.
Local Open Scope py_scope.

Lemma str_eqb_eq a : forall b, str_eqb a b = true -> a = b.
Proof.
  induction a as [|x a IH]; intros [|y b] H; try discriminate; [reflexivity|].
  cbn [str_eqb] in H. apply andb_prop in H. destruct H as [Hx Hab].
  apply Z.eqb_eq in Hx. f_equal; [exact Hx | apply IH, Hab].
Qed.

Lemma eq_str_eq v s : eq_str v s = true -> v = JStr s.
Proof.
  destruct v; try discriminate. cbn [eq_str]. intros H.
  f_equal. apply str_eqb_eq, H.
Qed.

Section Dispatcher.
Context `{rt : Runtime} (cfg : config) (up : upstream).

Lemma mcp_write_replied reply w : _mcp_write reply w = (inr tt, replied reply w).
Proof.
  unfold _mcp_write, replied, bind, write. rewrite <- app_assoc. reflexivity.
Qed.

(** What [handle] makes of a request [tools/call]. *)
Lemma handle_call fields id w :
  id_of (JObj fields) = id -> id <> JNull ->
  eq_str (method_of fields) (lit "tools/call") = true ->
  handle cfg up (JObj fields) w
  = match tools_call cfg up id (params_of fields) w with
    | (inr _, w') => w'
    | (inl exc, w') => replied (server_error id exc) w'
    end.
Proof.
  intros Hid Hnn Hmethod.
  cbn [id_of] in Hid. unfold handle. rewrite Hid.
  fold (method_of fields) (params_of fields).
  apply eq_str_eq in Hmethod. rewrite Hmethod.
  assert (Hd : dispatch cfg up id (JStr (lit "tools/call")) (params_of fields)
               = tools_call cfg up id (params_of fields)) by reflexivity.
  rewrite Hd.
  destruct (tools_call cfg up id (params_of fields) w) as [[exc | u] w'].
  - rewrite mcp_write_replied. destruct id; (congruence || reflexivity).
  - destruct id; (congruence || reflexivity).
Qed.

Lemma handle_tool_call msg id params arguments w :
  tool_call msg id params arguments ->
  handle cfg up msg w
  = match tools_call cfg up id (JObj params) w with
    | (inr _, w') => w'
    | (inl exc, w') => replied (server_error id exc) w'
    end.
Proof.
  intros (fields & -> & Hid & Hnn & Hmethod & Hparams & _).
  rewrite (handle_call _ _ _ Hid Hnn Hmethod), Hparams. reflexivity.
Qed.

Lemma tools_call_no_params id p w :
  (forall o, p <> JObj o) -> tools_call cfg up id p w = (inl (no_get p), w).
Proof.
  intros Hp. destruct p; try reflexivity. exfalso. eapply Hp. reflexivity.
Qed.

Lemma tools_call_no_arguments id params w :
  (forall o, arguments_of params <> JObj o) ->
  tools_call cfg up id (JObj params) w
  = (inl (no_get (arguments_of params)), w).
Proof.
  intros Ha. unfold tools_call, bind, lift. cbn [get].
  fold (arguments_of params).
  destruct (arguments_of params); try reflexivity.
  exfalso. eapply Ha. reflexivity.
Qed.


(** [tools_call] past the lines 174-178. *)
Lemma tools_call_arguments id params arguments w :
  arguments_of params = JObj arguments ->
  tools_call cfg up id (JObj params) w
  = (let name := name_of params in
     let region := region_of cfg arguments in
     let currency := currency_of cfg arguments in
     let sku := sku_of arguments in
     if eq_str name (lit "price_search") then
       if negb (truthy sku)
       then _mcp_write (_mcp_error id (-32602)
                          (lit "Missing required argument: sku"))
       else
         found <- price_search cfg up (str_ sku) region currency ;;
         _mcp_write (_mcp_result id found)
     else if eq_str name (lit "cost_estimate") then
       if negb (truthy sku)
       then _mcp_write (_mcp_error id (-32602)
                          (lit "Missing required argument: sku"))
       else
         match int_ (quantity_of arguments) with
         | None => _mcp_write (_mcp_error id (-32602)
                                 (lit "quantity must be an integer"))
         | Some qty_int =>
           estimate <- cost_estimate cfg up (str_ sku) qty_int region currency ;;
           _mcp_write (_mcp_result id estimate)
         end
     else _mcp_write (_mcp_error id (-32601)
                        (lit "Unknown tool: " ++ str_ name))) w.
Proof.
  intros Hargs. unfold arguments_of in Hargs.
  unfold tools_call, bind, lift. cbn [get]. rewrite Hargs. cbn [get].
  cbv zeta. fold (name_of params) (sku_of arguments).
  destruct (eq_str (name_of params) (lit "price_search")); [reflexivity|].
  destruct (eq_str (name_of params) (lit "cost_estimate")); reflexivity.
Qed.

(** X12.  A call without [sku].  A call of [price_search] or of
    [cost_estimate] whose arguments hold no [sku], or one that is null, an
    empty string, zero or false, is answered with the one error -32602
    [Missing required argument: sku]; nothing else is done: no call
    upstream, and for [cost_estimate] the quantity is not looked at. *)
Theorem missing_sku_is_rejected (msg id : value)
    (params arguments : list (str * value)) (w : world) :
  tool_call msg id params arguments ->
  eq_str (name_of params) (lit "price_search")
  || eq_str (name_of params) (lit "cost_estimate") = true ->
  truthy (sku_of arguments) = false ->
  handle cfg up msg w
  = replied (_mcp_error id (-32602) (lit "Missing required argument: sku")) w.
Proof.
  intros Hcall Hname Hsku.
  rewrite (handle_tool_call _ _ _ _ _ Hcall).
  destruct Hcall as (fields & _ & _ & _ & _ & _ & Hargs).
  rewrite (tools_call_arguments _ _ _ _ Hargs). cbv zeta.
  rewrite Hsku. cbn [negb].
  destruct (eq_str (name_of params) (lit "price_search")).
  - rewrite mcp_write_replied. reflexivity.
  - cbn [orb] in Hname. rewrite Hname, mcp_write_replied. reflexivity.
Qed.

(** X13.  A quantity that is no integer.  A call of [cost_estimate] with
    an [sku], whose [quantity] is given and [int] raises on it, is
    answered with the one error -32602 [quantity must be an integer] and
    no call is made upstream.  A [quantity] given as null is such a value:
    the default of 1 stands in for a [quantity] that is left out, not for
    one that is null.  Lists, objects, infinite floats and strings that
    are not a number are others. *)
Theorem quantity_must_be_an_integer (msg id : value)
    (params arguments : list (str * value)) (w : world) :
  tool_call msg id params arguments ->
  eq_str (name_of params) (lit "cost_estimate") = true ->
  truthy (sku_of arguments) = true ->
  let rejected :=
    handle cfg up msg w
    = replied (_mcp_error id (-32602) (lit "quantity must be an integer")) w in
  (int_ (quantity_of arguments) = None -> rejected)
  /\ (lookup (lit "quantity") arguments = Some JNull -> rejected)
  /\ (forall items, lookup (lit "quantity") arguments = Some (JArr items) ->
      rejected)
  /\ (forall o, lookup (lit "quantity") arguments = Some (JObj o) -> rejected)
  /\ (forall negative,
      lookup (lit "quantity") arguments = Some (JFloat (Infinity negative)) ->
      rejected)
  /\ (lookup (lit "quantity") arguments = Some (JStr []) -> rejected).
Proof.
  intros Hcall Hname Hsku rejected.
  assert (Hfail : int_ (quantity_of arguments) = None -> rejected).
  { intros Hqty. unfold rejected.
    rewrite (handle_tool_call _ _ _ _ _ Hcall).
    destruct Hcall as (fields & _ & _ & _ & _ & _ & Hargs).
    rewrite (tools_call_arguments _ _ _ _ Hargs). cbv zeta.
    apply eq_str_eq in Hname. rewrite Hname.
    change (eq_str (JStr (lit "cost_estimate")) (lit "price_search")) with false.
    change (eq_str (JStr (lit "cost_estimate")) (lit "cost_estimate")) with true.
    cbv iota. rewrite Hsku, Hqty. cbn [negb].
    rewrite mcp_write_replied. reflexivity. }
  assert (Hgiven : forall v, lookup (lit "quantity") arguments = Some v ->
                             int_ v = None -> rejected).
  { intros v Hv Hint. apply Hfail. unfold quantity_of, dict_get.
    rewrite Hv. exact Hint. }
  split; [exact Hfail|].
  repeat split; intros; eapply Hgiven; try eassumption; reflexivity.
Qed.

(** X14.  A tool that is not there.  A call that names neither
    [price_search] nor [cost_estimate] (another name, no name, a name that
    is not a string) is answered with the one error -32601 [Unknown tool: ]
    followed by the name as [str] prints it; the arguments are not looked
    at beyond their region and currency, and no call is made upstream. *)
Theorem unknown_tool_is_rejected (msg id : value)
    (params arguments : list (str * value)) (w : world) :
  tool_call msg id params arguments ->
  eq_str (name_of params) (lit "price_search") = false ->
  eq_str (name_of params) (lit "cost_estimate") = false ->
  handle cfg up msg w
  = replied (_mcp_error id (-32601)
               (lit "Unknown tool: " ++ str_ (name_of params))) w
  /\ (lookup (lit "name") params = None ->
      handle cfg up msg w
      = replied (_mcp_error id (-32601) (lit "Unknown tool: None")) w).
Proof.
  intros Hcall Hps Hce.
  assert (Hreply : handle cfg up msg w
                   = replied (_mcp_error id (-32601)
                                (lit "Unknown tool: " ++ str_ (name_of params)))
                       w).
  { rewrite (handle_tool_call _ _ _ _ _ Hcall).
    destruct Hcall as (fields & _ & _ & _ & _ & _ & Hargs).
    rewrite (tools_call_arguments _ _ _ _ Hargs). cbv zeta.
    rewrite Hps, Hce, mcp_write_replied. reflexivity. }
  split; [exact Hreply|].
  intros Hnone. rewrite Hreply. unfold name_of, dict_get. rewrite Hnone.
  reflexivity.
Qed.



(** X15.  Parameters that are not objects.  In a request [tools/call],
    [params] that are given and are neither an object nor falsy (a list
    that is not empty, a string, a number), and likewise the [arguments]
    in them, make the reading of the first field fail: the request is
    answered with the one error -32000 whose message is [Server error: ]
    and the text of the [AttributeError] for the missing method [get] of
    its type, whatever tool is named.  Nothing else is done. *)
Theorem parameters_must_be_objects (fields : list (str * value)) (id : value)
    (w : world) :
  id_of (JObj fields) = id -> id <> JNull ->
  eq_str (method_of fields) (lit "tools/call") = true ->
  ((forall o, params_of fields <> JObj o) ->
     handle cfg up (JObj fields) w
     = replied (server_error id (no_get (params_of fields))) w)
  /\ (forall params,
        params_of fields = JObj params ->
        (forall o, arguments_of params <> JObj o) ->
        handle cfg up (JObj fields) w
        = replied (server_error id (no_get (arguments_of params))) w).
Proof.
  intros Hid Hnn Hmethod. split.
  - intros Hp. rewrite (handle_call _ _ _ Hid Hnn Hmethod).
    rewrite tools_call_no_params by exact Hp. reflexivity.
  - intros params Hp Ha. rewrite (handle_call _ _ _ Hid Hnn Hmethod), Hp.
    rewrite tools_call_no_arguments by exact Ha. reflexivity.
Qed.


(** ** Which messages reach the upstream *)








End Dispatcher.

Section DispatcherExamples.
Import Demo.

(** The requests of the examples are calls of a tool. *)
Lemma demo_call id tool arguments :
  tool_call (request_msg (JInt id) "tools/call"
               (call_params tool (JObj arguments)))
    (JInt id)
    [ (lit "name", JStr (lit tool)); (lit "arguments", JObj arguments) ]
    arguments.
Proof.
  eexists. split; [reflexivity|]. split; [reflexivity|].
  split; [discriminate|]. split; [reflexivity|]. split; [reflexivity|].
  destruct arguments; reflexivity.
Qed.

Lemma missing_sku_is_rejected_witness :
  handle default_config unreachable
    (request_msg (JInt 1) "tools/call"
       (call_params "cost_estimate" (JObj [(lit "quantity", JInt 2)]))) start
  = replied (_mcp_error (JInt 1) (-32602)
               (lit "Missing required argument: sku")) start.
Proof.
  exact (missing_sku_is_rejected default_config unreachable _ (JInt 1) _ _
           start (demo_call 1 "cost_estimate" [(lit "quantity", JInt 2)])
           eq_refl eq_refl).
Defined.

Lemma quantity_must_be_an_integer_witness :
  handle default_config unreachable
    (request_msg (JInt 1) "tools/call"
       (call_params "cost_estimate"
          (JObj [(lit "sku", JStr (lit "B2s")); (lit "quantity", JNull)])))
    start
  = replied (_mcp_error (JInt 1) (-32602) (lit "quantity must be an integer"))
      start.
Proof.
  exact (proj1 (proj2 (quantity_must_be_an_integer default_config unreachable
                         _ (JInt 1) _ _ start
                         (demo_call 1 "cost_estimate"
                            [(lit "sku", JStr (lit "B2s"));
                             (lit "quantity", JNull)])
                         eq_refl eq_refl))
           eq_refl).
Defined.

Lemma unknown_tool_is_rejected_witness :
  handle default_config unreachable
    (request_msg (JInt 1) "tools/call"
       (call_params "price_history" (JObj [(lit "sku", JStr (lit "B2s"))])))
    start
  = replied (_mcp_error (JInt 1) (-32601) (lit "Unknown tool: price_history"))
      start.
Proof.
  exact (proj1 (unknown_tool_is_rejected default_config unreachable
                  _ (JInt 1) _ _ start
                  (demo_call 1 "price_history" [(lit "sku", JStr (lit "B2s"))])
                  eq_refl eq_refl)).
Defined.

Lemma parameters_must_be_objects_witness :
  handle default_config unreachable
    (request_msg (JInt 1) "tools/call" (JArr [JStr (lit "B2s")])) start
  = replied (_mcp_error (JInt 1) (-32000)
               (lit "Server error: 'list' object has no attribute 'get'"))
      start.
Proof.
  exact (proj1 (parameters_must_be_objects default_config unreachable
                  [ (lit "jsonrpc", JStr (lit "2.0")); (lit "id", JInt 1);
                    (lit "method", JStr (lit "tools/call"));
                    (lit "params", JArr [JStr (lit "B2s")]) ]
                  (JInt 1) start eq_refl ltac:(discriminate) eq_refl)
           ltac:(discriminate)).
Defined.


End DispatcherExamples.

End DispatchFacts.

(* ===================================================================== *)
(** * More on [fetch_prices]: where the loop ends, how long it sleeps *)
(* ===================================================================== *)

Module RetryFacts.
Import Py Value World Fetch Spec Notions WorldFacts FetchFacts.




Section Run.
Context (cfg : config) (up : upstream).



End Run.

Section RetryExamples.
Import Demo.



End RetryExamples.

End RetryFacts.

(* ===================================================================== *)
(** * Sessions: what a client reads, failures upstream, fixed answers *)
(* ===================================================================== *)

Module SessionFacts.
Import Py Value Builtins World Fetch Tools Server Spec Notions WorldFacts.
Import FrameFacts FetchFacts ServerFacts StreamFacts ToolFacts DispatchFacts.
Local Open Scope py_scope.

Section Session.
Context `{rt : Runtime} (cfg : config) (up : upstream).

(** ** A failing upstream *)



(** ** What a client reads *)




(** ** Answers that depend on nothing *)

(** X22.  Answers that depend on nothing.  [initialize], [ping] and
    [tools/list] are answered with one result each, the same whatever the
    [params] of the request, the configuration and the upstream are; none
    of them can fail.  The tools that [tools/list] lists are the two that
    [tools/call] knows: a name is listed exactly if a call by that name is
    not turned down as an unknown tool. *)
Theorem fixed_answers (fields : list (str * value)) (id : value) (w : world) :
  id_of (JObj fields) = id -> id <> JNull ->
  (eq_str (method_of fields) (lit "initialize") = true ->
     handle cfg up (JObj fields) w = replied (_mcp_result id server_info) w)
  /\ (eq_str (method_of fields) (lit "ping") = true ->
      handle cfg up (JObj fields) w = replied (_mcp_result id ping) w)
  /\ (eq_str (method_of fields) (lit "tools/list") = true ->
      handle cfg up (JObj fields) w
      = replied (_mcp_result id _mcp_tools_list) w)
  /\ (forall name,
        In name advertised
        <-> eq_str name (lit "price_search")
            || eq_str name (lit "cost_estimate") = true).
Proof.
  intros Hid Hnn.
  assert (Hhandle : forall reply,
            dispatch cfg up id (method_of fields) (params_of fields) w
            = _mcp_write reply w ->
            handle cfg up (JObj fields) w = replied reply w).
  { intros reply Hd. cbn [id_of] in Hid. unfold handle. rewrite Hid.
    fold (method_of fields) (params_of fields). rewrite Hd.
    rewrite mcp_write_replied. destruct id; (congruence || reflexivity). }
  split; [|split; [|split]].
  - intros Hm. apply Hhandle. apply eq_str_eq in Hm. rewrite Hm. reflexivity.
  - intros Hm. apply Hhandle. apply eq_str_eq in Hm. rewrite Hm. reflexivity.
  - intros Hm. apply Hhandle. apply eq_str_eq in Hm. rewrite Hm. reflexivity.
  - intros name. split.
    + intros [<- | [<- | []]]; reflexivity.
    + intros H. apply orb_prop in H.
      destruct H as [H | H]; apply eq_str_eq in H; subst name.
      * left. reflexivity.
      * right. left. reflexivity.
Qed.

End Session.

Section SessionExamples.
Import Demo.


Lemma fixed_answers_witness :
  handle default_config unreachable ping_msg start
  = replied (_mcp_result (JInt 3) ping) start.
Proof.
  exact (proj1 (proj2 (fixed_answers default_config unreachable
                         [ (lit "jsonrpc", JStr (lit "2.0"));
                           (lit "id", JInt 3);
                           (lit "method", JStr (lit "ping"));
                           (lit "params", JObj []) ]
                         (JInt 3) start eq_refl ltac:(discriminate)))
           eq_refl).
Defined.

End SessionExamples.

End SessionFacts.

(* ===================================================================== *)
(** * The quantity of [cost_estimate] given as text or as a float *)
(* ===================================================================== *)

Module ConversionFacts.
Import Py Value Builtins World Tools Server Spec Notions.
Import FrameFacts DispatchFacts.








Section Dispatcher.
Context `{rt : Runtime} (cfg : config) (up : upstream).


End Dispatcher.

Section ConversionExamples.
Import Demo.


End ConversionExamples.

End ConversionFacts.

(* ===================================================================== *)
(** * The earlier server and the later one *)
(* ===================================================================== *)

Module LegacyFacts.
Import Py Value Builtins World Fetch Spec Notions WorldFacts.
Import FetchFacts ToolFacts.
Local Open Scope py_scope.

Lemma escape_plain s : Forall (fun c => c <> 39) s -> _odata_escape s = s.
Proof.
  unfold _odata_escape. induction 1 as [|c s Hc _ IH]; [reflexivity|].
  cbn [flat_map]. destruct (Z.eqb_spec c 39); [contradiction|].
  rewrite IH. reflexivity.
Qed.

Lemma read_literal_plain a : forall rest,
  Forall (fun c => c <> 39) a -> (forall r, rest <> 39 :: r) ->
  read_literal (a ++ 39 :: rest) = Some (a, rest).
Proof.
  intros rest Ha Hrest. rewrite <- (escape_plain a Ha) at 1.
  apply read_literal_escape, Hrest.
Qed.

Section Versions.
Context `{rt : Runtime} (cfg : config) (up : upstream).

Lemma add_filter_clean filters field arg :
  clean_arg arg ->
  Legacy.add_filter filters field arg = Tools.add_filter filters field arg.
Proof.
  intros [-> | (s & -> & Hstrip & Hplain)]; [reflexivity|].
  unfold Legacy.add_filter, Tools.add_filter. cbn [truthy str_].
  destruct s as [|c s]; [reflexivity|].
  rewrite Hstrip, (escape_plain _ Hplain). reflexivity.
Qed.

Lemma filter_clean sku region currency :
  clean sku -> clean_arg region -> clean_arg currency ->
  Legacy.filter_expr_of sku region currency
  = Tools.filter_expr_of sku region currency.
Proof.
  intros [Hstrip Hplain] Hr Hc.
  unfold Legacy.filter_expr_of, Tools.filter_expr_of.
  rewrite Hstrip, (escape_plain _ Hplain), !add_filter_clean by assumption.
  reflexivity.
Qed.

Lemma price_search_clean sku region currency w :
  valid_sku sku = true -> clean sku -> clean_arg region -> clean_arg currency ->
  Legacy.price_search cfg up sku region currency w
  = Tools.price_search cfg up sku region currency w.
Proof.
  intros Hvalid Hsku Hr Hc. apply valid_sku_checks in Hvalid.
  destruct Hvalid as [Hne Hlen].
  unfold Legacy.price_search, Tools.price_search. rewrite Hne.
  destruct (Z.ltb_spec 200 (len sku)); [lia|].
  cbv zeta. rewrite filter_clean by assumption. reflexivity.
Qed.

Lemma cost_estimate_clean sku quantity region currency w :
  valid_sku sku = true -> clean sku -> clean_arg region -> clean_arg currency ->
  Legacy.cost_estimate cfg up sku quantity region currency w
  = Tools.cost_estimate cfg up sku quantity region currency w.
Proof.
  intros Hvalid Hsku Hr Hc.
  unfold Legacy.cost_estimate, Tools.cost_estimate. unfold bind at 1 7.
  rewrite price_search_clean by assumption. reflexivity.
Qed.

(** X24.  The two versions agree on plain arguments.  For an [sku] that
    passes the checks of the later [price_search] and has no quote and no
    white space at its ends, and a region and a currency that are left
    out or are such texts, the earlier [price_search] and [cost_estimate]
    build the same filter expression as the later ones, make the same
    calls and return the same result. *)
Theorem versions_agree_on_plain_arguments (sku : str) (quantity : Z)
    (region currency : value) (w : world) :
  valid_sku sku = true -> clean sku -> clean_arg region -> clean_arg currency ->
  Legacy.filter_expr_of sku region currency
  = Tools.filter_expr_of sku region currency
  /\ Legacy.price_search cfg up sku region currency w
     = Tools.price_search cfg up sku region currency w
  /\ Legacy.cost_estimate cfg up sku quantity region currency w
     = Tools.cost_estimate cfg up sku quantity region currency w.
Proof.
  intros Hvalid Hsku Hr Hc. split; [|split].
  - apply filter_clean; assumption.
  - apply price_search_clean; assumption.
  - apply cost_estimate_clean; assumption.
Qed.

Lemma legacy_filter_form sku region currency :
  exists rest,
    Legacy.filter_expr_of sku region currency
    = lit "contains(skuName,'" ++ sku ++ 39 :: 41 :: rest.
Proof.
  unfold Legacy.filter_expr_of, Legacy.add_filter.
  destruct (truthy region), (truthy currency); cbn [app join];
    eexists; rewrite <- ?app_assoc; cbn [app]; reflexivity.
Qed.

(** X25.  What the earlier version lets through.  The earlier
    [price_search] puts the [sku] between the quotes as it is: for an
    [sku] with a quote in it that another character follows, the literal
    in the expression it sends ends at that quote, and the rest of the
    [sku] is read as part of the expression, where the later version
    sends a literal that reads back as the whole [sku].  It checks
    nothing either: whatever the [sku], blank or long, what it does to
    the world is what its call of [fetch_prices] does, so that with an
    attempt configured the upstream is called. *)
Theorem earlier_version_does_not_escape (before after : str) (c : Z)
    (region currency : value) (w : world) :
  Forall (fun x => x <> 39) before -> c <> 39 ->
  let sku := before ++ 39 :: c :: after in
  (exists rest,
     Legacy.filter_expr_of sku region currency
     = lit "contains(skuName,'" ++ sku ++ rest
     /\ read_literal (skipn 18 (Legacy.filter_expr_of sku region currency))
        = Some (before, c :: after ++ rest))
  /\ (exists rest,
        read_literal (skipn 18 (Tools.filter_expr_of sku region currency))
        = Some (strip sku, rest))
  /\ (forall any,
        snd (Legacy.price_search cfg up any region currency w)
        = snd (fetch_prices cfg up
                 (Legacy.filter_expr_of any region currency) w)
        /\ (1 <= RETRIES cfg ->
            exists more,
              gets (snd (Legacy.price_search cfg up any region currency w))
              = gets w
                ++ request_of cfg (Legacy.filter_expr_of any region currency)
                   :: more)).
Proof.
  intros Hbefore Hc sku. split; [|split].
  - destruct (legacy_filter_form sku region currency) as [rest Hform].
    exists (39 :: 41 :: rest). split; [exact Hform|].
    rewrite Hform.
    change (skipn 18 (lit "contains(skuName,'" ++ ?x)) with x.
    unfold sku. rewrite <- !app_assoc. cbn [app].
    rewrite read_literal_plain; [reflexivity | exact Hbefore|].
    intros r H. injection H as H _. contradiction.
  - eexists.
    assert (Hform : Tools.filter_expr_of sku region currency
                    = lit "contains(skuName,'"
                      ++ (_odata_escape (strip sku)
                          ++ 39 :: (lit ")"
                                    ++ clause (lit "armRegionName") region
                                    ++ clause (lit "currencyCode") currency))).
    { unfold Tools.filter_expr_of, Tools.add_filter, clause, blankb.
      rewrite !is_empty_escape.
      destruct (truthy region), (Tools.is_empty (strip (str_ region))),
               (truthy currency), (Tools.is_empty (strip (str_ currency)));
        cbn [negb orb app join]; rewrite <- ?app_assoc, ?app_nil_r;
        reflexivity. }
    rewrite Hform.
    change (skipn 18 (lit "contains(skuName,'" ++ ?x)) with x.
    apply read_literal_escape. discriminate.
  - intros any.
    assert (Hworld :
      snd (Legacy.price_search cfg up any region currency w)
      = snd (fetch_prices cfg up
               (Legacy.filter_expr_of any region currency) w)).
    { unfold Legacy.price_search. cbv zeta.
      apply bind_then_pure. intros data.
      repeat (apply pure_bind; [apply pure_lift | intros ?]).
      apply pure_ret. }
    split; [exact Hworld|].
    intros HR. rewrite Hworld.
    rewrite (fetch_prices_run cfg up _ w HR). cbn [snd].
    rewrite gets_app, gets_schedule.
    pose proof (made_bounds
                  (outcome cfg up (Legacy.filter_expr_of any region currency))
                  (Z.to_nat (RETRIES cfg)) (length (gets w))
                  ltac:(lia)) as Hn.
    destruct (made _ _ _) as [|n]; [lia|]. cbn [repeat]. eauto.
Qed.

End Versions.

Section VersionExamples.
Import Demo.

Lemma versions_agree_on_plain_arguments_witness :
  Legacy.price_search default_config (serving ten_items) (lit "B2s")
    (JStr (lit "eastus")) JNull start
  = Tools.price_search default_config (serving ten_items) (lit "B2s")
      (JStr (lit "eastus")) JNull start.
Proof.
  refine (proj1 (proj2 (versions_agree_on_plain_arguments default_config
                          (serving ten_items) (lit "B2s") 1
                          (JStr (lit "eastus")) JNull start
                          eq_refl _ _ _))).
  - split; [reflexivity|]. unfold lit. cbn.
    repeat (constructor; [discriminate|]). constructor.
  - right. exists (lit "eastus"). split; [reflexivity|].
    split; [reflexivity|]. unfold lit. cbn.
    repeat (constructor; [discriminate|]). constructor.
  - left. reflexivity.
Defined.

Lemma earlier_version_does_not_escape_witness :
  exists rest,
    read_literal
      (skipn 18 (Legacy.filter_expr_of (lit "x') or (1 eq 1") JNull JNull))
    = Some (lit "x", lit ") or (1 eq 1" ++ rest).
Proof.
  destruct (proj1 (earlier_version_does_not_escape default_config unreachable
                     (lit "x") (lit " or (1 eq 1") 41 JNull JNull start
                     ltac:(repeat constructor; discriminate)
                     ltac:(discriminate)))
    as (rest & _ & Hread).
  exists rest. exact Hread.
Defined.

End VersionExamples.

End LegacyFacts.

(* ===================================================================== *)
(** * The command lines and the health check *)
(* ===================================================================== *)

Module CliFacts.
Import Py Value Builtins World Fetch Tools Server Spec Notions WorldFacts.
Import ToolFacts DispatchFacts LegacyFacts.
Local Open Scope py_scope.

Section CommandLine.
Context `{rt : Runtime} (cfg : config) (up : upstream).

Lemma print_line_printed data w :
  Cli.print_line data w = (inr tt, printed data w).
Proof.
  unfold Cli.print_line, printed, bind, write. rewrite <- app_assoc.
  reflexivity.
Qed.

(** X26.  The two command lines.  For [price_search] and
    [cost_estimate] with plain arguments (an [sku] that passes the checks,
    no quotes, no white space at the ends) the earlier [main] and the
    later one do the same and print the same line.  For [ping], and for
    no subcommand at all, the earlier [main] prints nothing: it raises the
    [AttributeError] of the attribute [region], which only the two tool
    subcommands define; the later [main] prints the answer of [ping] in
    both cases, and in the mode [mcp] it is the server on the reads of
    standard input. *)
Theorem command_lines_compared (stdin : list (list byte)) (w : world) :
  (forall sku region currency,
     valid_sku sku = true -> clean sku ->
     clean_arg (or_ (of_env region) (of_env (DEFAULT_REGION cfg))) ->
     clean_arg (or_ (of_env currency) (of_env (DEFAULT_CURRENCY cfg))) ->
     Legacy.main cfg up (Legacy.PriceSearch sku region currency) w
     = Cli.main cfg up stdin (Cli.PriceSearch sku region currency) w
     /\ forall quantity,
          Legacy.main cfg up (Legacy.CostEstimate sku quantity region currency)
            w
          = Cli.main cfg up stdin
              (Cli.CostEstimate sku quantity region currency) w)
  /\ Legacy.main cfg up Legacy.Ping w
     = (inl (Legacy.no_attribute (lit "region")), w)
  /\ Legacy.main cfg up Legacy.NoCommand w
     = (inl (Legacy.no_attribute (lit "region")), w)
  /\ Cli.main cfg up stdin Cli.Ping w = (inr tt, printed ping w)
  /\ Cli.main cfg up stdin Cli.NoCommand w = (inr tt, printed ping w)
  /\ Cli.main cfg up stdin Cli.Mcp w
     = (inr tt, run_mcp_stdio cfg up stdin [] w).
Proof.
  split; [|split; [|split; [|split; [|split]]]]; try reflexivity.
  - intros sku region currency Hvalid Hsku Hr Hc. split.
    + unfold Legacy.main, Cli.main, bind at 1 2, lift.
      cbn [Legacy.region_of_args Legacy.currency_of_args
           Cli.region_or_none Cli.currency_or_none].
      unfold bind at 1 3.
      rewrite price_search_clean by assumption. reflexivity.
    + intros quantity.
      unfold Legacy.main, Cli.main, bind at 1 2, lift.
      cbn [Legacy.region_of_args Legacy.currency_of_args
           Cli.region_or_none Cli.currency_or_none].
      unfold bind at 1 3.
      rewrite cost_estimate_clean by assumption. reflexivity.
  - unfold Cli.main, bind at 1, ret. apply print_line_printed.
  - unfold Cli.main, bind at 1, ret. apply print_line_printed.
Qed.


(** ** The health check *)

(** What [price_search] returns is never an error entry. *)
Lemma price_search_not_error sku region currency w found w' :
  price_search cfg up sku region currency w = (inr found, w') ->
  HealthCheck.is_error found = false.
Proof.
  unfold price_search.
  destruct (is_empty (strip sku)); [discriminate|].
  destruct (200 <? len sku); [discriminate|].
  cbv zeta. unfold bind, lift, ret.
  destruct (fetch_prices cfg up _ w) as [[e | data] w1]; [discriminate|].
  destruct (get data (lit "Items") (JArr [])) as [e | counted];
    [discriminate|].
  destruct (len_ counted) as [e | count]; [discriminate|].
  destruct (slice5 counted) as [e | items]; [discriminate|].
  intros H. injection H as <- _. reflexivity.
Qed.

(** X28.  The exit code of the health check.  [main] never raises.  It
    returns 0 when its [price_search] returned and 1 when it raised,
    whatever the exception; it calls the upstream as that one
    [price_search] does and no more; and it prints one line, the report,
    which holds the answer of [ping] and, under [price_search], the result
    or the error entry with the message of the exception.  With nothing
    set in the environment the [sku] searched is [Standard_B2s]. *)
Theorem health_check_exit_code (e : HealthCheck.env) (w : world) :
  let sku := match HealthCheck.AZURE_PRICING_HEALTH_SKU e with
             | Some s => s
             | None => lit "Standard_B2s"
             end in
  let searched :=
    price_search cfg up sku
      (of_env (HealthCheck.AZURE_PRICING_HEALTH_REGION e))
      (of_env (HealthCheck.AZURE_PRICING_HEALTH_CURRENCY e)) w in
  exists report,
    HealthCheck.main cfg up e w
    = (match fst searched with inr _ => 0 | inl _ => 1 end,
       printed (JObj report) (snd searched))
    /\ lookup (lit "sku") report = Some (JStr sku)
    /\ lookup (lit "ping") report = Some ping
    /\ lookup (lit "price_search") report
       = Some (match fst searched with
               | inr found => found
               | inl exc => HealthCheck.failed exc
               end)
    /\ gets (snd (HealthCheck.main cfg up e w)) = gets (snd searched).
Proof.
  intros sku searched. unfold HealthCheck.main. fold sku.
  subst searched.
  set (region := of_env (HealthCheck.AZURE_PRICING_HEALTH_REGION e)).
  set (currency := of_env (HealthCheck.AZURE_PRICING_HEALTH_CURRENCY e)).
  assert (Hplain : HealthCheck.is_error region = false
                   /\ HealthCheck.is_error currency = false).
  { unfold region, currency.
    destruct (HealthCheck.AZURE_PRICING_HEALTH_REGION e),
             (HealthCheck.AZURE_PRICING_HEALTH_CURRENCY e);
      split; reflexivity. }
  destruct Hplain as [Hregion Hcurrency].
  destruct (price_search cfg up sku region currency w)
    as [[exc | found] w1] eqn:Hsearch; cbn [fst snd].
  - exists [ (lit "sku", JStr sku); (lit "region", region);
             (lit "currency", currency); (lit "ping", ping);
             (lit "price_search", HealthCheck.failed exc) ].
    unfold bind, write, printed. cbn [snd app existsb].
    rewrite Hregion, Hcurrency, <- app_assoc.
    split; [reflexivity|]. repeat (split; [reflexivity|]).
    rewrite gets_app. cbn [app gets]. apply app_nil_r.
  - pose proof (price_search_not_error _ _ _ _ _ _ Hsearch) as Hok.
    exists [ (lit "sku", JStr sku); (lit "region", region);
             (lit "currency", currency); (lit "ping", ping);
             (lit "price_search", found) ].
    unfold bind, write, printed. cbn [snd app existsb].
    rewrite Hregion, Hcurrency, Hok, <- app_assoc.
    split; [reflexivity|]. repeat (split; [reflexivity|]).
    rewrite gets_app. cbn [app gets]. apply app_nil_r.
Qed.

End CommandLine.

Section CommandLineExamples.
Import Demo.


End CommandLineExamples.

End CliFacts.

(* ===================================================================== *)
(** * The stub servers *)
(* ===================================================================== *)

Module StubFacts.
Import Py Value Builtins World Server Spec Notions.
Import DispatchFacts.
Local Open Scope py_scope.

Section Stubs.
Context `{rt : Runtime}.

Lemma replies_write id resp :
  is_response id resp -> replies id (_mcp_write resp).
Proof.
  intros Hresp w. left. exists resp. split; [exact Hresp|].
  apply mcp_write_replied.
Qed.

Lemma replies_result id r : replies id (_mcp_write (_mcp_result id r)).
Proof. apply replies_write. left. eauto. Qed.

Lemma replies_error id code message :
  replies id (_mcp_write (_mcp_error id code message)).
Proof. apply replies_write. right. eauto. Qed.

Lemma replies_bind_lift {A} id (r : result A) (k : A -> M unit) :
  (forall a, r = inr a -> replies id (k a)) -> replies id (bind (lift r) k).
Proof.
  intros Hk w. unfold bind, lift. destruct r as [exc | a].
  - right. eauto.
  - apply Hk. reflexivity.
Qed.

Lemma replies_bind_ret {A} id (a : A) (k : A -> M unit) :
  replies id (k a) -> replies id (bind (ret a) k).
Proof. intros Hk w. unfold bind, ret. apply Hk. Qed.

(** What a [handle] built like the one of the pricing server makes of a
    dispatcher that replies. *)
Lemma handle_replies (dispatch : value -> value -> value -> M unit)
    (handle : value -> world -> world) :
  (forall id method params, replies id (dispatch id method params)) ->
  (forall msg w,
     handle msg w
     = match msg with
       | JObj fields =>
         let req_id := dict_get fields (lit "id") JNull in
         let method := dict_get fields (lit "method") JNull in
         let params := or_ (dict_get fields (lit "params") JNull) (JObj []) in
         match req_id with
         | JNull => w
         | _ =>
           match dispatch req_id method params w with
           | (inr _, w') => w'
           | (inl exc, w') =>
             snd (_mcp_write (_mcp_error req_id (-32000)
                                (lit "Server error: " ++ exn_str exc)) w')
           end
         end
       | _ => w
       end) ->
  forall msg w,
    (requestb msg = false -> handle msg w = w)
    /\ (requestb msg = true ->
        exists resp,
          is_response (id_of msg) resp /\ handle msg w = replied resp w).
Proof.
  intros Hdispatch Hhandle msg w. rewrite Hhandle. unfold requestb.
  destruct msg as [| | | | | |fields]; cbn [id_of is_null negb];
    try (split; [reflexivity | discriminate]).
  cbv zeta.
  set (id := dict_get fields (lit "id") JNull).
  specialize (Hdispatch id (dict_get fields (lit "method") JNull)
                (or_ (dict_get fields (lit "params") JNull) (JObj [])) w).
  destruct (is_null id) eqn:Hnull; cbn [negb].
  - split; [intros _ | discriminate]. destruct id; (discriminate || reflexivity).
  - split; [discriminate | intros _].
    destruct Hdispatch as [(resp & Hresp & ->) | (exc & ->)].
    + exists resp. split; [exact Hresp|].
      destruct id; (discriminate || reflexivity).
    + exists (_mcp_error id (-32000) (lit "Server error: " ++ exn_str exc)).
      split; [right; eauto|]. rewrite mcp_write_replied.
      destruct id; (discriminate || reflexivity).
Qed.

(** What such a [handle] makes of a request [tools/call]. *)
Lemma handle_stub_call (dispatch : value -> value -> value -> M unit)
    (tools_call : value -> value -> M unit)
    (handle : value -> world -> world) fields id params w reply :
  (forall msg w,
     handle msg w
     = match msg with
       | JObj fields =>
         let req_id := dict_get fields (lit "id") JNull in
         let method := dict_get fields (lit "method") JNull in
         let params := or_ (dict_get fields (lit "params") JNull) (JObj []) in
         match req_id with
         | JNull => w
         | _ =>
           match dispatch req_id method params w with
           | (inr _, w') => w'
           | (inl exc, w') =>
             snd (_mcp_write (_mcp_error req_id (-32000)
                                (lit "Server error: " ++ exn_str exc)) w')
           end
         end
       | _ => w
       end) ->
  (forall id params,
     dispatch id (JStr (lit "tools/call")) params = tools_call id params) ->
  id_of (JObj fields) = id -> id <> JNull ->
  eq_str (method_of fields) (lit "tools/call") = true ->
  params_of fields = JObj params ->
  tools_call id (JObj params) w = _mcp_write reply w ->
  handle (JObj fields) w = replied reply w.
Proof.
  intros Hhandle Hdispatch Hid Hnn Hmethod Hparams Hcall.
  rewrite Hhandle. cbv zeta. cbn [id_of] in Hid. rewrite Hid.
  fold (method_of fields) (params_of fields).
  apply eq_str_eq in Hmethod. rewrite Hmethod, Hparams, Hdispatch, Hcall.
  rewrite mcp_write_replied. destruct id; (congruence || reflexivity).
Qed.

(** ** microsoft-docs-mcp *)

Lemma docs_dispatch_replies id method params :
  replies id (Docs.dispatch id method params).
Proof.
  unfold Docs.dispatch, Docs.tools_call, Docs._mcp_write, Docs._mcp_error,
    Docs._mcp_result.
  repeat (destruct (eq_str method _); [try apply replies_result|]);
    [|apply replies_error].
  apply replies_bind_lift. intros name _.
  apply replies_bind_lift. intros given _. cbv zeta.
  destruct (negb (eq_str name (lit "search"))); [apply replies_error|].
  apply replies_bind_lift. intros query_text _.
  destruct (negb (truthy query_text));
    [apply replies_error | apply replies_result].
Qed.

(** X29.  The stub server for the documentation.  Its [handle] answers
    every request (an object whose [id] is not null) with exactly one
    response to that [id], written as one frame, and does nothing else;
    every other message changes nothing.  A call of [search] with a
    [query] is answered with the stub result that repeats the text of the
    query, and one without a [query] with the error -32602.  A call that
    names another tool is answered with the error -32601 before the
    arguments are looked at, so also when they are not an object. *)
Theorem docs_server_answers (msg : value) (w : world) :
  (requestb msg = false -> Docs.handle msg w = w)
  /\ (requestb msg = true ->
      exists resp,
        is_response (id_of msg) resp /\ Docs.handle msg w = replied resp w)
  /\ (forall id params arguments,
        tool_call msg id params arguments ->
        eq_str (name_of params) (lit "search") = true ->
        let query_text := dict_get arguments (lit "query") JNull in
        Docs.handle msg w
        = if truthy query_text
          then replied (_mcp_result id (Docs.search (str_ query_text))) w
          else replied (_mcp_error id (-32602)
                          (lit "Missing required argument: query")) w)
  /\ (forall fields id params,
        msg = JObj fields -> id_of msg = id -> id <> JNull ->
        eq_str (method_of fields) (lit "tools/call") = true ->
        params_of fields = JObj params ->
        eq_str (name_of params) (lit "search") = false ->
        Docs.handle msg w
        = replied (_mcp_error id (-32601)
                     (lit "Unknown tool: " ++ str_ (name_of params))) w).
Proof.
  assert (Hhandle : forall msg w,
            Docs.handle msg w
            = match msg with
              | JObj fields =>
                let req_id := dict_get fields (lit "id") JNull in
                let method := dict_get fields (lit "method") JNull in
                let params :=
                  or_ (dict_get fields (lit "params") JNull) (JObj []) in
                match req_id with
                | JNull => w
                | _ =>
                  match Docs.dispatch req_id method params w with
                  | (inr _, w') => w'
                  | (inl exc, w') =>
                    snd (_mcp_write
                           (_mcp_error req_id (-32000)
                              (lit "Server error: " ++ exn_str exc)) w')
                  end
                end
              | _ => w
              end) by reflexivity.
  destruct (handle_replies Docs.dispatch Docs.handle docs_dispatch_replies
              Hhandle msg w) as [Hquiet Hone].
  split; [exact Hquiet|]. split; [exact Hone|]. split.
  - intros id params arguments (fields & -> & Hid & Hnn & Hmethod & Hp & Ha)
      Hname query_text.
    assert (Hcall : forall reply,
              Docs.tools_call id (JObj params) w = _mcp_write reply w ->
              Docs.handle (JObj fields) w = replied reply w).
    { intros reply. apply (handle_stub_call Docs.dispatch Docs.tools_call);
        try assumption. reflexivity. }
    unfold arguments_of in Ha.
    destruct (truthy query_text) eqn:Hq; apply Hcall;
      unfold Docs.tools_call, bind, lift; cbn [get];
      fold (name_of params); rewrite Hname, Ha; cbn [negb get];
      fold query_text; rewrite Hq; reflexivity.
  - intros fields id params -> Hid Hnn Hmethod Hp Hname.
    apply (handle_stub_call Docs.dispatch Docs.tools_call _ _ _ _ _ _
             Hhandle (fun _ _ => eq_refl) Hid Hnn Hmethod Hp).
    unfold Docs.tools_call, bind, lift. cbn [get].
    fold (name_of params). rewrite Hname. reflexivity.
Qed.

(** ** azure-resource-graph-mcp *)

Lemma graph_dispatch_replies id method params :
  replies id (Graph.dispatch id method params).
Proof.
  unfold Graph.dispatch, Graph.tools_call, Graph._mcp_write, Graph._mcp_error,
    Graph._mcp_result.
  repeat (destruct (eq_str method _); [try apply replies_result|]);
    [|apply replies_error].
  apply replies_bind_lift. intros name _.
  apply replies_bind_lift. intros given _. cbv zeta.
  destruct (negb (eq_str name (lit "query"))); [apply replies_error|].
  apply replies_bind_lift. intros by_kusto _.
  destruct (truthy by_kusto).
  - apply replies_bind_ret.
    destruct (negb (truthy by_kusto));
      [apply replies_error | apply replies_result].
  - apply replies_bind_lift. intros kusto _.
    destruct (negb (truthy kusto));
      [apply replies_error | apply replies_result].
Qed.

(** X30.  The stub server for the resource graph.  Its [handle] answers
    every request with exactly one response to its [id] and does nothing
    else; every other message changes nothing.  A call of [query] takes
    its text from the argument [kusto] when that is there and truthy, and
    otherwise from the argument [query]; with neither it is answered with
    the error -32602 that names [kusto].  The stub result repeats the
    text and lists no results. *)
Theorem graph_server_answers (msg : value) (w : world) :
  (requestb msg = false -> Graph.handle msg w = w)
  /\ (requestb msg = true ->
      exists resp,
        is_response (id_of msg) resp /\ Graph.handle msg w = replied resp w)
  /\ (forall id params arguments,
        tool_call msg id params arguments ->
        eq_str (name_of params) (lit "query") = true ->
        let by_kusto := dict_get arguments (lit "kusto") JNull in
        let by_query := dict_get arguments (lit "query") JNull in
        Graph.handle msg w
        = if truthy by_kusto
          then replied (_mcp_result id (Graph.query (str_ by_kusto))) w
          else if truthy by_query
          then replied (_mcp_result id (Graph.query (str_ by_query))) w
          else replied (_mcp_error id (-32602)
                          (lit "Missing required argument: kusto")) w).
Proof.
  assert (Hhandle : forall msg w,
            Graph.handle msg w
            = match msg with
              | JObj fields =>
                let req_id := dict_get fields (lit "id") JNull in
                let method := dict_get fields (lit "method") JNull in
                let params :=
                  or_ (dict_get fields (lit "params") JNull) (JObj []) in
                match req_id with
                | JNull => w
                | _ =>
                  match Graph.dispatch req_id method params w with
                  | (inr _, w') => w'
                  | (inl exc, w') =>
                    snd (_mcp_write
                           (_mcp_error req_id (-32000)
                              (lit "Server error: " ++ exn_str exc)) w')
                  end
                end
              | _ => w
              end) by reflexivity.
  destruct (handle_replies Graph.dispatch Graph.handle graph_dispatch_replies
              Hhandle msg w) as [Hquiet Hone].
  split; [exact Hquiet|]. split; [exact Hone|].
  intros id params arguments (fields & -> & Hid & Hnn & Hmethod & Hp & Ha)
    Hname by_kusto by_query.
  assert (Hcall : forall reply,
            Graph.tools_call id (JObj params) w = _mcp_write reply w ->
            Graph.handle (JObj fields) w = replied reply w).
  { intros reply. apply (handle_stub_call Graph.dispatch Graph.tools_call);
      try assumption. reflexivity. }
  unfold arguments_of in Ha.
  destruct (truthy by_kusto) eqn:Hk; [|destruct (truthy by_query) eqn:Hq];
    apply Hcall;
    unfold Graph.tools_call, bind, lift, ret; cbn [get];
    fold (name_of params); rewrite Hname, Ha; cbn [negb get];
    fold by_kusto; rewrite Hk; cbn [get]; fold by_query;
    rewrite ?Hk, ?Hq; reflexivity.
Qed.

End Stubs.

End StubFacts.
